(** * Sentinel-BIST hybrid decision engine (src/engine.py)

    A shallow embedding of [HybridDecisionEngine] and a verification of its
    daily trade limiter, drawdown monitor, alignment classifier, [evaluate]
    and [run_cycle]; then of the loop of src/main.py that runs the cycles
    and of the price lookup of the dashboard (src/app.py).

    - Python [float] is IEEE 754 binary64: it is modelled by Rocq's primitive
      [float], whose operations are the same binary64 operations (round to
      nearest, ties to even).  Python [int] is [Z].
    - The engine object ([self]) is the record [Engine]; methods are
      computations in the monad [Eng], which threads the engine, raises
      exceptions, talks to the outside world (calendar, yfinance, analyzers,
      broker) through an environment [Env], and records every such
      interaction in a trace. *)

Set Warnings "-inexact-float,-clear-no-such-hyp".
From Stdlib Require Import ZArith Lia Bool List Ascii String Floats.
From stdpp Require Import base option gmap strings.
Import ListNotations.

Local Open Scope Z_scope.

(** ** Python values *)

(** [datetime.date]: only equality of dates is used; a date is its ordinal. *)
Definition date := Z.

(** Exceptions that can travel through the engine.  A collaborator's failure
    is represented by the text [str(e)] of the exception it raised. *)
Inductive exn :=
| ZeroDivisionError
| ProviderError (msg : string).

Definition exn_str (e : exn) : string :=
  match e with
  | ZeroDivisionError => "float division by zero"
  | ProviderError msg => msg
  end.

(** Result of a Python call: a value or a raised exception. *)
Inductive Res (A : Type) :=
| Val (a : A)
| Exc (e : exn).
Arguments Val {A} a.
Arguments Exc {A} e.

(** Truthiness of a [float]: false exactly for [0.0] and [-0.0]. *)
Definition float_truthy (x : float) : bool := negb (PrimFloat.eqb x 0%float).

(** Built-in [max(a, b)] on floats: the first argument is kept unless the
    second compares strictly greater. *)
Definition py_max (a b : float) : float := if PrimFloat.ltb a b then b else a.

(** [x or 0.0] for [x : Optional[float]]. *)
Definition or_zero (x : option float) : float :=
  match x with
  | Some p => if float_truthy p then p else 0%float
  | None => 0%float
  end.

(** Truthiness of an [Optional[str]]: [None] and the empty string are false. *)
Definition str_truthy (s : option string) : option string :=
  match s with
  | Some EmptyString => None
  | other => other
  end.

(** [str.upper] and [str.endswith], on ASCII symbols.  [upper] is
    [str.upper] on the strings that [isascii] accepts; the case mapping of
    other letters is not modelled, and what is stated of the symbol built
    by [upper] is stated of ASCII tickers. *)
Definition ascii_upper (c : ascii) : ascii :=
  let n := nat_of_ascii c in
  if (Nat.leb 97 n && Nat.leb n 122)%bool then ascii_of_nat (n - 32) else c.

Fixpoint upper (s : string) : string :=
  match s with
  | EmptyString => EmptyString
  | String c r => String (ascii_upper c) (upper r)
  end.

(** [str.isascii]: every character is below 128. *)
Fixpoint isascii (s : string) : bool :=
  match s with
  | EmptyString => true
  | String c r => (Nat.ltb (nat_of_ascii c) 128 && isascii r)%bool
  end.

Definition endswith (s suffix : string) : bool :=
  let n := String.length s in
  let m := String.length suffix in
  (Nat.leb m n && String.eqb (substring (n - m) m s) suffix)%bool.

(** ** Data model *)

Inductive Action := BUY | SELL | HOLD.

Record DecisionResult := {
  action : Action;
  ticker : string;
  T_score : float;
  S_score : float;
  confidence_score : float;
  aligned : bool;
  daily_trades_left : Z;
  reason : string
}.

(** A broker position ([broker.get_position]); the engine reads
    [entry_price] only. *)
Record Position := {
  entry_price : float;
  quantity : Z
}.

(** The mutable fields of [HybridDecisionEngine]. *)
Record Engine := {
  _trade_counter_date : option date;
  _trade_count_today : Z;
  _peak_prices : gmap string float
}.

(** [HybridDecisionEngine.__init__]. *)
Definition new_engine : Engine :=
  {| _trade_counter_date := None; _trade_count_today := 0; _peak_prices := ∅ |}.

Definition MAX_DAILY_TRADES : Z := 3.
Definition ALIGNMENT_THRESHOLD : float := 0.2%float.
Definition DRAWDOWN_THRESHOLD : float := 0.03%float.
Definition ANIMAL_SPIRITS_PENALTY : float := 0.30%float.

(** ** The outside world *)

(** One interaction with a collaborator, with the answer received. *)
Inductive Interaction :=
| IToday (d : date)
| IHistory (symbol : string) (closes : option (list float))
| IAnalyze (t : string) (r : string + float)
| ISentiment (t : string) (r : string + float * bool)
| IGetPosition (t : string) (r : option Position)
| IExecuteBuy (t : string) (qty : Z)
| IExecuteSell (t : string) (qty : Z).

(** The collaborators, as transitions of a world [W]:
    - [env_today]: [date.today()];
    - [env_history s]: [yf.Ticker(s).history(period="5d")["Close"]], [None]
      when anything in that expression raises;
    - [env_analyze t]: [TechnicalAnalyzer.analyze(t)], the score or the
      message of the exception raised;
    - [env_sentiment t]: [SentimentAnalyzer.score_for_ticker_with_risk(t)];
    - [env_get_position], [env_execute_buy], [env_execute_sell]: the broker,
      which is always present ([__init__] creates one when none is given). *)
Record Env (W : Type) := {
  env_today : W -> date * W;
  env_history : string -> W -> option (list float) * W;
  env_analyze : string -> W -> (string + float) * W;
  env_sentiment : string -> W -> (string + float * bool) * W;
  env_get_position : string -> W -> option Position * W;
  env_execute_buy : string -> Z -> W -> W;
  env_execute_sell : string -> Z -> W -> W
}.
Arguments env_today {W}.
Arguments env_history {W}.
Arguments env_analyze {W}.
Arguments env_sentiment {W}.
Arguments env_get_position {W}.
Arguments env_execute_buy {W}.
Arguments env_execute_sell {W}.

(** ** The engine monad *)

(** A method call: from the engine and the world before the call to its
    result, the engine and the world after it, and the interactions made. *)
Definition Eng (W A : Type) : Type :=
  Engine -> W -> Res A * Engine * W * list Interaction.

Definition ret {W A} (a : A) : Eng W A :=
  fun self w => (Val a, self, w, []).

Definition raise {W A} (e : exn) : Eng W A :=
  fun self w => (Exc e, self, w, []).

Definition bind {W A B} (m : Eng W A) (k : A -> Eng W B) : Eng W B :=
  fun self w =>
    match m self w with
    | (Val a, self1, w1, t1) =>
        match k a self1 w1 with
        | (r, self2, w2, t2) => (r, self2, w2, t1 ++ t2)
        end
    | (Exc e, self1, w1, t1) => (Exc e, self1, w1, t1)
    end.

(** [try: m except Exception as e: h e]. *)
Definition try_except {W A} (m : Eng W A) (h : exn -> Eng W A) : Eng W A :=
  fun self w =>
    match m self w with
    | (Val a, self1, w1, t1) => (Val a, self1, w1, t1)
    | (Exc e, self1, w1, t1) =>
        match h e self1 w1 with
        | (r, self2, w2, t2) => (r, self2, w2, t1 ++ t2)
        end
    end.

Definition get_self {W} : Eng W Engine :=
  fun self w => (Val self, self, w, []).

Definition put_self {W} (self' : Engine) : Eng W unit :=
  fun _ w => (Val tt, self', w, []).

Declare Scope eng_scope.
Delimit Scope eng_scope with eng.
Notation "x <- m ;; k" := (bind m (fun x => k))
  (at level 100, m at next level, right associativity) : eng_scope.
Notation "m ;;; k" := (bind m (fun _ => k))
  (at level 100, right associativity) : eng_scope.
Local Open Scope eng_scope.

Section Engine.
Context {W : Type} (env : Env W).

(** *** Collaborator calls *)

Definition date_today : Eng W date :=
  fun self w => let '(d, w1) := env_today env w in (Val d, self, w1, [IToday d]).

Definition yf_history (symbol : string) : Eng W (option (list float)) :=
  fun self w =>
    let '(h, w1) := env_history env symbol w in (Val h, self, w1, [IHistory symbol h]).

Definition technical_analyze (t : string) : Eng W float :=
  fun self w =>
    let '(r, w1) := env_analyze env t w in
    (match r with inl msg => Exc (ProviderError msg) | inr x => Val x end,
     self, w1, [IAnalyze t r]).

Definition score_for_ticker_with_risk (t : string) : Eng W (float * bool) :=
  fun self w =>
    let '(r, w1) := env_sentiment env t w in
    (match r with inl msg => Exc (ProviderError msg) | inr x => Val x end,
     self, w1, [ISentiment t r]).

Definition get_position (t : string) : Eng W (option Position) :=
  fun self w =>
    let '(p, w1) := env_get_position env t w in (Val p, self, w1, [IGetPosition t p]).

Definition execute_buy (t : string) (qty : Z) : Eng W unit :=
  fun self w => (Val tt, self, env_execute_buy env t qty w, [IExecuteBuy t qty]).

Definition execute_sell (t : string) (qty : Z) : Eng W unit :=
  fun self w => (Val tt, self, env_execute_sell env t qty w, [IExecuteSell t qty]).

(** *** Daily trade limiter *)

(** [self._trade_counter_date != today]. *)
Definition date_differs (stored : option date) (today : date) : bool :=
  match stored with
  | Some d => negb (d =? today)
  | None => true
  end.

Definition _refresh_daily_counter : Eng W unit :=
  today <- date_today ;;
  self <- get_self ;;
  if date_differs (_trade_counter_date self) today then
    put_self {| _trade_counter_date := Some today;
                _trade_count_today := 0;
                _peak_prices := _peak_prices self |}
  else ret tt.

Definition _increment_trade_count : Eng W bool :=
  _refresh_daily_counter ;;;
  self <- get_self ;;
  if _trade_count_today self >=? MAX_DAILY_TRADES then ret false
  else
    put_self {| _trade_counter_date := _trade_counter_date self;
                _trade_count_today := _trade_count_today self + 1;
                _peak_prices := _peak_prices self |} ;;;
    ret true.

Definition _trades_remaining : Eng W Z :=
  _refresh_daily_counter ;;;
  self <- get_self ;;
  ret (Z.max 0 (MAX_DAILY_TRADES - _trade_count_today self)).

(** *** Prices and drawdown *)

Definition yf_symbol (ticker : string) : string :=
  let t := upper ticker in
  if endswith t ".IS" then t else t +:+ ".IS".

Definition last_close (closes : list float) : option float :=
  match closes with
  | [] => None
  | c :: r => Some (List.last r c)
  end.

Definition _get_current_price (ticker : string) : Eng W (option float) :=
  hist <- yf_history (yf_symbol ticker) ;;
  ret (match hist with
       | None => None
       | Some closes => last_close closes
       end).

(** [a / b] on Python floats raises when [b] is a zero. *)
Definition py_div (a b : float) : Eng W float :=
  if float_truthy b then ret (a / b)%float else raise ZeroDivisionError.

(** [self.broker] is the broker object and a position it returns is an
    object: both are true where the source tests them. *)
Definition _check_drawdown_sell (ticker : string) : Eng W bool :=
  pos <- get_position ticker ;;
  match pos with
  | None => ret false
  | Some pos =>
      current <- _get_current_price ticker ;;
      match current with
      | None => ret false
      | Some current =>
          self <- get_self ;;
          let peak := default (entry_price pos) (_peak_prices self !! ticker) in
          let peak := py_max peak current in
          put_self {| _trade_counter_date := _trade_counter_date self;
                      _trade_count_today := _trade_count_today self;
                      _peak_prices := <[ticker := peak]> (_peak_prices self) |} ;;;
          drawdown <- py_div (peak - current)%float peak ;;
          ret (DRAWDOWN_THRESHOLD <=? drawdown)%float
      end
  end.

(** *** Alignment *)

(** The local [thresh] of [_aligned]. *)
Definition alignment_thresh (confidence : float) : float :=
  if (0 <? confidence)%float then (ALIGNMENT_THRESHOLD / confidence)%float
  else ALIGNMENT_THRESHOLD.

Definition _aligned (T S confidence : float) : bool * string :=
  let thresh := alignment_thresh confidence in
  if ((thresh <? T) && (thresh <? S))%float%bool then (true, "bullish"%string)
  else if ((T <? - thresh) && (S <? - thresh))%float%bool then (true, "bearish"%string)
  else (false, "neutral"%string).

(** *** evaluate

    The body of [evaluate] is cut at its four comment banners; each rule
    returns [Some result] when one of its [return] statements is reached and
    [None] when control falls through to the next rule. *)

(** Lines 152-174, "MIT Sloan: Check drawdown for current holding first". *)
Definition evaluate_drawdown (current_holding : option string)
  : Eng W (option DecisionResult) :=
  match str_truthy current_holding with
  | None => ret None
  | Some holding =>
      fired <- _check_drawdown_sell holding ;;
      if fired : bool then
        ok <- _increment_trade_count ;;
        if ok : bool then
          left <- _trades_remaining ;;
          ret (Some {| action := SELL; ticker := holding;
                       T_score := 0; S_score := 0; confidence_score := 1;
                       aligned := true; daily_trades_left := left;
                       reason := "MIT Sloan: Position dropped >3% from peak. Sell triggered." |})
        else
          ret (Some {| action := HOLD; ticker := holding;
                       T_score := 0; S_score := 0; confidence_score := 1;
                       aligned := true; daily_trades_left := 0;
                       reason := "Drawdown SELL required but daily limit reached." |})
      else ret None
  end.

(** [1.0 - ANIMAL_SPIRITS_PENALTY if risk else 1.0]. *)
Definition confidence_of (risk : bool) : float :=
  if risk then (1 - ANIMAL_SPIRITS_PENALTY)%float else 1%float.

(** Lines 176-184, "Sentiment with Animal Spirits risk check": the pair
    [(S, confidence)] for the candidate. *)
Definition evaluate_sentiment (tkr : string) : Eng W (float * float) :=
  sr <- try_except (score_for_ticker_with_risk tkr)
                   (fun _ => ret (0%float, false)) ;;
  ret (fst sr, confidence_of (snd sr)).

(** Lines 186-220, "Downside risk: analyze current holding for bearish
    signals". *)
Definition evaluate_downside (current_holding : option string)
  : Eng W (option DecisionResult) :=
  match str_truthy current_holding with
  | None => ret None
  | Some holding =>
      T_hold <- try_except (technical_analyze holding) (fun _ => ret 0%float) ;;
      sc <- try_except
              (sr <- score_for_ticker_with_risk holding ;;
               ret (fst sr, confidence_of (snd sr)))
              (fun _ => ret (0%float, 1%float)) ;;
      let S_hold := fst sc in
      let conf_hold := snd sc in
      let al := _aligned T_hold S_hold conf_hold in
      if (fst al && String.eqb (snd al) "bearish")%bool then
        ok <- _increment_trade_count ;;
        if ok : bool then
          left <- _trades_remaining ;;
          ret (Some {| action := SELL; ticker := holding;
                       T_score := T_hold; S_score := S_hold;
                       confidence_score := conf_hold;
                       aligned := true; daily_trades_left := left;
                       reason := "Downside risk detected; rebalancing." |})
        else
          ret (Some {| action := HOLD; ticker := holding;
                       T_score := T_hold; S_score := S_hold;
                       confidence_score := conf_hold;
                       aligned := true; daily_trades_left := 0;
                       reason := "Downside risk but daily limit reached." |})
      else ret None
  end.

(** Lines 222-262, "Bullish alignment for ticker: consider BUY". *)
Definition evaluate_entry (tkr : string) (S confidence : float) (remaining : Z)
  : Eng W DecisionResult :=
  fetched <- try_except (T <- technical_analyze tkr ;; ret (inr T))
                        (fun e => ret (inl e)) ;;
  match fetched with
  | inl e =>
      ret {| action := HOLD; ticker := tkr;
             T_score := 0; S_score := S; confidence_score := confidence;
             aligned := false; daily_trades_left := remaining;
             reason := "Technical analysis failed: " +:+ exn_str e |}
  | inr T =>
      let al := _aligned T S confidence in
      bought <-
        (if (fst al && String.eqb (snd al) "bullish")%bool then
           ok <- _increment_trade_count ;;
           if ok : bool then
             left <- _trades_remaining ;;
             ret (Some {| action := BUY; ticker := tkr;
                          T_score := T; S_score := S;
                          confidence_score := confidence;
                          aligned := true; daily_trades_left := left;
                          reason := "Technical and sentiment aligned bullish." +:+
                            (if (confidence <? 1)%float
                             then " (Confidence reduced: Animal Spirits risk)"
                             else "") |})
           else ret None
         else ret None) ;;
      match bought with
      | Some res => ret res
      | None =>
          ret {| action := HOLD; ticker := tkr;
                 T_score := T; S_score := S; confidence_score := confidence;
                 aligned := fst al; daily_trades_left := remaining;
                 reason := "T and S not aligned for trade." +:+
                   (if (confidence <? 1)%float
                    then " (Confidence reduced: enflasyon/belirsizlik in news)"
                    else "") |}
      end
  end.

Definition evaluate (tkr : string) (current_holding : option string)
  : Eng W DecisionResult :=
  remaining <- _trades_remaining ;;
  if remaining <=? 0 then
    ret {| action := HOLD; ticker := tkr;
           T_score := 0; S_score := 0; confidence_score := 1;
           aligned := false; daily_trades_left := 0;
           reason := "Daily trade limit (3) reached." |}
  else
    stop <- evaluate_drawdown current_holding ;;
    match stop with
    | Some res => ret res
    | None =>
        sc <- evaluate_sentiment tkr ;;
        down <- evaluate_downside current_holding ;;
        match down with
        | Some res => ret res
        | None => evaluate_entry tkr (fst sc) (snd sc) remaining
        end
    end.

(** *** run_cycle *)

(** One iteration of the [for] loop: the result appended to [results] and
    the value of the local [holding] after the iteration. *)
Definition cycle_step (tkr : string) (holding : option string)
  : Eng W (DecisionResult * option string) :=
  res <- evaluate tkr holding ;;
  match action res with
  | BUY =>
      execute_buy tkr 1 ;;;
      price <- _get_current_price tkr ;;
      self <- get_self ;;
      put_self {| _trade_counter_date := _trade_counter_date self;
                  _trade_count_today := _trade_count_today self;
                  _peak_prices := <[tkr := or_zero price]> (_peak_prices self) |} ;;;
      ret (res, Some tkr)
  | SELL =>
      if negb (String.eqb (ticker res) "") then
        execute_sell (ticker res) 1 ;;;
        self <- get_self ;;
        put_self {| _trade_counter_date := _trade_counter_date self;
                    _trade_count_today := _trade_count_today self;
                    _peak_prices := delete (ticker res) (_peak_prices self) |} ;;;
        ret (res, None)
      else ret (res, holding)
  | HOLD => ret (res, holding)
  end.

(** The loop, from the point where [results] and [holding] have the given
    values; it also hands back the final [holding]. *)
Fixpoint cycle_loop (tickers : list string) (holding : option string)
    (results : list DecisionResult)
  : Eng W (list DecisionResult * option string) :=
  match tickers with
  | [] => ret (results, holding)
  | tkr :: rest =>
      step <- cycle_step tkr holding ;;
      cycle_loop rest (snd step) (results ++ [fst step])
  end.

Definition run_cycle (tickers : list string) (current_holding : option string)
  : Eng W (list DecisionResult) :=
  out <- cycle_loop tickers current_holding [] ;;
  ret (fst out).

End Engine.

(** ** A replayed world

    The world is the list of interactions still to come; every collaborator
    call of the matching kind consumes the next one and answers with it.
    A call that finds no matching interaction gets a fixed answer. *)
Definition replay : Env (list Interaction) := {|
  env_today w :=
    match w with IToday d :: r => (d, r) | _ => (0, w) end;
  env_history _ w :=
    match w with IHistory _ h :: r => (h, r) | _ => (None, w) end;
  env_analyze _ w :=
    match w with IAnalyze _ a :: r => (a, r) | _ => (inl ""%string, w) end;
  env_sentiment _ w :=
    match w with ISentiment _ a :: r => (a, r) | _ => (inl ""%string, w) end;
  env_get_position _ w :=
    match w with IGetPosition _ p :: r => (p, r) | _ => (None, w) end;
  env_execute_buy _ _ w :=
    match w with IExecuteBuy _ _ :: r => r | _ => w end;
  env_execute_sell _ _ w :=
    match w with IExecuteSell _ _ :: r => r | _ => w end
|}.

(** ** The scheduler (src/main.py) *)

Definition BIST_START : Z * Z := (9, 55).
Definition BIST_END : Z * Z := (18, 10).
Definition INTERVAL_MINUTES : Z := 15.

(** [is_bist_trading_hours], for the hour and the minute of
    [datetime.now(ISTANBUL)]. *)
Definition is_bist_trading_hours (h m : Z) : bool :=
  let current_minutes := h * 60 + m in
  let start_minutes := fst BIST_START * 60 + snd BIST_START in
  let end_minutes := fst BIST_END * 60 + snd BIST_END in
  (start_minutes <=? current_minutes) && (current_minutes <? end_minutes).

(** What one pass of the [while True] loop of [main] reads from outside:
    the truth value of [is_engine_running()], the clock, and the keys of
    [broker.positions] (in dict order) that the new broker of
    [run_one_cycle] loads. *)
Record Wakeup := {
  engine_running : bool;
  now_hour : Z;
  now_minute : Z;
  broker_positions : list string
}.

Section Scheduler.
Context {W : Type} (env : Env W).

(** [BIST30_TICKERS] is a constant of analyzers/technical.py. *)
Context (BIST30_TICKERS : list string).

(** [run_one_cycle]: every cycle makes a new broker object and a new
    engine (making them is taken to succeed); [positions] are the keys of
    [broker.positions], in dict order.  The function returns nothing; what
    is left of the cycle is its effect on the world. *)
Definition run_one_cycle (positions : list string) (w : W)
  : Res unit * W * list Interaction :=
  let tickers := BIST30_TICKERS in
  let current_holding :=
    match positions with
    | k :: _ => Some k
    | [] => None
    end in
  match run_cycle env tickers current_holding new_engine w with
  | (Val _, _, w1, tr) => (Val tt, w1, tr)
  | (Exc e, _, w1, tr) => (Exc e, w1, tr)
  end.

(** One pass of the loop of [main] (lines 79-91): the error lines it
    prints, the world after it and the interactions made. *)
Definition main_iteration (it : Wakeup) (w : W)
  : list string * W * list Interaction :=
  if (engine_running it && is_bist_trading_hours (now_hour it) (now_minute it))%bool then
    match run_one_cycle (broker_positions it) w with
    | (Val _, w1, tr) => ([], w1, tr)
    | (Exc e, w1, tr) => (["  Error: " +:+ exn_str e], w1, tr)
    end
  else ([], w, []).

(** The passes of the loop, one after the other. *)
Fixpoint main_loop (its : list Wakeup) (w : W)
  : list string * W * list Interaction :=
  match its with
  | [] => ([], w, [])
  | it :: rest =>
      let '(printed1, w1, t1) := main_iteration it w in
      let '(printed2, w2, t2) := main_loop rest w1 in
      (printed1 ++ printed2, w2, t1 ++ t2)
  end.

End Scheduler.

(** ** The dashboard (src/app.py) *)

(** The symbol that [get_current_price] of the dashboard asks yfinance
    for: the ticker as it is, with the suffix added when it is missing. *)
Definition dashboard_symbol (ticker : string) : string :=
  if endswith ticker ".IS" then ticker else ticker +:+ ".IS".

(** [get_current_price] of the dashboard: 0.0 when yfinance raises or has
    no row. *)
Definition get_current_price {W : Type} (env : Env W) (ticker : string) (w : W)
  : float * W * list Interaction :=
  let t := dashboard_symbol ticker in
  let '(hist, w1) := env_history env t w in
  (match hist with
   | None => 0%float
   | Some closes => default 0%float (last_close closes)
   end, w1, [IHistory t hist]).

(** ** Vocabulary of the statements *)

(** The mantissa of the binary64 number nearest to 0.2, which is
    [fifth_mantissa * 2^-55]. *)
Definition fifth_mantissa : positive := 7205759403792794.

(** A binary64 datum that is not negative: NaN, or sign bit clear. *)
Definition sign_clear (x : spec_float) : Prop :=
  match x with
  | S754_zero s | S754_infinity s | S754_finite s _ _ => s = false
  | S754_nan => True
  end.

(** Every [date.today()] of a trace answered [d]. *)
Definition same_day (d : date) (tr : list Interaction) : Prop :=
  forall d', In (IToday d') tr -> d' = d.

(** The trades already counted for date [d]: the stored count when the
    stored date is [d], none otherwise. *)
Definition count_on (d : date) (self : Engine) : Z :=
  if date_differs (_trade_counter_date self) d then 0 else _trade_count_today self.

(** The engine after the rollover of [_refresh_daily_counter] on date [d]. *)
Definition rolled (d : date) (self : Engine) : Engine :=
  if date_differs (_trade_counter_date self) d then
    {| _trade_counter_date := Some d; _trade_count_today := 0;
       _peak_prices := _peak_prices self |}
  else self.

(** The engine after one more trade is counted. *)
Definition bumped (self : Engine) : Engine :=
  {| _trade_counter_date := _trade_counter_date self;
     _trade_count_today := _trade_count_today self + 1;
     _peak_prices := _peak_prices self |}.

(** The engine with [peak] stored for [tkr], and with the entry of [tkr]
    removed. *)
Definition with_peak (self : Engine) (tkr : string) (peak : float) : Engine :=
  {| _trade_counter_date := _trade_counter_date self;
     _trade_count_today := _trade_count_today self;
     _peak_prices := <[tkr := peak]> (_peak_prices self) |}.

Definition without_peak (self : Engine) (tkr : string) : Engine :=
  {| _trade_counter_date := _trade_counter_date self;
     _trade_count_today := _trade_count_today self;
     _peak_prices := delete tkr (_peak_prices self) |}.

(** Two engines with the same daily counter. *)
Definition same_counter (a b : Engine) : Prop :=
  _trade_counter_date a = _trade_counter_date b /\
  _trade_count_today a = _trade_count_today b.

(** The three results that [evaluate] builds after a refused increment. *)
Definition quota_failure (res : DecisionResult) : Prop :=
  reason res = "Drawdown SELL required but daily limit reached."%string
  \/ reason res = "Downside risk but daily limit reached."%string
  \/ (action res = HOLD /\
      _aligned (T_score res) (S_score res) (confidence_score res)
      = (true, "bullish"%string)).

(** The holding as a set of tickers (empty when there is none). *)
Definition holding_set (h : option string) : gset string :=
  match str_truthy h with
  | Some x => {[ x ]}
  | None => ∅
  end.

(** The tickers followed after a result of [run_cycle]: a BUY adds its
    ticker, a SELL removes its ticker. *)
Definition track (followed : gset string) (res : DecisionResult) : gset string :=
  match action res with
  | BUY => followed ∪ {[ ticker res ]}
  | SELL => followed ∖ {[ ticker res ]}
  | HOLD => followed
  end.

(** C7 as it is stated, for the runs of the loop from a new engine: no
    ticker other than the current holding has a peak-price entry. *)
Definition peak_entries_follow_holding : Prop :=
  forall (tickers : list string) (w : list Interaction)
         results holding self' w' tr,
    cycle_loop replay tickers None [] new_engine w
      = (Val (results, holding), self', w', tr) ->
    forall t, is_Some (_peak_prices self' !! t) -> holding = Some t.

(** An interaction with an analyzer (technical or sentiment). *)
Definition is_signal_call (i : Interaction) : bool :=
  match i with
  | IAnalyze _ _ | ISentiment _ _ => true
  | _ => false
  end.

Definition is_sell_order (i : Interaction) : bool :=
  match i with
  | IExecuteSell _ _ => true
  | _ => false
  end.

(** Clients of the limiter: a sequence of calls of its two methods. *)
Inductive LimiterCall := TryIncrement | TradesRemaining.

Inductive LimiterReply :=
| Incremented (ok : bool)
| Remaining (n : Z).

Definition limiter_call {W} (env : Env W) (c : LimiterCall) : Eng W LimiterReply :=
  match c with
  | TryIncrement => ok <- _increment_trade_count env ;; ret (Incremented ok)
  | TradesRemaining => n <- _trades_remaining env ;; ret (Remaining n)
  end.

Fixpoint limiter_calls {W} (env : Env W) (cs : list LimiterCall)
  : Eng W (list LimiterReply) :=
  match cs with
  | [] => ret []
  | c :: rest =>
      x <- limiter_call env c ;;
      xs <- limiter_calls env rest ;;
      ret (x :: xs)
  end.

Fixpoint successes (rs : list LimiterReply) : Z :=
  match rs with
  | [] => 0
  | Incremented true :: rest => 1 + successes rest
  | _ :: rest => successes rest
  end.

(** The engine holds count [n] for date [d]. *)
Definition counted (d : date) (n : Z) (self : Engine) : Prop :=
  _trade_counter_date self = Some d /\ _trade_count_today self = n.

(** What a rule that can sell the holding does to the daily counter on
    date [d], when the quota gate has passed. *)
Definition sell_rule_post {W : Type} (d : date) (self : Engine)
    (out : Res (option DecisionResult) * Engine * W * list Interaction) : Prop :=
  match out with
  | (Val None, self', _, _) => same_counter self' self
  | (Val (Some res), self', _, _) =>
      action res = SELL /\ ~ quota_failure res /\
      _trade_counter_date self' = Some d /\
      _trade_count_today self' = _trade_count_today self + 1
  | (Exc e, self', _, _) => e = ZeroDivisionError /\ same_counter self' self
  end.

(** What [evaluate] and its last rule do to the daily counter on date [d]
    when the quota gate has passed: a trade counts once, a HOLD not at all,
    and no result comes from a refused increment. *)
Definition decision_post (d : date) (self : Engine) (res : DecisionResult)
    (self' : Engine) : Prop :=
  ~ quota_failure res /\
  match action res with
  | HOLD => same_counter self' self
  | _ => _trade_counter_date self' = Some d /\
         _trade_count_today self' = _trade_count_today self + 1
  end.

(** Two bullish tickers in a row: AAA is bought, then BBB is bought while
    AAA is held. *)
Definition two_buys : list Interaction :=
  [IToday 5; ISentiment "AAA" (inr (0.5%float, false));
   IAnalyze "AAA" (inr 0.5%float); IToday 5; IToday 5;
   IExecuteBuy "AAA" 1; IHistory "AAA.IS" (Some [10%float]);
   IToday 5;
   IGetPosition "AAA" (Some {| entry_price := 10; quantity := 1 |});
   IHistory "AAA.IS" (Some [10%float]);
   ISentiment "BBB" (inr (0.5%float, false));
   IAnalyze "AAA" (inr 0.5%float); ISentiment "AAA" (inr (0.5%float, false));
   IAnalyze "BBB" (inr 0.5%float); IToday 5; IToday 5;
   IExecuteBuy "BBB" 1; IHistory "BBB.IS" (Some [20%float])].

(** ** Further vocabulary *)

(** The daily counter is within its bounds. *)
Definition counter_ok (self : Engine) : Prop :=
  0 <= _trade_count_today self <= MAX_DAILY_TRADES.

(** The result built at lines 141-150 of [evaluate]. *)
Definition quota_hold (tkr : string) : DecisionResult :=
  {| action := HOLD; ticker := tkr;
     T_score := 0; S_score := 0; confidence_score := 1;
     aligned := false; daily_trades_left := 0;
     reason := "Daily trade limit (3) reached." |}.

(** What the fields of a result of [evaluate tkr holding] say about each
    other. *)
Definition result_shape (tkr : string) (holding : option string)
    (res : DecisionResult) : Prop :=
  let al := _aligned (T_score res) (S_score res) (confidence_score res) in
  match action res with
  | BUY => ticker res = tkr /\ aligned res = true /\ al = (true, "bullish"%string)
  | SELL =>
      str_truthy holding = Some (ticker res) /\ aligned res = true /\
      ((T_score res = 0%float /\ S_score res = 0%float /\
        confidence_score res = 1%float)
       \/ al = (true, "bearish"%string))
  | HOLD => ticker res = tkr /\ aligned res = fst al
  end
  /\ (confidence_score res = 1%float \/
      confidence_score res = (1 - ANIMAL_SPIRITS_PENALTY)%float).

(** A broker order, and a query about the holding (its position or its
    price). *)
Definition is_order (i : Interaction) : bool :=
  match i with
  | IExecuteBuy _ _ | IExecuteSell _ _ => true
  | _ => false
  end.

Definition is_holding_query (i : Interaction) : bool :=
  match i with
  | IGetPosition _ _ | IHistory _ _ => true
  | _ => false
  end.

(** The order that [run_cycle] sends for a result. *)
Definition order_of (res : DecisionResult) : list Interaction :=
  match action res with
  | BUY => [IExecuteBuy (ticker res) 1]
  | SELL => [IExecuteSell (ticker res) 1]
  | HOLD => []
  end.

Definition is_trade (res : DecisionResult) : bool :=
  match action res with
  | HOLD => false
  | _ => true
  end.

(** The number of BUY and SELL results. *)
Definition trades (results : list DecisionResult) : Z :=
  Z.of_nat (length (List.filter is_trade results)).

(** The direction opposite to an answer of [_aligned]. *)
Definition mirror (al : bool * string) : bool * string :=
  if String.eqb (snd al) "bullish" then (fst al, "bearish"%string)
  else if String.eqb (snd al) "bearish" then (fst al, "bullish"%string)
  else al.

(** Every last close reported by yfinance in a trace is above zero. *)
Definition prices_positive (tr : list Interaction) : Prop :=
  forall symbol closes cur,
    In (IHistory symbol (Some closes)) tr ->
    last_close closes = Some cur -> (0 <? cur)%float = true.

(** What a rule that can sell the holding answers when the count is below
    the limit, whatever the dates. *)
Definition sell_rule_any_day {W : Type} (holding : option string) (self : Engine)
    (out : Res (option DecisionResult) * Engine * W * list Interaction) : Prop :=
  match out with
  | (r, self', _, _) =>
      (counter_ok self -> counter_ok self') /\
      match r with
      | Val None => _trade_count_today self' = _trade_count_today self
      | Val (Some res) =>
          ~ quota_failure res
          /\ (forall tkr, result_shape tkr holding res)
          /\ (counter_ok self -> 0 <= daily_trades_left res <= MAX_DAILY_TRADES)
      | Exc e => e = ZeroDivisionError
      end
  end.

(** What [evaluate tkr holding] may ask the outside world: the date, the
    two analyzers about the candidate and the holding, the broker and
    yfinance about the holding only; never an order. *)
Definition evaluate_may_ask (tkr : string) (holding : option string)
    (i : Interaction) : bool :=
  let about_holding (t : string) :=
    match str_truthy holding with
    | Some h => String.eqb t h
    | None => false
    end in
  match i with
  | IToday _ => true
  | IAnalyze t _ | ISentiment t _ => String.eqb t tkr || about_holding t
  | IGetPosition t _ => about_holding t
  | IHistory symbol _ =>
      match str_truthy holding with
      | Some h => String.eqb symbol (yf_symbol h)
      | None => false
      end
  | IExecuteBuy _ _ | IExecuteSell _ _ => false
  end.

(** Three bullish tickers while AAA is held: the script of one cycle of
    [run_one_cycle] in which all three are bought. *)
Definition three_buys : list Interaction :=
  [IToday 5;
   IGetPosition "AAA" (Some {| entry_price := 10; quantity := 1 |});
   IHistory "AAA.IS" (Some [10%float]);
   ISentiment "AAA" (inr (0.5%float, false));
   IAnalyze "AAA" (inr 0.5%float); ISentiment "AAA" (inr (0.5%float, false));
   IAnalyze "AAA" (inr 0.5%float); IToday 5; IToday 5;
   IExecuteBuy "AAA" 1; IHistory "AAA.IS" (Some [10%float]);
   IToday 5;
   IGetPosition "AAA" (Some {| entry_price := 10; quantity := 2 |});
   IHistory "AAA.IS" (Some [10%float]);
   ISentiment "BBB" (inr (0.5%float, false));
   IAnalyze "AAA" (inr 0.5%float); ISentiment "AAA" (inr (0.5%float, false));
   IAnalyze "BBB" (inr 0.5%float); IToday 5; IToday 5;
   IExecuteBuy "BBB" 1; IHistory "BBB.IS" (Some [20%float]);
   IToday 5;
   IGetPosition "BBB" (Some {| entry_price := 20; quantity := 2 |});
   IHistory "BBB.IS" (Some [20%float]);
   ISentiment "CCC" (inr (0.5%float, false));
   IAnalyze "BBB" (inr 0.5%float); ISentiment "BBB" (inr (0.5%float, false));
   IAnalyze "CCC" (inr 0.5%float); IToday 5; IToday 5;
   IExecuteBuy "CCC" 1; IHistory "CCC.IS" (Some [30%float])].

(** * Verification *)

(** Names the run of the trade attempt found in [Hrun]. *)
Ltac split_attempt Hrun E r1 s1 w1 t1 :=
  match type of Hrun with
  | context [bind (_increment_trade_count ?env) ?k ?s ?w] =>
      destruct (bind (_increment_trade_count env) k s w) as [[[r1 s1] w1] t1] eqn:E
  end.

(** ** Binary64 arithmetic

    Facts about division by a confidence in (0, 1], derived from the
    specification of binary64 operations ([SpecFloat]). *)

Lemma digits2_size (p : positive) : digits2_pos p = Pos.size p.
Proof. induction p; simpl; congruence. Qed.

Lemma digits2_bounds (p : positive) :
  2 ^ (Zpos (digits2_pos p) - 1) <= Zpos p < 2 ^ Zpos (digits2_pos p).
Proof.
  rewrite digits2_size.
  pose proof (Pos.size_gt p) as Hgt. pose proof (Pos.size_le p) as Hle.
  split.
  - assert (H : Zpos (2 ^ Pos.size p) <= Zpos (2 * p)) by (apply Pos2Z.pos_le_pos; exact Hle).
    rewrite Pos2Z.inj_pow, Pos2Z.inj_mul in H.
    replace (Zpos (Pos.size p)) with (Z.succ (Zpos (Pos.size p) - 1)) in H by lia.
    rewrite Z.pow_succ_r in H by lia. lia.
  - rewrite <- Pos2Z.inj_pow. apply Pos2Z.pos_lt_pos. exact Hgt.
Qed.

Lemma digits2_unique (p : positive) (n : Z) :
  2 ^ (n - 1) <= Zpos p < 2 ^ n -> Zpos (digits2_pos p) = n.
Proof.
  intros [Hlo Hhi]. pose proof (digits2_bounds p) as [Dlo Dhi].
  assert (0 < n).
  { destruct (Z.ltb_spec 0 n); [lia|]. 
    assert (2 ^ n <= 2 ^ 0) by (destruct (Z.ltb_spec n 0); [rewrite Z.pow_neg_r by lia; simpl; lia | apply Z.pow_le_mono_r; lia]).
    simpl in H0. lia. }
  assert (n - 1 < Zpos (digits2_pos p)).
  { apply (Z.pow_lt_mono_r_iff 2); lia. }
  assert (Zpos (digits2_pos p) - 1 < n).
  { apply (Z.pow_lt_mono_r_iff 2); lia. }
  lia.
Qed.

Lemma fexp_normal (x : Z) : -1021 <= x -> fexp prec emax x = x - 53.
Proof. unfold fexp, emin, prec, emax. lia. Qed.

Lemma Zdigits2_unique (q n : Z) : 0 < n -> 2 ^ (n - 1) <= q < 2 ^ n -> Zdigits2 q = n.
Proof.
  intros Hn [Hlo Hhi].
  assert (0 < q) by (pose proof (Z.pow_pos_nonneg 2 (n - 1)); lia).
  destruct q as [|p|p]; try lia. simpl. now apply digits2_unique.
Qed.

Lemma shr_fexp_keep (q ex : Z) (l : location) :
  2 ^ 52 <= q < 2 ^ 53 -> -1074 <= ex ->
  shr_fexp prec emax q ex l = (shr_record_of_loc q l, ex).
Proof.
  intros Hq Hex. unfold shr_fexp.
  rewrite (Zdigits2_unique q 53) by (simpl; lia).
  rewrite fexp_normal by lia.
  replace (53 + ex - 53 - ex) with 0 by lia. reflexivity.
Qed.

Lemma shr_fexp_once (q ex : Z) (l : location) :
  2 ^ 53 <= q < 2 ^ 54 -> -1075 <= ex ->
  shr_fexp prec emax q ex l = (shr_1 (shr_record_of_loc q l), ex + 1).
Proof.
  intros Hq Hex. unfold shr_fexp.
  rewrite (Zdigits2_unique q 54) by (simpl; lia).
  rewrite fexp_normal by lia.
  replace (54 + ex - 53 - ex) with 1 by lia. reflexivity.
Qed.

Lemma shr_m_of_loc (q : Z) (l : location) : shr_m (shr_record_of_loc q l) = q.
Proof. destruct l as [|[]]; reflexivity. Qed.

Lemma loc_of_shr_of_loc (q : Z) (l : location) :
  loc_of_shr_record (shr_record_of_loc q l) = l.
Proof. destruct l as [|[]]; reflexivity. Qed.

Lemma shr_1_half (mrs : shr_record) :
  0 <= shr_m mrs -> shr_m (shr_1 mrs) = Z.div2 (shr_m mrs).
Proof.
  destruct mrs as [m r s]; simpl. intros Hm.
  destruct m as [|[p|p|]|p]; try reflexivity; lia.
Qed.

Lemma round_nearest_even_bounds (q : Z) (l : location) :
  q <= round_nearest_even q l <= q + 1.
Proof.
  destruct l as [|[]]; simpl; try lia. destruct (Z.even q); lia.
Qed.

(** Second rounding stage, on a mantissa of 53 bits or the carry [2^53]. *)
Lemma round_finish (q1 ex : Z) :
  2 ^ 52 <= q1 <= 2 ^ 53 -> -1074 <= ex ->
  match
    (let '(mrs, e2) := shr_fexp prec emax q1 ex loc_Exact in
     match shr_m mrs with
     | Z0 => S754_zero false
     | Zpos m => if e2 <=? emax - prec then S754_finite false m e2 else S754_infinity false
     | Zneg _ => S754_nan
     end)
  with
  | S754_finite false m2 e2 => ex < e2 \/ (e2 = ex /\ Zpos m2 = q1)
  | S754_infinity false => True
  | _ => False
  end.
Proof.
  intros Hq Hex.
  destruct (Z.ltb_spec q1 (2 ^ 53)) as [Hlt | Hge].
  - rewrite shr_fexp_keep by lia. simpl shr_m.
    destruct q1 as [|p|p]; try (simpl in *; lia).
    destruct (ex <=? emax - prec); [right; auto | exact I].
  - assert (Hq1 : q1 = 2 ^ 53) by lia. subst q1.
    rewrite shr_fexp_once by (simpl; lia). simpl.
    destruct (_ <=? _); [left; lia | exact I].
Qed.

Lemma binary_round_aux_normal (q ex : Z) (l : location) :
  2 ^ 52 <= q < 2 ^ 54 -> -1074 <= ex ->
  match binary_round_aux prec emax false q ex l with
  | S754_finite false m2 e2 =>
      ex < e2 \/ (e2 = ex /\ q < 2 ^ 53 /\ Zpos m2 = round_nearest_even q l)
  | S754_infinity false => True
  | _ => False
  end.
Proof.
  intros Hq Hex. unfold binary_round_aux.
  destruct (Z.ltb_spec q (2 ^ 53)) as [Hlt | Hge].
  - rewrite shr_fexp_keep by lia.
    rewrite shr_m_of_loc, loc_of_shr_of_loc.
    pose proof (round_nearest_even_bounds q l) as Hr.
    pose proof (round_finish (round_nearest_even q l) ex) as Hf.
    destruct (shr_fexp prec emax (round_nearest_even q l) ex loc_Exact) as [mrs e2].
    destruct (shr_m mrs) as [|m2|m2].
    + apply Hf; lia.
    + destruct (e2 <=? emax - prec).
      * destruct Hf as [Hf | [Hf1 Hf2]]; [lia | lia | auto | auto].
      * exact I.
    + apply Hf; lia.
  - rewrite shr_fexp_once by lia.
    set (mrs1 := shr_1 (shr_record_of_loc q l)).
    assert (Hm1 : shr_m mrs1 = Z.div2 q).
    { unfold mrs1. rewrite shr_1_half; rewrite shr_m_of_loc; [reflexivity | lia]. }
    assert (Hh : 2 ^ 52 <= Z.div2 q < 2 ^ 53).
    { rewrite Z.div2_div. split.
      - apply Z.div_le_lower_bound; lia.
      - apply Z.div_lt_upper_bound; lia. }
    rewrite Hm1.
    pose proof (round_nearest_even_bounds (Z.div2 q) (loc_of_shr_record mrs1)) as Hr.
    pose proof (round_finish (round_nearest_even (Z.div2 q) (loc_of_shr_record mrs1)) (ex + 1)) as Hf.
    destruct (shr_fexp prec emax _ (ex + 1) loc_Exact) as [mrs e2].
    destruct (shr_m mrs) as [|m2|m2].
    + apply Hf; lia.
    + destruct (e2 <=? emax - prec).
      * left. destruct Hf as [Hf | [Hf1 Hf2]]; lia.
      * exact I.
    + apply Hf; lia.
Qed.

Lemma new_location_above (m r : Z) :
  0 < m -> m < 2 * r -> new_location m r = loc_Inexact Gt.
Proof.
  intros Hm Hr. unfold new_location, new_location_even, new_location_odd.
  destruct (Z.even m); (destruct (Z.eqb_spec r 0); [lia|]).
  - destruct (Z.compare_spec (2 * r) m); try lia; reflexivity.
  - destruct (Z.compare_spec (2 * r + 1) m); try lia; reflexivity.
Qed.

Lemma SFdiv_fifth (m : positive) (e : Z) :
  bounded prec emax m e = true -> e <= -53 ->
  SFcompare (S754_finite false fifth_mantissa (-55))
    (SFdiv prec emax (S754_finite false fifth_mantissa (-55)) (S754_finite false m e))
  = Some Lt.
Proof.
  intros Hb He.
  unfold bounded, canonical_mantissa in Hb.
  apply andb_true_iff in Hb as [Hc _]. apply Z.eqb_eq in Hc.
  pose proof (digits2_bounds m) as Hd.
  set (d := Zpos (digits2_pos m)) in *.
  assert (Hd1 : 1 <= d <= 53 /\ -1074 <= e).
  { unfold fexp, emin, prec, emax in Hc. subst d. lia. }
  unfold SFdiv, SFdiv_core_binary.
  change (Zdigits2 (Zpos fifth_mantissa)) with 53.
  change (Zdigits2 (Zpos m)) with d.
  assert (Hmin : Z.min (fexp prec emax (53 + -55 - (d + e))) (-55 - e) = -55 - e - d).
  { rewrite fexp_normal by lia. lia. }
  rewrite Hmin.
  replace (-55 - e - (-55 - e - d)) with d by lia.
  unfold d at 1 2. fold d.
  rewrite Z.shiftl_mul_pow2 by lia.
  pose proof (Z_div_mod (Z.pos fifth_mantissa * 2 ^ d) (Zpos m) eq_refl) as Hdiv.
  destruct (Z.div_eucl (Z.pos fifth_mantissa * 2 ^ d) (Z.pos m)) as [q r].
  change (xorb false false) with false.
  assert (Hs : 2 ^ d = 2 * 2 ^ (d - 1)).
  { rewrite <- Z.pow_succ_r by lia. f_equal. lia. }
  assert (Hp53 : 2 ^ d <= 2 ^ 53) by (apply Z.pow_le_mono_r; lia).
  set (P := 2 ^ d) in *. set (M := Zpos m) in *.
  set (F := Zpos fifth_mantissa) in *.
  assert (HF : F = 7205759403792794) by reflexivity.
  assert (HP : P <= 2 * M /\ M < P /\ P <= 2 ^ 53) by lia.
  clearbody P M F. clear Hd Hmin.
  destruct Hdiv as [Hdiv Hr].
  assert (Hq : F <= q <= 2 * F) by nia.
  pose proof (binary_round_aux_normal q (-55 - e - d) (new_location M r)) as Hn.
  assert (Hex : -55 <= -55 - e - d).
  { unfold fexp, emin, prec, emax in Hc. lia. }
  specialize (Hn ltac:(lia) ltac:(lia)).
  assert (Hup : q = F -> new_location M r = loc_Inexact Gt).
  { intros ->. apply new_location_above; nia. }
  pose proof (round_nearest_even_bounds q (new_location M r)) as Hrn.
  destruct (binary_round_aux prec emax false q (-55 - e - d) (new_location M r))
    as [[]|[]| |[] m2 e2]; try contradiction; try reflexivity.
  cbn [SFcompare].
  destruct (Z.compare_spec (-55) e2) as [Heq | Hlt | Hgt]; try reflexivity; try lia.
  destruct Hn as [Hn | (Hn1 & Hn2 & Hn3)]; [lia|].
  rewrite Pos.compare_cont_spec. cbn [Pos.switch_Eq].
  assert (Hlt : (fifth_mantissa < m2)%positive); [|rewrite Hlt; reflexivity].
  change (Zpos fifth_mantissa < Zpos m2). rewrite Hn3.
  destruct (Z.eq_dec q F) as [Hqf | Hqf].
  - rewrite (Hup Hqf). simpl. change (Zpos fifth_mantissa) with 7205759403792794. lia.
  - change (Zpos fifth_mantissa) with 7205759403792794. lia.
Qed.

Lemma binary_round_aux_sign (q ex : Z) (l : location) :
  sign_clear (binary_round_aux prec emax false q ex l).
Proof.
  unfold binary_round_aux.
  destruct (shr_fexp prec emax q ex l) as [mrs1 e1].
  destruct (shr_fexp prec emax _ e1 loc_Exact) as [mrs2 e2].
  destruct (shr_m mrs2); simpl; auto.
  destruct (_ <=? _); simpl; auto.
Qed.

Lemma Prim2SF_fifth : Prim2SF 0.2%float = S754_finite false fifth_mantissa (-55).
Proof. reflexivity. Qed.

Lemma positive_shape (c : float) :
  (0 <? c)%float = true ->
  Prim2SF c = S754_infinity false \/
  exists m e, Prim2SF c = S754_finite false m e /\ bounded prec emax m e = true.
Proof.
  rewrite ltb_spec. pose proof (Prim2SF_valid c) as Hv.
  change (Prim2SF 0) with (S754_zero false).
  destruct (Prim2SF c) as [s|[]| |[] m e]; simpl; try discriminate; eauto.
Qed.

(** The threshold is never a negative number. *)
Lemma alignment_thresh_sign (c : float) : sign_clear (Prim2SF (alignment_thresh c)).
Proof.
  unfold alignment_thresh.
  destruct (0 <? c)%float eqn:Hc; [|reflexivity].
  unfold ALIGNMENT_THRESHOLD. rewrite div_spec, Prim2SF_fifth.
  destruct (positive_shape c Hc) as [-> | (m & e & -> & _)]; [reflexivity|].
  unfold SF64div, SFdiv.
  destruct (SFdiv_core_binary prec emax (Z.pos fifth_mantissa) (-55) (Z.pos m) e)
    as [[mz ez] lz].
  apply binary_round_aux_sign.
Qed.

(** No score is above a non-negative threshold and below its opposite. *)
Lemma above_below_exclusive (thr x : float) :
  sign_clear (Prim2SF thr) ->
  (thr <? x)%float = true -> (x <? - thr)%float = true -> False.
Proof.
  rewrite !ltb_spec, opp_spec. unfold SFltb.
  destruct (Prim2SF thr) as [s|s| |s m e]; simpl; intros Hs; subst;
    destruct (Prim2SF x) as [[]|[]| |[] mx ex]; simpl; try discriminate.
Qed.

Lemma thresh_not_below_zero (c : float) : (alignment_thresh c <? 0)%float = false.
Proof.
  pose proof (alignment_thresh_sign c) as Hs. rewrite ltb_spec.
  change (Prim2SF 0) with (S754_zero false). unfold SFltb.
  destruct (Prim2SF (alignment_thresh c)) as [s|s| |s m e]; simpl in *;
    subst; reflexivity.
Qed.

(** Zero is neither above a non-negative threshold nor below its opposite. *)
Lemma above_zero_false (thr : float) :
  sign_clear (Prim2SF thr) ->
  (thr <? 0)%float = false /\ (0 <? - thr)%float = false.
Proof.
  intros Hs. rewrite !ltb_spec, opp_spec.
  change (Prim2SF 0) with (S754_zero false). unfold SFltb.
  destruct (Prim2SF thr) as [s|s| |s m e]; simpl in *; subst; split; reflexivity.
Qed.

(** A zero technical score is never aligned bullish. *)
Lemma zero_not_bullish (S c : float) : _aligned 0 S c <> (true, "bullish"%string).
Proof.
  unfold _aligned. rewrite thresh_not_below_zero. cbn [andb].
  destruct (_ && _)%bool; discriminate.
Qed.

(** A zero score, technical or sentiment, is always answered neutral. *)
Lemma zero_score_neutral (T S c : float) :
  T = 0%float \/ S = 0%float -> _aligned T S c = (false, "neutral"%string).
Proof.
  unfold _aligned. intros [-> | ->];
    rewrite thresh_not_below_zero,
            (proj2 (above_zero_false _ (alignment_thresh_sign c)));
    rewrite ?andb_false_r; reflexivity.
Qed.

Lemma thresh_above_fifth (c : float) :
  (0 <? c)%float = true -> (c <? 1)%float = true ->
  (0.2 <? 0.2 / c)%float = true.
Proof.
  intros Hpos Hlt.
  destruct (positive_shape c Hpos) as [Hc | (m & e & Hc & Hb)];
    rewrite ltb_spec in Hlt; rewrite Hc in Hlt;
    change (Prim2SF 1) with (S754_finite false 4503599627370496 (-52)) in Hlt;
    [discriminate|].
  rewrite ltb_spec, div_spec, Prim2SF_fifth, Hc.
  unfold SFltb, SF64div. rewrite SFdiv_fifth; [reflexivity | exact Hb |].
  unfold SFltb in Hlt. cbn [SFcompare] in Hlt.
  destruct (Z.compare_spec e (-52)) as [He | He | He]; try lia; try discriminate.
  subst e. exfalso.
  rewrite Pos.compare_cont_spec in Hlt. cbn [Pos.switch_Eq] in Hlt.
  destruct (Pos.compare_spec m 4503599627370496) as [Hm | Hm | Hm]; try discriminate.
  apply Pos2Z.pos_lt_pos in Hm. clear Hlt.
  unfold bounded, canonical_mantissa in Hb.
  apply andb_true_iff in Hb as [Hb _]. apply Z.eqb_eq in Hb.
  unfold fexp, emin, prec, emax in Hb.
  assert (Hd : Zpos (digits2_pos m) = 53) by lia.
  pose proof (digits2_bounds m) as [Hlo _]. rewrite Hd in Hlo.
  change (2 ^ (53 - 1)) with 4503599627370496 in Hlo.
  lia.
Qed.

Lemma SFltb_SFleb (x y : spec_float) : SFltb x y = true -> SFleb x y = true.
Proof. unfold SFltb, SFleb. destruct (SFcompare x y) as [[]|]; congruence. Qed.

Lemma thresh_at_least_fifth (c : float) :
  (0 <? c)%float = true -> (c <=? 1)%float = true ->
  (0.2 <=? 0.2 / c)%float = true.
Proof.
  intros Hpos Hle.
  destruct (c <? 1)%float eqn:Hlt.
  - pose proof (thresh_above_fifth c Hpos Hlt) as H.
    rewrite ltb_spec in H. rewrite leb_spec. now apply SFltb_SFleb.
  - rewrite ltb_spec in Hlt. rewrite leb_spec in Hle.
    destruct (positive_shape c Hpos) as [Hc | (m & e & Hc & Hb)];
      rewrite Hc in Hlt, Hle;
      change (Prim2SF 1) with (S754_finite false 4503599627370496 (-52)) in Hlt, Hle;
      [discriminate|].
    unfold SFltb in Hlt. unfold SFleb in Hle. cbn [SFcompare] in Hlt, Hle.
    destruct (Z.compare_spec e (-52)) as [He | He | He]; try discriminate.
    rewrite Pos.compare_cont_spec in Hlt, Hle. cbn [Pos.switch_Eq] in Hlt, Hle.
    destruct (Pos.compare_spec m 4503599627370496) as [Hm | Hm | Hm]; try discriminate.
    subst m e. rewrite leb_spec, div_spec, Hc. reflexivity.
Qed.

(** ** Alignment classifier *)

(** C1: the classifier uses threshold 0.2/c when c > 0 and 0.2 otherwise;
    it answers (true, bullish) exactly when both scores are above the
    threshold, (true, bearish) exactly when both are below its opposite,
    and (false, neutral) in every other case; for c in (0, 1] the threshold
    is at least 0.2, and it is strictly greater than 0.2 when c < 1. *)
Theorem aligned_classification (T S c : float) :
  let thresh := alignment_thresh c in
  thresh = (if (0 <? c)%float then (0.2 / c)%float else 0.2%float)
  /\ (_aligned T S c = (true, "bullish"%string) <->
      (thresh <? T)%float = true /\ (thresh <? S)%float = true)
  /\ (_aligned T S c = (true, "bearish"%string) <->
      (T <? - thresh)%float = true /\ (S <? - thresh)%float = true)
  /\ (_aligned T S c = (false, "neutral"%string) <->
      ~ ((thresh <? T)%float = true /\ (thresh <? S)%float = true) /\
      ~ ((T <? - thresh)%float = true /\ (S <? - thresh)%float = true))
  /\ ((0 <? c)%float = true -> (c <=? 1)%float = true ->
      (0.2 <=? thresh)%float = true)
  /\ ((0 <? c)%float = true -> (c <? 1)%float = true ->
      (0.2 <? thresh)%float = true).
Proof.
  intros thresh.
  pose proof (above_below_exclusive thresh T (alignment_thresh_sign c)) as Hx.
  split; [reflexivity|].
  unfold _aligned. fold thresh.
  destruct (thresh <? T)%float eqn:HT, (thresh <? S)%float eqn:HS,
           (T <? - thresh)%float eqn:HT', (S <? - thresh)%float eqn:HS';
    cbn [andb];
    (split; [split; [intros; try discriminate; auto | intros []; try discriminate; try reflexivity; exfalso; auto]|]);
    (split; [split; [intros; try discriminate; auto | intros []; try discriminate; try reflexivity; exfalso; auto]|]);
    (split; [split; [intros; try discriminate; split; intros []; discriminate
                    | intros [N1 N2]; try reflexivity; exfalso; auto]|]);
    (split; intros Hpos Hc; unfold thresh, alignment_thresh, ALIGNMENT_THRESHOLD;
       rewrite Hpos; [now apply thresh_at_least_fifth | now apply thresh_above_fifth]).
Qed.

(** ** Sequencing *)

Lemma bind_inv {W A B : Type} (m : Eng W A) (k : A -> Eng W B)
    (self : Engine) (w : W) r self' w' tr :
  bind m k self w = (r, self', w', tr) ->
  (exists a s1 w1 t1 t2,
      m self w = (Val a, s1, w1, t1) /\
      k a s1 w1 = (r, self', w', t2) /\ tr = t1 ++ t2)
  \/ (exists e, m self w = (Exc e, self', w', tr) /\ r = Exc e).
Proof.
  unfold bind. destruct (m self w) as [[[[a|e] s1] w1] t1].
  - destruct (k a s1 w1) as [[[r2 s2] w2] t2] eqn:E.
    intros [= <- <- <- <-]. left. exists a, s1, w1, t1, t2. auto.
  - intros [= <- <- <- <-]. right. eauto.
Qed.

Lemma bind_val {W A B : Type} (m : Eng W A) (k : A -> Eng W B)
    (self : Engine) (w : W) a s1 w1 t1 r s2 w2 t2 :
  m self w = (Val a, s1, w1, t1) ->
  k a s1 w1 = (r, s2, w2, t2) ->
  bind m k self w = (r, s2, w2, t1 ++ t2).
Proof. unfold bind. now intros -> ->. Qed.

(** ** Daily trade limiter *)

Section Limiter.
Context {W : Type} (env : Env W).

Lemma refresh_run (self : Engine) (w : W) :
  _refresh_daily_counter env self w =
  (Val tt, rolled (fst (env_today env w)) self, snd (env_today env w),
   [IToday (fst (env_today env w))]).
Proof.
  unfold _refresh_daily_counter, bind, date_today, get_self, rolled.
  destruct (env_today env w) as [d w1]; simpl.
  destruct (date_differs (_trade_counter_date self) d); reflexivity.
Qed.

Lemma increment_run (self : Engine) (w : W) :
  _increment_trade_count env self w =
  let s := rolled (fst (env_today env w)) self in
  (Val (negb (_trade_count_today s >=? MAX_DAILY_TRADES)),
   (if _trade_count_today s >=? MAX_DAILY_TRADES then s else bumped s),
   snd (env_today env w), [IToday (fst (env_today env w))]).
Proof.
  unfold _increment_trade_count, bind. rewrite refresh_run. simpl.
  destruct (_ >=? _); reflexivity.
Qed.

Lemma remaining_run (self : Engine) (w : W) :
  _trades_remaining env self w =
  let s := rolled (fst (env_today env w)) self in
  (Val (Z.max 0 (MAX_DAILY_TRADES - _trade_count_today s)), s,
   snd (env_today env w), [IToday (fst (env_today env w))]).
Proof.
  unfold _trades_remaining, bind. rewrite refresh_run. reflexivity.
Qed.

Lemma date_differs_same (d : date) : date_differs (Some d) d = false.
Proof. simpl. now rewrite Z.eqb_refl. Qed.

Lemma date_differs_false (o : option date) (d : date) :
  date_differs o d = false <-> o = Some d.
Proof.
  destruct o as [x|]; simpl; [|split; discriminate].
  rewrite negb_false_iff, Z.eqb_eq. split; congruence.
Qed.

Lemma rolled_date (d : date) (self : Engine) :
  _trade_counter_date (rolled d self) = Some d.
Proof.
  unfold rolled. destruct (date_differs _ d) eqn:E; [reflexivity|].
  now apply date_differs_false.
Qed.

Lemma rolled_count (d : date) (self : Engine) :
  _trade_count_today (rolled d self) = count_on d self.
Proof. unfold rolled, count_on. now destruct (date_differs _ d). Qed.

Lemma rolled_peaks (d : date) (self : Engine) :
  _peak_prices (rolled d self) = _peak_prices self.
Proof. unfold rolled. now destruct (date_differs _ d). Qed.

Lemma rolled_same (d : date) (self : Engine) :
  _trade_counter_date self = Some d -> rolled d self = self.
Proof. unfold rolled. intros ->. now rewrite date_differs_same. Qed.

Lemma count_on_dated (d : date) (self : Engine) :
  _trade_counter_date self = Some d -> count_on d self = _trade_count_today self.
Proof. unfold count_on. intros ->. now rewrite date_differs_same. Qed.

Lemma same_day_cons (d d1 : date) (tr : list Interaction) :
  same_day d (IToday d1 :: tr) -> d1 = d /\ same_day d tr.
Proof.
  intros H. split; [apply H; now left | intros x Hx; apply H; now right].
Qed.

Lemma same_day_tail (d : date) (i : Interaction) (tr : list Interaction) :
  same_day d (i :: tr) -> same_day d tr.
Proof. intros H x Hx. apply H. now right. Qed.

Lemma same_day_app (d : date) (t1 t2 : list Interaction) :
  same_day d (t1 ++ t2) <-> same_day d t1 /\ same_day d t2.
Proof.
  unfold same_day. split.
  - intros H. split; intros x Hx; apply H, in_or_app; auto.
  - intros [H1 H2] x Hx. apply in_app_or in Hx as []; auto.
Qed.

(** One limiter call on date [d]. *)
Lemma limiter_call_run (d : date) (c : LimiterCall) (self : Engine) (w : W)
    r self1 w1 t1 :
  limiter_call env c self w = (r, self1, w1, t1) ->
  same_day d t1 ->
  exists x, r = Val x
    /\ _trade_counter_date self1 = Some d
    /\ _peak_prices self1 = _peak_prices self
    /\ count_on d self1 = count_on d self + successes [x]
    /\ (count_on d self <= 3 -> count_on d self1 <= 3)
    /\ (x = Incremented false -> 3 <= count_on d self).
Proof.
  destruct c; unfold limiter_call, bind;
    [rewrite increment_run | rewrite remaining_run]; cbn zeta;
    intros [= <- <- <- <-] Hd; apply same_day_cons in Hd as [Hd _];
    rewrite Hd; unfold MAX_DAILY_TRADES.
  - rewrite rolled_count.
    destruct (Z.geb_spec (count_on d self) 3) as [Hge | Hlt]; simpl.
    + exists (Incremented false).
      rewrite rolled_date, rolled_peaks, (count_on_dated d (rolled d self)), rolled_count
        by apply rolled_date.
      repeat split; auto; lia.
    + exists (Incremented true).
      change (_trade_counter_date (bumped (rolled d self)))
        with (_trade_counter_date (rolled d self)).
      change (_peak_prices (bumped (rolled d self)))
        with (_peak_prices (rolled d self)).
      rewrite rolled_date, rolled_peaks.
      rewrite (count_on_dated d (bumped _)) by apply rolled_date.
      change (_trade_count_today (bumped (rolled d self)))
        with (_trade_count_today (rolled d self) + 1).
      rewrite rolled_count.
      repeat split; auto; try lia. discriminate.
  - eexists. split; [reflexivity|].
    rewrite rolled_date, rolled_peaks, (count_on_dated d (rolled d self)), rolled_count
      by apply rolled_date.
    simpl. repeat split; auto; try lia. discriminate.
Qed.

Lemma successes_cons (x : LimiterReply) (xs : list LimiterReply) :
  successes (x :: xs) = successes [x] + successes xs.
Proof. destruct x as [[]|]; simpl; lia. Qed.

Lemma limiter_call_val (c : LimiterCall) (self : Engine) (w : W) :
  exists x self1 w1 d1, limiter_call env c self w = (Val x, self1, w1, [IToday d1]).
Proof.
  destruct c; unfold limiter_call, bind;
    [rewrite increment_run | rewrite remaining_run]; cbn zeta; eauto 6.
Qed.

(** A sequence of limiter calls on date [d]. *)
Lemma limiter_calls_run (d : date) (cs : list LimiterCall) :
  forall (self : Engine) (w : W) r self' w' tr,
  limiter_calls env cs self w = (r, self', w', tr) ->
  same_day d tr ->
  exists rs, r = Val rs
    /\ length rs = length cs
    /\ (cs = [] -> self' = self)
    /\ (cs <> [] -> _trade_counter_date self' = Some d)
    /\ _peak_prices self' = _peak_prices self
    /\ count_on d self' = count_on d self + successes rs
    /\ (count_on d self <= 3 -> count_on d self' <= 3).
Proof.
  induction cs as [|c rest IH]; intros self w r self' w' tr Hrun Hday.
  - injection Hrun as <- <- <- <-. exists []. simpl. repeat split; auto; try lia.
    congruence.
  - cbn [limiter_calls] in Hrun. unfold bind at 1 in Hrun.
    destruct (limiter_call_val c self w) as (x & s1 & w1 & d1 & E1).
    rewrite E1 in Hrun. unfold bind at 1 in Hrun.
    destruct (limiter_calls env rest s1 w1) as [[[r2 s2] w2] t2] eqn:E2.
    assert (Hd : same_day d [IToday d1] /\ same_day d t2).
    { destruct r2; injection Hrun as <- <- <- <-; simpl in Hday;
        apply same_day_cons in Hday as [-> Hday];
        rewrite ?app_nil_r in Hday; split; auto;
        intros y [[= ->]|[]]; reflexivity. }
    destruct Hd as [Hd1 Hd2].
    destruct (limiter_call_run d c self w _ _ _ _ E1 Hd1)
      as (x' & [= <-] & Hdate & Hpk & Hcnt & Hle & _).
    destruct (IH s1 w1 _ _ _ _ E2 Hd2)
      as (xs & -> & Hlen & Hnil & Hcons & Hpk2 & Hcnt2 & Hle2).
    cbn [ret] in Hrun. injection Hrun as <- <- <- <-.
    exists (x :: xs). rewrite successes_cons. simpl length.
    repeat split; auto; try congruence; try lia.
    intros _. destruct rest; [rewrite Hnil by reflexivity; exact Hdate | apply Hcons; discriminate].
Qed.

(** C2: within one calendar date the counter is never reset (the count is
    the count before plus the successful increments), at most 3
    tryIncrement calls succeed, a failing tryIncrement leaves the engine
    unchanged, after 3 successes the next tryIncrement fails and
    tradesRemaining answers 0, and the first call after the date changed
    resets the count once (the count is then the successes of that date). *)
Theorem daily_limiter (d : date) (cs : list LimiterCall)
    (self : Engine) (w : W) r self' w' tr :
  limiter_calls env cs self w = (r, self', w', tr) ->
  same_day d tr ->
  exists rs, r = Val rs /\ length rs = length cs
  /\ (_trade_counter_date self = Some d ->
        _trade_counter_date self' = Some d /\
        _trade_count_today self' = _trade_count_today self + successes rs /\
        (_trade_count_today self <= 3 -> _trade_count_today self' <= 3))
  /\ (_trade_counter_date self <> Some d -> cs <> [] ->
        _trade_counter_date self' = Some d /\
        _trade_count_today self' = successes rs /\
        successes rs <= 3)
  /\ (forall s0 w0 s1 w1 t1,
        _increment_trade_count env s0 w0 = (Val false, s1, w1, t1) -> s1 = s0)
  /\ (_trade_counter_date self <> Some d -> successes rs = 3 ->
        forall w2, fst (env_today env w2) = d ->
          _increment_trade_count env self' w2 =
            (Val false, self', snd (env_today env w2), [IToday d]) /\
          _trades_remaining env self' w2 =
            (Val 0, self', snd (env_today env w2), [IToday d])).
Proof.
  intros Hrun Hday.
  destruct (limiter_calls_run d cs self w _ _ _ _ Hrun Hday)
    as (rs & -> & Hlen & Hnil & Hcons & Hpk & Hcnt & Hle).
  exists rs. split; [reflexivity|]. split; [exact Hlen|].
  assert (Hdiff : _trade_counter_date self <> Some d -> count_on d self = 0).
  { intros Hne. unfold count_on.
    destruct (date_differs _ d) eqn:E; [reflexivity|].
    now apply date_differs_false in E. }
  split; [|split; [|split]].
  - intros Hdate.
    assert (Hdate' : _trade_counter_date self' = Some d).
    { destruct cs; [rewrite Hnil by reflexivity; exact Hdate | apply Hcons; discriminate]. }
    split; [exact Hdate'|].
    rewrite <- (count_on_dated d self'), <- (count_on_dated d self) by assumption.
    split; [exact Hcnt | exact Hle].
  - intros Hne Hcs. specialize (Hcons Hcs). specialize (Hdiff Hne).
    split; [exact Hcons|].
    rewrite <- (count_on_dated d self') by assumption. lia.
  - intros s0 w0 s1 w1 t1. rewrite increment_run. cbn zeta.
    unfold MAX_DAILY_TRADES. intros [= Hok <- _ _].
    apply negb_false_iff in Hok. rewrite Hok.
    unfold rolled in *. destruct (date_differs _ _); [discriminate Hok | reflexivity].
  - intros Hne H3 w2 Hw2. specialize (Hdiff Hne).
    assert (Hcs : cs <> []) by (intros ->; destruct rs; [discriminate H3 | discriminate Hlen]).
    specialize (Hcons Hcs).
    rewrite increment_run, remaining_run. cbn zeta. rewrite Hw2.
    rewrite (rolled_same d self') by assumption.
    rewrite <- (count_on_dated d self') by assumption.
    rewrite Hcnt, Hdiff, H3. split; reflexivity.
Qed.

End Limiter.

(** A run of C2's statement: four tryIncrement calls and a tradesRemaining
    call on date 7, from a new engine. *)
Lemma daily_limiter_witness :
  exists rs, Val [Incremented true; Incremented true; Incremented true;
                  Incremented false; Remaining 0] = Val rs
             /\ length rs = 5%nat /\ successes rs <= 3.
Proof.
  destruct (daily_limiter replay 7
              [TryIncrement; TryIncrement; TryIncrement; TryIncrement; TradesRemaining]
              new_engine (repeat (IToday 7) 5) _ _ _ _ eq_refl)
    as (rs & Hrs & Hlen & _ & Hfirst & _).
  - intros d' Hin. simpl in Hin.
    repeat (destruct Hin as [Hin | Hin]; [injection Hin as <-; reflexivity|]).
    contradiction.
  - exists rs. split; [exact Hrs|]. split; [exact Hlen|].
    apply Hfirst; discriminate.
Defined.

(** ** Drawdown monitor *)

Section Drawdown.
Context {W : Type} (env : Env W).

Lemma get_current_price_run (tkr : string) (self : Engine) (w : W) :
  _get_current_price env tkr self w =
  (Val (match fst (env_history env (yf_symbol tkr) w) with
        | None => None
        | Some closes => last_close closes
        end),
   self, snd (env_history env (yf_symbol tkr) w),
   [IHistory (yf_symbol tkr) (fst (env_history env (yf_symbol tkr) w))]).
Proof.
  unfold _get_current_price, bind, yf_history.
  destruct (env_history env (yf_symbol tkr) w) as [h w1]; reflexivity.
Qed.

(** Every outcome of the drawdown check. *)
Lemma check_drawdown_sell_run (tkr : string) (self : Engine) (w : W) :
  let pos := fst (env_get_position env tkr w) in
  let w1 := snd (env_get_position env tkr w) in
  let hist := fst (env_history env (yf_symbol tkr) w1) in
  let w2 := snd (env_history env (yf_symbol tkr) w1) in
  let current := match hist with None => None | Some closes => last_close closes end in
  _check_drawdown_sell env tkr self w =
  match pos with
  | None => (Val false, self, w1, [IGetPosition tkr None])
  | Some p =>
      match current with
      | None => (Val false, self, w2, [IGetPosition tkr pos; IHistory (yf_symbol tkr) hist])
      | Some cur =>
          let peak := py_max (default (entry_price p) (_peak_prices self !! tkr)) cur in
          (if float_truthy peak
           then Val (DRAWDOWN_THRESHOLD <=? (peak - cur) / peak)%float
           else Exc ZeroDivisionError,
           with_peak self tkr peak, w2,
           [IGetPosition tkr pos; IHistory (yf_symbol tkr) hist])
      end
  end.
Proof.
  cbn zeta. unfold _check_drawdown_sell, bind at 1, get_position.
  destruct (env_get_position env tkr w) as [[p|] w1]; [|reflexivity].
  cbn [fst snd]. unfold bind at 1. rewrite get_current_price_run.
  destruct (env_history env (yf_symbol tkr) w1) as [h w2]. cbn [fst snd].
  destruct (match h with None => None | Some closes => last_close closes end)
    as [cur|]; [|reflexivity].
  unfold bind, get_self, put_self, py_div, with_peak. cbn.
  destruct (float_truthy _); reflexivity.
Qed.

(** C3 (amended): without a position, or without a current price, the check
    answers false, raises nothing and leaves the engine as it was; otherwise
    it stores peak = max(stored peak or entry price, current) and, when that
    peak is not zero, answers whether the binary64 quotient
    (peak - current) / peak is at least the binary64 0.03.  With peak 110
    the answer is false for current 106.7 (the quotient rounds to
    0.029999999999999975) and for 106.8, and true for 106.5; the boundary
    is included where the quotient is the threshold itself, as for peak 100
    and current 97. *)
Theorem drawdown_check (tkr : string) (self : Engine) (w : W) :
  (forall w1, env_get_position env tkr w = (None, w1) ->
     _check_drawdown_sell env tkr self w =
       (Val false, self, w1, [IGetPosition tkr None]))
  /\ (forall p w1 w2 t,
       env_get_position env tkr w = (Some p, w1) ->
       _get_current_price env tkr self w1 = (Val None, self, w2, t) ->
       _check_drawdown_sell env tkr self w =
         (Val false, self, w2, IGetPosition tkr (Some p) :: t))
  /\ (forall p w1 cur w2 t,
       env_get_position env tkr w = (Some p, w1) ->
       _get_current_price env tkr self w1 = (Val (Some cur), self, w2, t) ->
       let peak := py_max (default (entry_price p) (_peak_prices self !! tkr)) cur in
       float_truthy peak = true ->
       _check_drawdown_sell env tkr self w =
         (Val (DRAWDOWN_THRESHOLD <=? (peak - cur) / peak)%float,
          with_peak self tkr peak, w2, IGetPosition tkr (Some p) :: t))
  /\ (py_max 110 106.7 = 110%float /\
      ((110 - 106.7) / 110)%float = 0.029999999999999975%float /\
      (DRAWDOWN_THRESHOLD <=? (110 - 106.7) / 110)%float = false /\
      (DRAWDOWN_THRESHOLD <=? (110 - 106.8) / 110)%float = false /\
      (DRAWDOWN_THRESHOLD <=? (110 - 106.5) / 110)%float = true /\
      (DRAWDOWN_THRESHOLD <=? (100 - 97) / 100)%float = true).
Proof.
  pose proof (check_drawdown_sell_run tkr self w) as Hrun. cbn zeta in Hrun.
  split; [|split; [|split]].
  - intros w1 Hp. rewrite Hp in Hrun. exact Hrun.
  - intros p w1 w2 t Hp Hc. rewrite Hp in Hrun. cbn [fst snd] in Hrun.
    rewrite get_current_price_run in Hc. injection Hc as Hc <- <-.
    rewrite Hc in Hrun. exact Hrun.
  - intros p w1 cur w2 t Hp Hc peak Hz. rewrite Hp in Hrun. cbn [fst snd] in Hrun.
    rewrite get_current_price_run in Hc. injection Hc as Hc <- <-.
    rewrite Hc in Hrun. fold peak in Hrun. rewrite Hz in Hrun. exact Hrun.
  - repeat split; reflexivity.
Qed.

End Drawdown.

(** A run of C3's statement: a stored peak of 110 and a price of 106.5. *)
Lemma drawdown_check_witness :
  _check_drawdown_sell replay "THYAO" (with_peak new_engine "THYAO" 110)
    [IGetPosition "THYAO" (Some {| entry_price := 100; quantity := 1 |});
     IHistory "THYAO.IS" (Some [110%float; 106.5%float])]
  = (Val true, with_peak (with_peak new_engine "THYAO" 110) "THYAO" 110, [],
     [IGetPosition "THYAO" (Some {| entry_price := 100; quantity := 1 |});
      IHistory "THYAO.IS" (Some [110%float; 106.5%float])]).
Proof.
  exact (proj1 (proj2 (proj2
    (drawdown_check replay "THYAO" (with_peak new_engine "THYAO" 110)
       [IGetPosition "THYAO" (Some {| entry_price := 100; quantity := 1 |});
        IHistory "THYAO.IS" (Some [110%float; 106.5%float])])))
    {| entry_price := 100; quantity := 1 |}
    [IHistory "THYAO.IS" (Some [110%float; 106.5%float])]
    106.5%float []
    [IHistory "THYAO.IS" (Some [110%float; 106.5%float])]
    eq_refl eq_refl eq_refl).
Defined.

(** C3, as stated, fails: with peak 110 stored and a current price of 106.7
    the check answers false, not true. *)
Lemma drawdown_boundary_is_not_reached :
  _check_drawdown_sell replay "THYAO" (with_peak new_engine "THYAO" 110)
    [IGetPosition "THYAO" (Some {| entry_price := 100; quantity := 1 |});
     IHistory "THYAO.IS" (Some [106.7%float])]
  = (Val false, with_peak (with_peak new_engine "THYAO" 110) "THYAO" 110, [],
     [IGetPosition "THYAO" (Some {| entry_price := 100; quantity := 1 |});
      IHistory "THYAO.IS" (Some [106.7%float])]).
Proof. reflexivity. Qed.

(** ** evaluate *)

Section Evaluate.
Context {W : Type} (env : Env W).

Lemma technical_analyze_run (t : string) (self : Engine) (w : W) :
  technical_analyze env t self w =
  (match fst (env_analyze env t w) with
   | inl msg => Exc (ProviderError msg)
   | inr x => Val x
   end, self, snd (env_analyze env t w), [IAnalyze t (fst (env_analyze env t w))]).
Proof. unfold technical_analyze. now destruct (env_analyze env t w). Qed.

Lemma score_for_ticker_with_risk_run (t : string) (self : Engine) (w : W) :
  score_for_ticker_with_risk env t self w =
  (match fst (env_sentiment env t w) with
   | inl msg => Exc (ProviderError msg)
   | inr x => Val x
   end, self, snd (env_sentiment env t w),
   [ISentiment t (fst (env_sentiment env t w))]).
Proof. unfold score_for_ticker_with_risk. now destruct (env_sentiment env t w). Qed.

(** The trade attempted by a rule that fired: one increment and, when it
    succeeds, the quota left. *)
Lemma attempt_run {A : Type} (made : Z -> A) (refused : A) (self : Engine) (w : W) :
  (ok <- _increment_trade_count env ;;
   if ok : bool then left <- _trades_remaining env ;; ret (made left)
   else ret refused) self w =
  let d1 := fst (env_today env w) in
  let w1 := snd (env_today env w) in
  let s1 := rolled d1 self in
  if _trade_count_today s1 >=? MAX_DAILY_TRADES then
    (Val refused, s1, w1, [IToday d1])
  else
    let d2 := fst (env_today env w1) in
    let s2 := rolled d2 (bumped s1) in
    (Val (made (Z.max 0 (MAX_DAILY_TRADES - _trade_count_today s2))), s2,
     snd (env_today env w1), [IToday d1; IToday d2]).
Proof.
  unfold bind at 1. rewrite increment_run. cbn zeta.
  destruct (_ >=? _); cbn [negb]; [reflexivity|].
  unfold bind. rewrite remaining_run. reflexivity.
Qed.

(** On date [d], with quota left, the attempt succeeds. *)
Lemma attempt_same_day {A : Type} (made : Z -> A) (refused : A) (d : date)
    (self : Engine) (w : W) r self' w' tr :
  (ok <- _increment_trade_count env ;;
   if ok : bool then left <- _trades_remaining env ;; ret (made left)
   else ret refused) self w = (r, self', w', tr) ->
  same_day d tr ->
  _trade_counter_date self = Some d ->
  _trade_count_today self < MAX_DAILY_TRADES ->
  r = Val (made (Z.max 0 (MAX_DAILY_TRADES - (_trade_count_today self + 1))))
  /\ self' = bumped self
  /\ tr = [IToday d; IToday d].
Proof.
  rewrite attempt_run. cbn zeta. intros Hrun Hday Hdate Hcount.
  assert (H1 : fst (env_today env w) = d).
  { destruct (_ >=? _); injection Hrun as <- <- <- <-; apply Hday; now left. }
  rewrite H1 in Hrun. rewrite (rolled_same d self Hdate) in Hrun.
  destruct (Z.geb_spec (_trade_count_today self) MAX_DAILY_TRADES) as [Hge | _]; [lia|].
  assert (H2 : fst (env_today env (snd (env_today env w))) = d).
  { injection Hrun as <- <- <- <-. apply Hday. right. now left. }
  rewrite H2 in Hrun.
  rewrite (rolled_same d (bumped self)) in Hrun by exact Hdate.
  injection Hrun as <- <- <- <-. auto.
Qed.

Lemma evaluate_drawdown_same_day (d : date) (holding : option string)
    (self : Engine) (w : W) r self' w' tr :
  evaluate_drawdown env holding self w = (r, self', w', tr) ->
  same_day d tr ->
  _trade_counter_date self = Some d ->
  _trade_count_today self < MAX_DAILY_TRADES ->
  sell_rule_post d self (r, self', w', tr).
Proof.
  intros Hrun Hday Hdate Hcount. unfold evaluate_drawdown in Hrun.
  destruct (str_truthy holding) as [h|];
    [|injection Hrun as <- <- <- <-; split; reflexivity].
  unfold bind at 1 in Hrun. rewrite check_drawdown_sell_run in Hrun.
  cbn zeta in Hrun.
  destruct (fst (env_get_position env h w)) as [p|];
    [|injection Hrun as <- <- <- <-; split; reflexivity].
  destruct (match fst (env_history env (yf_symbol h) _) with
            | None => None | Some closes => last_close closes end) as [cur|];
    [|injection Hrun as <- <- <- <-; split; reflexivity].
  destruct (float_truthy _);
    [|injection Hrun as <- <- <- <-; split; [reflexivity | split; reflexivity]].
  destruct (DRAWDOWN_THRESHOLD <=? _)%float;
    [|injection Hrun as <- <- <- <-; split; reflexivity].
  split_attempt Hrun E r1 s1 w1 t1. injection Hrun as <- <- <- <-.
  repeat apply same_day_tail in Hday.
  apply (attempt_same_day _ _ d) in E as (-> & -> & _); auto.
  cbn. repeat split; try assumption.
  intros [H | [H | [H _]]]; discriminate H.
Qed.

Lemma holding_technical_run (h : string) (self : Engine) (w : W) :
  try_except (technical_analyze env h) (fun _ => ret 0%float) self w =
  (Val (match fst (env_analyze env h w) with inl _ => 0%float | inr x => x end),
   self, snd (env_analyze env h w), [IAnalyze h (fst (env_analyze env h w))]).
Proof.
  unfold try_except. rewrite technical_analyze_run.
  destruct (fst (env_analyze env h w)); reflexivity.
Qed.

Lemma holding_sentiment_run (h : string) (self : Engine) (w : W) :
  try_except (sr <- score_for_ticker_with_risk env h ;;
              ret (fst sr, confidence_of (snd sr)))
             (fun _ => ret (0%float, 1%float)) self w =
  (Val (match fst (env_sentiment env h w) with
        | inl _ => (0%float, 1%float)
        | inr x => (fst x, confidence_of (snd x))
        end),
   self, snd (env_sentiment env h w), [ISentiment h (fst (env_sentiment env h w))]).
Proof.
  unfold try_except, bind. rewrite score_for_ticker_with_risk_run.
  destruct (fst (env_sentiment env h w)); reflexivity.
Qed.

Lemma evaluate_sentiment_run (tkr : string) (self : Engine) (w : W) :
  evaluate_sentiment env tkr self w =
  (Val (match fst (env_sentiment env tkr w) with
        | inl _ => (0%float, 1%float)
        | inr x => (fst x, confidence_of (snd x))
        end),
   self, snd (env_sentiment env tkr w),
   [ISentiment tkr (fst (env_sentiment env tkr w))]).
Proof.
  unfold evaluate_sentiment, try_except, bind.
  rewrite score_for_ticker_with_risk_run.
  destruct (fst (env_sentiment env tkr w)); reflexivity.
Qed.

Lemma entry_fetch_run (tkr : string) (self : Engine) (w : W) :
  try_except (T <- technical_analyze env tkr ;; ret (inr T))
             (fun e => ret (inl e)) self w =
  (Val (match fst (env_analyze env tkr w) with
        | inl msg => inl (ProviderError msg)
        | inr x => inr x
        end),
   self, snd (env_analyze env tkr w), [IAnalyze tkr (fst (env_analyze env tkr w))]).
Proof.
  unfold try_except, bind. rewrite technical_analyze_run.
  destruct (fst (env_analyze env tkr w)); reflexivity.
Qed.

Lemma evaluate_downside_same_day (d : date) (holding : option string)
    (self : Engine) (w : W) r self' w' tr :
  evaluate_downside env holding self w = (r, self', w', tr) ->
  same_day d tr ->
  _trade_counter_date self = Some d ->
  _trade_count_today self < MAX_DAILY_TRADES ->
  sell_rule_post d self (r, self', w', tr).
Proof.
  intros Hrun Hday Hdate Hcount. unfold evaluate_downside in Hrun.
  destruct (str_truthy holding) as [h|];
    [|injection Hrun as <- <- <- <-; split; reflexivity].
  unfold bind at 1 in Hrun. rewrite holding_technical_run in Hrun.
  unfold bind at 1 in Hrun. rewrite holding_sentiment_run in Hrun.
  cbn zeta in Hrun.
  destruct (fst (_aligned _ _ _) && _)%bool;
    [|injection Hrun as <- <- <- <-; split; reflexivity].
  split_attempt Hrun E r1 s1 w1 t1. injection Hrun as <- <- <- <-.
  repeat apply same_day_tail in Hday.
  apply (attempt_same_day _ _ d) in E as (-> & -> & _); auto.
  cbn. repeat split; try assumption.
  intros [H | [H | [H _]]]; discriminate H.
Qed.

Lemma evaluate_entry_same_day (d : date) (tkr : string) (S confidence : float)
    (remaining : Z) (self : Engine) (w : W) r self' w' tr :
  evaluate_entry env tkr S confidence remaining self w = (r, self', w', tr) ->
  same_day d tr ->
  _trade_counter_date self = Some d ->
  _trade_count_today self < MAX_DAILY_TRADES ->
  exists res, r = Val res /\ decision_post d self res self'.
Proof.
  intros Hrun Hday Hdate Hcount. unfold evaluate_entry in Hrun.
  unfold bind at 1 in Hrun. rewrite entry_fetch_run in Hrun.
  destruct (fst (env_analyze env tkr w)) as [msg | T].
  - injection Hrun as <- <- <- <-. eexists. split; [reflexivity|].
    split; [|split; reflexivity].
    intros [H | [H | [_ H]]]; try discriminate H.
    now apply zero_not_bullish in H.
  - cbn zeta in Hrun. unfold bind at 1 in Hrun.
    destruct (fst (_aligned T S confidence) && _)%bool eqn:Hc.
    + split_attempt Hrun E r1 s1 w1 t1.
      destruct r1 as [[res|]|e]; injection Hrun as <- <- <- <-;
        repeat apply same_day_tail in Hday;
        rewrite ?app_nil_r in Hday;
        apply (attempt_same_day _ _ d) in E as (E & -> & _); auto;
        try discriminate E.
      injection E as ->. eexists. split; [reflexivity|].
      split; [|split; [assumption | reflexivity]].
      intros [H | [H | [H _]]]; try discriminate H;
        cbn in H; destruct (confidence <? 1)%float; discriminate H.
    + injection Hrun as <- <- <- <-. eexists. split; [reflexivity|].
      split; [|split; reflexivity].
      intros [H | [H | [_ H]]];
        try (cbn in H; destruct (confidence <? 1)%float; discriminate H).
      cbn [T_score S_score confidence_score] in H. rewrite H in Hc. discriminate Hc.
Qed.

(** One [evaluate] call on date [d]. *)
Lemma evaluate_same_day (d : date) (tkr : string) (holding : option string)
    (self : Engine) (w : W) r self' w' tr :
  evaluate env tkr holding self w = (r, self', w', tr) ->
  same_day d tr ->
  match r with
  | Val res =>
      ~ quota_failure res /\
      counted d (count_on d self + match action res with HOLD => 0 | _ => 1 end) self'
  | Exc e => e = ZeroDivisionError /\ counted d (count_on d self) self'
  end.
Proof.
  intros Hrun Hday. unfold evaluate in Hrun.
  unfold bind at 1 in Hrun. rewrite remaining_run in Hrun.
  cbv beta iota zeta in Hrun.
  destruct (Z.leb_spec (Z.max 0 (MAX_DAILY_TRADES -
              _trade_count_today (rolled (fst (env_today env w)) self))) 0)
    as [Hgate | Hgate].
  - injection Hrun as <- <- <- <-.
    apply same_day_cons in Hday as [Hd _]. rewrite Hd.
    split.
    + intros [H | [H | [_ H]]]; discriminate H.
    + cbn [action]. split; [apply rolled_date | rewrite rolled_count; lia].
  - match type of Hrun with
    | context [bind ?m ?k ?s ?w0] =>
        destruct (bind m k s w0) as [[[rr ss] ww] tt] eqn:ER
    end.
    injection Hrun as <- <- <- <-.
    apply same_day_cons in Hday as [Hd Hday]. rewrite Hd in *. clear Hd.
    set (s0 := rolled d self) in *.
    assert (Hdate0 : _trade_counter_date s0 = Some d) by apply rolled_date.
    assert (Hcount0 : _trade_count_today s0 = count_on d self) by apply rolled_count.
    assert (Hlt : _trade_count_today s0 < MAX_DAILY_TRADES) by lia.
    assert (Hon : forall s, same_counter s s0 -> counted d (count_on d self) s).
    { intros s [Hs1 Hs2]. split; congruence. }
    assert (Hup : forall s, _trade_counter_date s = Some d ->
                            _trade_count_today s = _trade_count_today s0 + 1 ->
                            counted d (count_on d self + 1) s).
    { intros s Hs1 Hs2. split; [assumption | lia]. }
    clearbody s0. clear Hgate.
    apply bind_inv in ER as [(stop & s1 & w1 & t1 & t2 & E1 & ER & ->) | (e & E1 & ->)];
      [apply same_day_app in Hday as [Hday1 Hday] | ];
      pose proof (evaluate_drawdown_same_day d _ _ _ _ _ _ _ E1 ltac:(assumption) Hdate0 Hlt) as P1;
      cbn [sell_rule_post] in P1;
      [|destruct P1 as [-> Hs]; split; [reflexivity | now apply Hon]].
    destruct stop as [res1|].
    { injection ER as <- <- <- <-. destruct P1 as (Ha & Hq & Hd1 & Hc1).
      split; [exact Hq|]. rewrite Ha. now apply Hup. }
    destruct P1 as [Pd1 Pc1].
    assert (Hdate1 : _trade_counter_date s1 = Some d) by congruence.
    assert (Hlt1 : _trade_count_today s1 < MAX_DAILY_TRADES) by congruence.
    apply bind_inv in ER as [(sc & s1' & w1' & t1' & t2' & Es & ER & ->) | (e & Es & ->)];
      rewrite evaluate_sentiment_run in Es; [|discriminate Es].
    injection Es as <- <- <- <-.
    apply same_day_tail in Hday.
    apply bind_inv in ER as [(down & s2 & w2 & t3 & t4 & E2 & ER & ->) | (e & E2 & ->)];
      [apply same_day_app in Hday as [Hday2 Hday] | ];
      pose proof (evaluate_downside_same_day d _ _ _ _ _ _ _ E2 ltac:(assumption) Hdate1 Hlt1) as P2;
      cbn [sell_rule_post] in P2;
      [|destruct P2 as [-> Hs]; split; [reflexivity | apply Hon; destruct Hs; split; congruence]].
    destruct down as [res2|].
    { injection ER as <- <- <- <-. destruct P2 as (Ha & Hq & Hd2 & Hc2).
      split; [exact Hq|]. rewrite Ha. apply Hup; congruence. }
    destruct P2 as [Pd2 Pc2].
    destruct (evaluate_entry_same_day d _ _ _ _ _ _ _ _ _ _ ER Hday)
      as (res & -> & Hq & Hpost); try congruence.
    split; [exact Hq|].
    destruct (action res).
    + destruct Hpost. apply Hup; congruence.
    + destruct Hpost. apply Hup; congruence.
    + rewrite Z.add_0_r. apply Hon. destruct Hpost. split; congruence.
Qed.

(** C5: when no trade is left, [evaluate] returns the quota HOLD for the
    ticker it was given, whatever the holding and the collaborators; the
    only interaction is the date query of [_trades_remaining], and the peak
    prices are untouched. *)
Theorem evaluate_quota_gate (tkr : string) (holding : option string)
    (self : Engine) (w : W) n s1 w1 t1 :
  _trades_remaining env self w = (Val n, s1, w1, t1) ->
  n <= 0 ->
  evaluate env tkr holding self w =
    (Val {| action := HOLD; ticker := tkr;
            T_score := 0; S_score := 0; confidence_score := 1;
            aligned := false; daily_trades_left := 0;
            reason := "Daily trade limit (3) reached." |},
     s1, w1, t1)
  /\ t1 = [IToday (fst (env_today env w))]
  /\ _peak_prices s1 = _peak_prices self.
Proof.
  intros Hrem Hn. unfold evaluate, bind. rewrite Hrem.
  destruct (Z.leb_spec n 0); [|lia]. cbn [ret]. rewrite app_nil_r.
  rewrite remaining_run in Hrem. injection Hrem as _ <- _ <-.
  repeat split. apply rolled_peaks.
Qed.

(** C4: with a holding whose drawdown check answers true, the stop-loss
    rule attempts one increment.  When it succeeds the rule answers the
    stop-loss SELL of the holding, aligned, with the quota left after the
    increment; when it is refused the rule answers the HOLD of the holding,
    aligned, with no trade left and the "limit reached" reason, and no sell
    order is sent.  An [evaluate] call that has passed the quota gate
    returns that answer, and no analyzer is called. *)
Theorem evaluate_stop_loss (tkr h : string) (s1 : Engine) (w1 : W)
    s2 w2 t2 (ok : bool) s3 w3 t3 left s4 w4 t4 :
  h <> ""%string ->
  _check_drawdown_sell env h s1 w1 = (Val true, s2, w2, t2) ->
  _increment_trade_count env s2 w2 = (Val ok, s3, w3, t3) ->
  _trades_remaining env s3 w3 = (Val left, s4, w4, t4) ->
  let res :=
    if ok then
      {| action := SELL; ticker := h;
         T_score := 0; S_score := 0; confidence_score := 1;
         aligned := true; daily_trades_left := left;
         reason := "MIT Sloan: Position dropped >3% from peak. Sell triggered." |}
    else
      {| action := HOLD; ticker := h;
         T_score := 0; S_score := 0; confidence_score := 1;
         aligned := true; daily_trades_left := 0;
         reason := "Drawdown SELL required but daily limit reached." |} in
  let s' := if ok then s4 else s3 in
  let w' := if ok then w4 else w3 in
  let tail := if ok then t2 ++ t3 ++ t4 else t2 ++ t3 in
  evaluate_drawdown env (Some h) s1 w1 = (Val (Some res), s', w', tail)
  /\ (forall self w n t1,
        _trades_remaining env self w = (Val n, s1, w1, t1) -> 0 < n ->
        evaluate env tkr (Some h) self w = (Val res, s', w', t1 ++ tail))
  /\ (ok = true -> left = Z.max 0 (MAX_DAILY_TRADES - _trade_count_today s4))
  /\ existsb is_signal_call tail = false
  /\ (ok = false -> existsb is_sell_order tail = false).
Proof.
  intros Hh Hdd Hinc Hleft res s' w' tail.
  assert (Htruthy : str_truthy (Some h) = Some h)
    by (destruct h; [exfalso; apply Hh; reflexivity | reflexivity]).
  assert (Ht3 : t3 = [IToday (fst (env_today env w2))]).
  { rewrite increment_run in Hinc. now injection Hinc as _ _ _ <-. }
  assert (Ht4 : t4 = [IToday (fst (env_today env w3))]).
  { rewrite remaining_run in Hleft. now injection Hleft as _ _ _ <-. }
  assert (Ht2 : existsb is_signal_call t2 = false /\ existsb is_sell_order t2 = false).
  { rewrite check_drawdown_sell_run in Hdd. cbn zeta in Hdd.
    destruct (fst (env_get_position _ _ _)); [|now injection Hdd as _ _ _ <-].
    destruct (match fst (env_history _ _ _) with None => None | Some c => last_close c end);
      now injection Hdd as _ _ _ <-. }
  destruct Ht2 as [Ht2 Ht2'].
  assert (Hrule : evaluate_drawdown env (Some h) s1 w1 = (Val (Some res), s', w', tail)).
  { unfold evaluate_drawdown. rewrite Htruthy.
    unfold res, s', w', tail. destruct ok.
    - eapply bind_val; [exact Hdd|]. cbv iota.
      eapply bind_val; [exact Hinc|]. cbv iota.
      rewrite <- (app_nil_r t4).
      eapply bind_val; [exact Hleft|]. reflexivity.
    - eapply bind_val; [exact Hdd|]. cbv iota.
      rewrite <- (app_nil_r t3).
      eapply bind_val; [exact Hinc|]. reflexivity. }
  split; [exact Hrule|]. split; [|split; [|split]].
  - intros self w n t1 Hrem Hn.
    rewrite <- (app_nil_r tail).
    unfold evaluate. eapply bind_val; [exact Hrem|].
    destruct (Z.leb_spec n 0); [lia|].
    eapply bind_val; [exact Hrule|]. reflexivity.
  - intros _. rewrite remaining_run in Hleft. injection Hleft as <- <- _ _.
    reflexivity.
  - unfold tail. destruct ok; rewrite !existsb_app, Ht2; subst; reflexivity.
  - intros ->. unfold tail. rewrite !existsb_app, Ht2'. subst. reflexivity.
Qed.

(** The attempt never raises. *)
Lemma attempt_inv {A : Type} (made : Z -> A) (refused : A) (self : Engine) (w : W)
    r self' w' tr :
  (ok <- _increment_trade_count env ;;
   if ok : bool then left <- _trades_remaining env ;; ret (made left)
   else ret refused) self w = (r, self', w', tr) ->
  r = Val refused \/ exists left, r = Val (made left).
Proof.
  rewrite attempt_run. cbn zeta.
  destruct (_ >=? _); intros [= <- _ _ _]; eauto.
Qed.

(** The only exception that leaves [evaluate] is the division by a zero
    peak in the drawdown check. *)
Lemma evaluate_drawdown_raises (holding : option string) (self : Engine) (w : W)
    e self' w' tr :
  evaluate_drawdown env holding self w = (Exc e, self', w', tr) ->
  e = ZeroDivisionError.
Proof.
  unfold evaluate_drawdown. destruct (str_truthy holding) as [h|]; [|discriminate].
  intros Hrun.
  apply bind_inv in Hrun as [(fired & s1 & w1 & t1 & t2 & E1 & Hrun & ->) | (e' & E1 & [= ->])].
  - destruct fired; [|discriminate Hrun].
    apply attempt_inv in Hrun as [H | [left H]]; discriminate H.
  - rewrite check_drawdown_sell_run in E1. cbn zeta in E1.
    destruct (fst (env_get_position _ _ _)); [|discriminate E1].
    destruct (match fst (env_history _ _ _) with None => None | Some c => last_close c end);
      [|discriminate E1].
    destruct (float_truthy _); [discriminate E1|]. now injection E1 as <-.
Qed.

Lemma evaluate_downside_val (holding : option string) (self : Engine) (w : W)
    r self' w' tr :
  evaluate_downside env holding self w = (r, self', w', tr) ->
  exists o, r = Val o.
Proof.
  unfold evaluate_downside. destruct (str_truthy holding) as [h|];
    [|intros [= <- _ _ _]; eauto].
  unfold bind at 1. rewrite holding_technical_run.
  unfold bind at 1. rewrite holding_sentiment_run. cbn zeta.
  destruct (fst (_aligned _ _ _) && _)%bool; [|intros [= <- _ _ _]; eauto].
  intros Hrun. split_attempt Hrun E r1 s1 w1 t1. injection Hrun as <- _ _ _.
  apply attempt_inv in E as [-> | [left ->]]; eauto.
Qed.

Lemma evaluate_entry_val (tkr : string) (S confidence : float) (remaining : Z)
    (self : Engine) (w : W) r self' w' tr :
  evaluate_entry env tkr S confidence remaining self w = (r, self', w', tr) ->
  exists res, r = Val res.
Proof.
  unfold evaluate_entry. unfold bind at 1. rewrite entry_fetch_run.
  destruct (fst (env_analyze env tkr w)) as [msg | T]; [intros [= <- _ _ _]; eauto|].
  cbn zeta. unfold bind at 1.
  destruct (fst (_aligned T S confidence) && _)%bool; [|intros [= <- _ _ _]; eauto].
  intros Hrun. split_attempt Hrun E r1 s1 w1 t1.
  apply attempt_inv in E as [-> | [left ->]]; injection Hrun as <- _ _ _; eauto.
Qed.

Lemma evaluate_raises (tkr : string) (holding : option string)
    (self : Engine) (w : W) e self' w' tr :
  evaluate env tkr holding self w = (Exc e, self', w', tr) ->
  e = ZeroDivisionError.
Proof.
  unfold evaluate. intros Hrun.
  apply bind_inv in Hrun as [(n & s1 & w1 & t1 & t2 & E1 & Hrun & ->) | (e' & E1 & _)];
    [|rewrite remaining_run in E1; discriminate E1].
  destruct (n <=? 0); [discriminate Hrun|].
  apply bind_inv in Hrun as [(stop & s2 & w2 & t3 & t4 & E2 & Hrun & ->) | (e' & E2 & [= ->])];
    [|now apply evaluate_drawdown_raises in E2].
  destruct stop; [discriminate Hrun|].
  apply bind_inv in Hrun as [(sc & s3 & w3 & t5 & t6 & E3 & Hrun & ->) | (e' & E3 & _)];
    [|rewrite evaluate_sentiment_run in E3; discriminate E3].
  apply bind_inv in Hrun as [(down & s4 & w4 & t7 & t8 & E4 & Hrun & ->) | (e' & E4 & _)];
    [|apply evaluate_downside_val in E4 as [o E4]; discriminate E4].
  destruct down; [discriminate Hrun|].
  apply evaluate_entry_val in Hrun as [res Hrun]. discriminate Hrun.
Qed.

(** C8: a raised failure of the candidate's technical fetch ends the
    evaluation with a HOLD for the candidate that carries the message, a
    zero T, aligned false, and the sentiment score and confidence computed
    before; a raised failure of the holding's technical fetch is replaced
    by T = 0.0 and the downside rule lets the evaluation go on; a raised
    sentiment fetch is replaced by (0.0, no risk); and no collaborator's
    failure ever leaves [evaluate] as an exception.  The defaults are those
    of the rules themselves: when the holding's sentiment fetch raises, the
    downside rule falls through whatever the holding's technical score;
    when the candidate's sentiment fetch raises and its technical score is
    fetched, [evaluate] answers the "not aligned" HOLD with S = 0.0 and
    confidence 1.0. *)
Theorem provider_failures (tkr : string) (holding : option string) :
  (forall self w n s1 w1 t1 s2 w2 t2 S conf s3 w3 t3 s4 w4 t4 msg w5,
     _trades_remaining env self w = (Val n, s1, w1, t1) -> 0 < n ->
     evaluate_drawdown env holding s1 w1 = (Val None, s2, w2, t2) ->
     evaluate_sentiment env tkr s2 w2 = (Val (S, conf), s3, w3, t3) ->
     evaluate_downside env holding s3 w3 = (Val None, s4, w4, t4) ->
     env_analyze env tkr w4 = (inl msg, w5) ->
     evaluate env tkr holding self w =
       (Val {| action := HOLD; ticker := tkr;
               T_score := 0; S_score := S; confidence_score := conf;
               aligned := false; daily_trades_left := n;
               reason := "Technical analysis failed: " +:+ msg |},
        s4, w5, t1 ++ t2 ++ t3 ++ t4 ++ [IAnalyze tkr (inl msg)]))
  /\ (forall h self w msg w1,
        env_analyze env h w = (inl msg, w1) ->
        try_except (technical_analyze env h) (fun _ => ret 0%float) self w =
          (Val 0%float, self, w1, [IAnalyze h (inl msg)])
        /\ (h <> ""%string ->
            evaluate_downside env (Some h) self w =
              (Val None, self, snd (env_sentiment env h w1),
               [IAnalyze h (inl msg); ISentiment h (fst (env_sentiment env h w1))])))
  /\ (forall t self w msg w1,
        env_sentiment env t w = (inl msg, w1) ->
        evaluate_sentiment env t self w =
          (Val (0%float, confidence_of false), self, w1, [ISentiment t (inl msg)])
        /\ try_except (sr <- score_for_ticker_with_risk env t ;;
                       ret (fst sr, confidence_of (snd sr)))
                      (fun _ => ret (0%float, 1%float)) self w =
          (Val (0%float, 1%float), self, w1, [ISentiment t (inl msg)]))
  /\ (forall self w e self' w' tr,
        evaluate env tkr holding self w = (Exc e, self', w', tr) ->
        e = ZeroDivisionError)
  /\ (forall h self w a w1 msg w2,
        h <> ""%string ->
        env_analyze env h w = (a, w1) ->
        env_sentiment env h w1 = (inl msg, w2) ->
        evaluate_downside env (Some h) self w =
          (Val None, self, w2, [IAnalyze h a; ISentiment h (inl msg)]))
  /\ (forall self w n s1 w1 t1 s2 w2 t2 msg w3 s4 w4 t4 T w5,
        _trades_remaining env self w = (Val n, s1, w1, t1) -> 0 < n ->
        evaluate_drawdown env holding s1 w1 = (Val None, s2, w2, t2) ->
        env_sentiment env tkr w2 = (inl msg, w3) ->
        evaluate_downside env holding s2 w3 = (Val None, s4, w4, t4) ->
        env_analyze env tkr w4 = (inr T, w5) ->
        evaluate env tkr holding self w =
          (Val {| action := HOLD; ticker := tkr;
                  T_score := T; S_score := 0; confidence_score := 1;
                  aligned := false; daily_trades_left := n;
                  reason := "T and S not aligned for trade." |},
           s4, w5,
           t1 ++ t2 ++ [ISentiment tkr (inl msg)] ++ t4 ++ [IAnalyze tkr (inr T)])).
Proof.
  split; [|split; [|split; [|split; [|split]]]].
  - intros self w n s1 w1 t1 s2 w2 t2 S conf s3 w3 t3 s4 w4 t4 msg w5
      Hrem Hn Hdd Hsent Hdown Htech.
    replace (t1 ++ t2 ++ t3 ++ t4 ++ [IAnalyze tkr (inl msg)])
      with (t1 ++ t2 ++ t3 ++ t4 ++ [IAnalyze tkr (inl msg)] ++ [])
      by (now rewrite app_nil_r).
    unfold evaluate. eapply bind_val; [exact Hrem|].
    destruct (Z.leb_spec n 0); [lia|].
    eapply bind_val; [exact Hdd|]. cbv iota.
    eapply bind_val; [exact Hsent|].
    eapply bind_val; [exact Hdown|]. cbv iota.
    unfold evaluate_entry. eapply bind_val.
    + rewrite entry_fetch_run, Htech. reflexivity.
    + reflexivity.
  - intros h self w msg w1 Htech. split.
    + rewrite holding_technical_run, Htech. reflexivity.
    + intros Hh. unfold evaluate_downside.
      replace (str_truthy (Some h)) with (Some h)
        by (destruct h; [exfalso; apply Hh; reflexivity | reflexivity]).
      unfold bind at 1. rewrite holding_technical_run, Htech. cbn [fst snd].
      unfold bind at 1. rewrite holding_sentiment_run. cbn zeta.
      destruct (fst (_aligned 0 _ _) && _)%bool eqn:Hal; [|reflexivity].
      exfalso. unfold _aligned in Hal.
      rewrite thresh_not_below_zero in Hal.
      rewrite (proj2 (above_zero_false _ (alignment_thresh_sign _))) in Hal.
      discriminate Hal.
  - intros t self w msg w1 Hsent. split.
    + rewrite evaluate_sentiment_run, Hsent. reflexivity.
    + rewrite holding_sentiment_run, Hsent. reflexivity.
  - intros self w e self' w' tr. apply evaluate_raises.
  - intros h self w a w1 msg w2 Hh Htech Hsent. unfold evaluate_downside.
    replace (str_truthy (Some h)) with (Some h)
      by (destruct h; [exfalso; apply Hh; reflexivity | reflexivity]).
    unfold bind at 1. rewrite holding_technical_run, Htech. cbn [fst snd].
    unfold bind at 1. rewrite holding_sentiment_run, Hsent. cbn [fst snd]. cbn zeta.
    rewrite zero_score_neutral by now right. reflexivity.
  - intros self w n s1 w1 t1 s2 w2 t2 msg w3 s4 w4 t4 T w5
      Hrem Hn Hdd Hsent Hdown Htech.
    replace (t1 ++ t2 ++ [ISentiment tkr (inl msg)] ++ t4 ++ [IAnalyze tkr (inr T)])
      with (t1 ++ t2 ++ [ISentiment tkr (inl msg)] ++ t4 ++ [IAnalyze tkr (inr T)] ++ [])
      by (now rewrite app_nil_r).
    unfold evaluate. eapply bind_val; [exact Hrem|].
    destruct (Z.leb_spec n 0); [lia|].
    eapply bind_val; [exact Hdd|]. cbv iota.
    eapply bind_val; [rewrite evaluate_sentiment_run, Hsent; reflexivity|].
    cbn [fst snd confidence_of].
    eapply bind_val; [exact Hdown|]. cbv iota.
    unfold evaluate_entry. eapply bind_val.
    + rewrite entry_fetch_run, Htech. reflexivity.
    + cbn [fst snd]. cbv iota. cbn zeta.
      rewrite zero_score_neutral by now right. reflexivity.
Qed.

(** C9: when the date does not change during an [evaluate] call, no
    result comes from a refused increment: neither of the two "daily limit
    reached" HOLDs on the holding is returned, and no HOLD is returned for
    scores that are aligned bullish. *)
Theorem quota_failures_unreachable (d : date) (tkr : string)
    (holding : option string) (self : Engine) (w : W) res self' w' tr :
  evaluate env tkr holding self w = (Val res, self', w', tr) ->
  same_day d tr ->
  reason res <> "Drawdown SELL required but daily limit reached."%string
  /\ reason res <> "Downside risk but daily limit reached."%string
  /\ ~ (action res = HOLD /\
        _aligned (T_score res) (S_score res) (confidence_score res)
        = (true, "bullish"%string)).
Proof.
  intros Hrun Hday.
  destruct (evaluate_same_day d _ _ _ _ _ _ _ _ Hrun Hday) as [Hq _].
  unfold quota_failure in Hq. tauto.
Qed.

(** C10: an [evaluate] call within date [d] adds exactly one to the count
    of that date when it returns BUY or SELL and nothing when it returns
    HOLD (or raises); it never adds more than one. *)
Theorem evaluate_counts_one_trade (d : date) (tkr : string)
    (holding : option string) (self : Engine) (w : W) r self' w' tr :
  evaluate env tkr holding self w = (r, self', w', tr) ->
  same_day d tr ->
  _trade_counter_date self' = Some d
  /\ _trade_count_today self' =
       count_on d self +
       match r with
       | Val res => match action res with HOLD => 0 | _ => 1 end
       | Exc _ => 0
       end
  /\ count_on d self <= _trade_count_today self' <= count_on d self + 1.
Proof.
  intros Hrun Hday.
  pose proof (evaluate_same_day d _ _ _ _ _ _ _ _ Hrun Hday) as H.
  destruct r as [res|e]; destruct H as [_ [Hd H]]; rewrite H;
    (split; [exact Hd|]).
  - destruct (action res); lia.
  - lia.
Qed.

End Evaluate.

Ltac explicit_same_day :=
  let x := fresh in let H := fresh in
  intros x H; cbn in H;
  repeat (destruct H as [H | H]; [try discriminate H; injection H as <-; reflexivity|]);
  contradiction.

(** A run of C5's statement: three trades counted on date 5. *)
Lemma evaluate_quota_gate_witness :
  evaluate replay "THYAO" (Some "GARAN"%string)
    {| _trade_counter_date := Some 5; _trade_count_today := 3; _peak_prices := ∅ |}
    [IToday 5]
  = (Val {| action := HOLD; ticker := "THYAO";
            T_score := 0; S_score := 0; confidence_score := 1;
            aligned := false; daily_trades_left := 0;
            reason := "Daily trade limit (3) reached." |},
     {| _trade_counter_date := Some 5; _trade_count_today := 3; _peak_prices := ∅ |},
     [], [IToday 5]).
Proof.
  refine (proj1 (evaluate_quota_gate replay "THYAO" (Some "GARAN"%string)
            {| _trade_counter_date := Some 5; _trade_count_today := 3;
               _peak_prices := ∅ |}
            [IToday 5] 0 _ _ _ eq_refl _)).
  lia.
Defined.

(** Two runs of C4's statement, GARAN being evaluated while THYAO, held
    with a peak of 110, trades at 106.5: with no trade counted on date 5
    the stop-loss SELL is returned; with three trades counted the rule
    answers the HOLD. *)
Lemma evaluate_stop_loss_witness :
  evaluate replay "GARAN" (Some "THYAO"%string)
    (with_peak {| _trade_counter_date := Some 5; _trade_count_today := 0;
                  _peak_prices := ∅ |} "THYAO" 110)
    [IToday 5;
     IGetPosition "THYAO" (Some {| entry_price := 100; quantity := 1 |});
     IHistory "THYAO.IS" (Some [106.5%float]); IToday 5; IToday 5]
  = (Val {| action := SELL; ticker := "THYAO";
            T_score := 0; S_score := 0; confidence_score := 1;
            aligned := true; daily_trades_left := 2;
            reason := "MIT Sloan: Position dropped >3% from peak. Sell triggered." |},
     with_peak {| _trade_counter_date := Some 5; _trade_count_today := 1;
                  _peak_prices := ∅ |} "THYAO" 110,
     [],
     [IToday 5;
      IGetPosition "THYAO" (Some {| entry_price := 100; quantity := 1 |});
      IHistory "THYAO.IS" (Some [106.5%float]); IToday 5; IToday 5])
  /\
  evaluate_drawdown replay (Some "THYAO"%string)
    (with_peak {| _trade_counter_date := Some 5; _trade_count_today := 3;
                  _peak_prices := ∅ |} "THYAO" 110)
    [IGetPosition "THYAO" (Some {| entry_price := 100; quantity := 1 |});
     IHistory "THYAO.IS" (Some [106.5%float]); IToday 5; IToday 5]
  = (Val (Some {| action := HOLD; ticker := "THYAO";
                  T_score := 0; S_score := 0; confidence_score := 1;
                  aligned := true; daily_trades_left := 0;
                  reason := "Drawdown SELL required but daily limit reached." |}),
     with_peak {| _trade_counter_date := Some 5; _trade_count_today := 3;
                  _peak_prices := ∅ |} "THYAO" 110,
     [IToday 5],
     [IGetPosition "THYAO" (Some {| entry_price := 100; quantity := 1 |});
      IHistory "THYAO.IS" (Some [106.5%float]); IToday 5]).
Proof.
  split.
  - exact (proj1 (proj2 (evaluate_stop_loss replay "GARAN" "THYAO"
      (with_peak {| _trade_counter_date := Some 5; _trade_count_today := 0;
                    _peak_prices := ∅ |} "THYAO" 110)
      [IGetPosition "THYAO" (Some {| entry_price := 100; quantity := 1 |});
       IHistory "THYAO.IS" (Some [106.5%float]); IToday 5; IToday 5]
      _ _ _ true _ _ _ 2 _ _ _
      ltac:(discriminate) eq_refl eq_refl eq_refl))
      (with_peak {| _trade_counter_date := Some 5; _trade_count_today := 0;
                    _peak_prices := ∅ |} "THYAO" 110)
      [IToday 5;
       IGetPosition "THYAO" (Some {| entry_price := 100; quantity := 1 |});
       IHistory "THYAO.IS" (Some [106.5%float]); IToday 5; IToday 5]
      3 _ eq_refl ltac:(lia)).
  - exact (proj1 (evaluate_stop_loss replay "GARAN" "THYAO"
      (with_peak {| _trade_counter_date := Some 5; _trade_count_today := 3;
                    _peak_prices := ∅ |} "THYAO" 110)
      [IGetPosition "THYAO" (Some {| entry_price := 100; quantity := 1 |});
       IHistory "THYAO.IS" (Some [106.5%float]); IToday 5; IToday 5]
      _ _ _ false _ _ _ 0 _ _ _
      ltac:(discriminate) eq_refl eq_refl eq_refl)).
Defined.

(** Two runs of C8's statement: with no holding, the technical fetch of
    the candidate raises; and THYAO is held with a technical score of -0.5
    while its sentiment fetch raises, so that the downside rule falls
    through. *)
Lemma provider_failures_witness :
  evaluate replay "THYAO" None new_engine
    [IToday 5; ISentiment "THYAO" (inr (0.4%float, true));
     IAnalyze "THYAO" (inl "timeout"%string)]
  = (Val {| action := HOLD; ticker := "THYAO";
            T_score := 0; S_score := 0.4; confidence_score := confidence_of true;
            aligned := false; daily_trades_left := 3;
            reason := "Technical analysis failed: timeout" |},
     {| _trade_counter_date := Some 5; _trade_count_today := 0; _peak_prices := ∅ |},
     [],
     [IToday 5; ISentiment "THYAO" (inr (0.4%float, true));
      IAnalyze "THYAO" (inl "timeout"%string)])
  /\
  evaluate_downside replay (Some "THYAO"%string) new_engine
    [IAnalyze "THYAO" (inr (-0.5)%float); ISentiment "THYAO" (inl "timeout"%string)]
  = (Val None, new_engine, [],
     [IAnalyze "THYAO" (inr (-0.5)%float); ISentiment "THYAO" (inl "timeout"%string)]).
Proof.
  split.
  - exact (proj1 (provider_failures replay "THYAO" None)
             new_engine
             [IToday 5; ISentiment "THYAO" (inr (0.4%float, true));
              IAnalyze "THYAO" (inl "timeout"%string)]
             3 _ _ _ _ _ _ _ _ _ _ _ _ _ _ "timeout"%string _
             eq_refl ltac:(lia) eq_refl eq_refl eq_refl eq_refl).
  - exact (proj1 (proj2 (proj2 (proj2 (proj2
             (provider_failures replay "THYAO" None)))))
             "THYAO"%string new_engine
             [IAnalyze "THYAO" (inr (-0.5)%float);
              ISentiment "THYAO" (inl "timeout"%string)]
             (inr (-0.5)%float)
             [ISentiment "THYAO" (inl "timeout"%string)]
             "timeout"%string []
             ltac:(discriminate) eq_refl eq_refl).
Defined.

(** A run of C9's statement: a bullish candidate with two trades already
    counted on date 5 is bought. *)
Lemma quota_failures_unreachable_witness :
  reason {| action := BUY; ticker := "THYAO"; T_score := 0.25; S_score := 0.25;
            confidence_score := 1; aligned := true; daily_trades_left := 0;
            reason := "Technical and sentiment aligned bullish." |}
  <> "Drawdown SELL required but daily limit reached."%string.
Proof.
  refine (proj1 (quota_failures_unreachable replay 5 "THYAO" None
            {| _trade_counter_date := Some 5; _trade_count_today := 2;
               _peak_prices := ∅ |}
            [IToday 5; ISentiment "THYAO" (inr (0.25%float, false));
             IAnalyze "THYAO" (inr 0.25%float); IToday 5; IToday 5]
            _ _ _ _ eq_refl _)).
  explicit_same_day.
Defined.

(** A run of C10's statement: the same call moves the count from 2 to 3. *)
Lemma evaluate_counts_one_trade_witness :
  _trade_count_today
    {| _trade_counter_date := Some 5; _trade_count_today := 3; _peak_prices := ∅ |}
  = count_on 5 {| _trade_counter_date := Some 5; _trade_count_today := 2;
                  _peak_prices := ∅ |} + 1.
Proof.
  refine (proj1 (proj2 (evaluate_counts_one_trade replay 5 "THYAO" None
            {| _trade_counter_date := Some 5; _trade_count_today := 2;
               _peak_prices := ∅ |}
            [IToday 5; ISentiment "THYAO" (inr (0.25%float, false));
             IAnalyze "THYAO" (inr 0.25%float); IToday 5; IToday 5]
            _ _ _ _ eq_refl _))).
  explicit_same_day.
Defined.

(** ** run_cycle *)

Section Cycle.
Context {W : Type} (env : Env W).

Lemma attempt_peaks {A : Type} (made : Z -> A) (refused : A) (self : Engine) (w : W)
    r self' w' tr :
  (ok <- _increment_trade_count env ;;
   if ok : bool then left <- _trades_remaining env ;; ret (made left)
   else ret refused) self w = (r, self', w', tr) ->
  _peak_prices self' = _peak_prices self.
Proof.
  rewrite attempt_run. cbn zeta.
  destruct (_ >=? _); intros [= _ <- _ _]; rewrite ?rolled_peaks; try reflexivity.
  cbn [bumped _peak_prices]. apply rolled_peaks.
Qed.

Lemma check_drawdown_sell_peaks (h : string) (self : Engine) (w : W) r s1 w1 t1 :
  _check_drawdown_sell env h self w = (r, s1, w1, t1) ->
  _peak_prices s1 = _peak_prices self \/
  exists p, _peak_prices s1 = <[h := p]> (_peak_prices self).
Proof.
  rewrite check_drawdown_sell_run. cbn zeta.
  destruct (fst (env_get_position _ _ _)); [|intros [= _ <- _ _]; now left].
  destruct (match fst (env_history _ _ _) with None => None | Some c => last_close c end);
    intros [= _ <- _ _]; [right; eexists; reflexivity | now left].
Qed.

(** The drawdown rule touches the peak of the holding only, and its results
    are about the holding. *)
Lemma evaluate_drawdown_frame (holding : option string) (self : Engine) (w : W)
    r self' w' tr :
  evaluate_drawdown env holding self w = (r, self', w', tr) ->
  (_peak_prices self' = _peak_prices self \/
   exists h p, str_truthy holding = Some h /\
               _peak_prices self' = <[h := p]> (_peak_prices self))
  /\ (forall res, r = Val (Some res) ->
        action res <> BUY /\ str_truthy holding = Some (ticker res)).
Proof.
  unfold evaluate_drawdown. destruct (str_truthy holding) as [h|];
    [|intros [= <- <- _ _]; split; [now left | discriminate]].
  intros Hrun.
  apply bind_inv in Hrun as [(fired & s1 & w1 & t1 & t2 & E1 & Hrun & ->) | (e' & E1 & ->)];
    apply check_drawdown_sell_peaks in E1 as Hp.
  - destruct fired.
    + pose proof (attempt_peaks _ _ _ _ _ _ _ _ Hrun) as Hk. rewrite Hk.
      split; [destruct Hp as [Hp | [p Hp]]; eauto|].
      intros res ->. apply attempt_inv in Hrun as [[= ->] | [left [= ->]]];
        split; (discriminate || reflexivity).
    + injection Hrun as <- <- _ _.
      split; [destruct Hp as [Hp | [p Hp]]; eauto | discriminate].
  - split; [destruct Hp as [Hp | [p Hp]]; eauto | discriminate].
Qed.

Lemma evaluate_downside_frame (holding : option string) (self : Engine) (w : W)
    r self' w' tr :
  evaluate_downside env holding self w = (r, self', w', tr) ->
  _peak_prices self' = _peak_prices self
  /\ (forall res, r = Val (Some res) ->
        action res <> BUY /\ str_truthy holding = Some (ticker res)).
Proof.
  unfold evaluate_downside. destruct (str_truthy holding) as [h|];
    [|intros [= <- <- _ _]; split; [reflexivity | discriminate]].
  unfold bind at 1. rewrite holding_technical_run.
  unfold bind at 1. rewrite holding_sentiment_run. cbn zeta.
  destruct (fst (_aligned _ _ _) && _)%bool;
    [|intros [= <- <- _ _]; split; [reflexivity | discriminate]].
  intros Hrun. split_attempt Hrun E r1 s1 w1 t1. injection Hrun as <- <- _ _.
  split; [now apply attempt_peaks in E|].
  intros res ->. apply attempt_inv in E as [[= ->] | [left [= ->]]];
    split; (discriminate || reflexivity).
Qed.

Lemma evaluate_entry_frame (tkr : string) (S confidence : float) (remaining : Z)
    (self : Engine) (w : W) r self' w' tr :
  evaluate_entry env tkr S confidence remaining self w = (r, self', w', tr) ->
  _peak_prices self' = _peak_prices self
  /\ (forall res, r = Val res -> action res <> SELL /\ ticker res = tkr).
Proof.
  unfold evaluate_entry. unfold bind at 1. rewrite entry_fetch_run.
  destruct (fst (env_analyze env tkr w)) as [msg | T];
    [intros [= <- <- _ _]; split; [reflexivity|]; intros res [= <-];
     split; [discriminate | reflexivity]|].
  cbn zeta. unfold bind at 1.
  destruct (fst (_aligned T S confidence) && _)%bool;
    [|intros [= <- <- _ _]; split; [reflexivity|]; intros res [= <-];
      split; [discriminate | reflexivity]].
  intros Hrun. split_attempt Hrun E r1 s1 w1 t1.
  pose proof (attempt_peaks _ _ _ _ _ _ _ _ E) as Hk.
  apply attempt_inv in E as [-> | [left ->]]; injection Hrun as <- <- _ _;
    (split; [exact Hk|]); intros res [= <-]; split; (discriminate || reflexivity).
Qed.

(** [evaluate] touches the peak of the holding only; a BUY is for the
    candidate and a SELL for the holding. *)
Lemma evaluate_frame (tkr : string) (holding : option string)
    (self : Engine) (w : W) r self' w' tr :
  evaluate env tkr holding self w = (r, self', w', tr) ->
  (_peak_prices self' = _peak_prices self \/
   exists h p, str_truthy holding = Some h /\
               _peak_prices self' = <[h := p]> (_peak_prices self))
  /\ (forall res, r = Val res ->
        match action res with
        | BUY => ticker res = tkr
        | SELL => str_truthy holding = Some (ticker res)
        | HOLD => True
        end).
Proof.
  unfold evaluate. intros Hrun.
  apply bind_inv in Hrun as [(n & s1 & w1 & t1 & t2 & E1 & Hrun & ->) | (e' & E1 & _)];
    rewrite remaining_run in E1; [|discriminate E1].
  injection E1 as _ <- _ _. cbn zeta in Hrun.
  destruct (n <=? 0).
  { injection Hrun as <- <- _ _. rewrite rolled_peaks.
    split; [now left | intros res [= <-]; exact I]. }
  apply bind_inv in Hrun as [(stop & s2 & w2 & t3 & t4 & E2 & Hrun & ->) | (e' & E2 & ->)];
    apply evaluate_drawdown_frame in E2 as [Hp2 Hr2]; rewrite rolled_peaks in Hp2;
    [|split; [exact Hp2 | discriminate]].
  destruct stop as [res1|].
  { injection Hrun as <- <- _ _. split; [exact Hp2|]. intros res [= <-].
    destruct (Hr2 res1 eq_refl) as [Hb Hs]. destruct (action res1); congruence || exact I. }
  apply bind_inv in Hrun as [(sc & s3 & w3 & t5 & t6 & E3 & Hrun & ->) | (e' & E3 & _)];
    rewrite evaluate_sentiment_run in E3; [|discriminate E3].
  injection E3 as _ <- _ _.
  apply bind_inv in Hrun as [(down & s4 & w4 & t7 & t8 & E4 & Hrun & ->) | (e' & E4 & ->)];
    apply evaluate_downside_frame in E4 as [Hp4 Hr4];
    [|split; [rewrite Hp4; exact Hp2 | discriminate]].
  destruct down as [res2|].
  { injection Hrun as <- <- _ _. split; [rewrite Hp4; exact Hp2|]. intros res [= <-].
    destruct (Hr4 res2 eq_refl) as [Hb Hs]. destruct (action res2); congruence || exact I. }
  apply evaluate_entry_frame in Hrun as [Hp5 Hr5].
  split; [rewrite Hp5, Hp4; exact Hp2|]. intros res Hres.
  destruct (Hr5 res Hres) as [Hb Hs].
  destruct (action res); congruence || exact I.
Qed.

(** One iteration of the loop, after [evaluate] returned [res]. *)
Lemma cycle_step_run (tkr : string) (holding : option string)
    (self : Engine) (w : W) res s1 w1 t1 :
  evaluate env tkr holding self w = (Val res, s1, w1, t1) ->
  cycle_step env tkr holding self w =
  match action res with
  | BUY =>
      let w2 := env_execute_buy env tkr 1 w1 in
      let hist := fst (env_history env (yf_symbol tkr) w2) in
      let price := match hist with None => None | Some c => last_close c end in
      (Val (res, Some tkr), with_peak s1 tkr (or_zero price),
       snd (env_history env (yf_symbol tkr) w2),
       t1 ++ [IExecuteBuy tkr 1; IHistory (yf_symbol tkr) hist])
  | SELL =>
      (Val (res, None), without_peak s1 (ticker res),
       env_execute_sell env (ticker res) 1 w1,
       t1 ++ [IExecuteSell (ticker res) 1])
  | HOLD => (Val (res, holding), s1, w1, t1 ++ [])
  end.
Proof.
  intros Hev. pose proof (proj2 (evaluate_frame _ _ _ _ _ _ _ _ Hev) res eq_refl) as Hs.
  unfold cycle_step. unfold bind at 1. rewrite Hev.
  destruct (action res).
  - unfold bind at 1, execute_buy. unfold bind at 1.
    rewrite get_current_price_run. reflexivity.
  - assert (Hne : negb (String.eqb (ticker res) "") = true).
    { destruct holding as [[|c r]|]; try discriminate Hs.
      injection Hs as <-. reflexivity. }
    rewrite Hne. reflexivity.
  - reflexivity.
Qed.

Lemma cycle_step_raises (tkr : string) (holding : option string)
    (self : Engine) (w : W) e s1 w1 t1 :
  evaluate env tkr holding self w = (Exc e, s1, w1, t1) ->
  cycle_step env tkr holding self w = (Exc e, s1, w1, t1).
Proof. intros Hev. unfold cycle_step, bind. now rewrite Hev. Qed.

Lemma holding_set_some (t : string) : holding_set (Some t) ⊆ {[ t ]}.
Proof. unfold holding_set. destruct t; simpl; set_solver. Qed.

Lemma holding_set_none : holding_set None = ∅.
Proof. reflexivity. Qed.

(** The tickers with a peak entry stay among the followed ones, and so
    does the holding. *)
Lemma cycle_step_tracked (tkr : string) (holding : option string)
    (self : Engine) (w : W) res h1 s1 w1 t1 (followed : gset string) :
  cycle_step env tkr holding self w = (Val (res, h1), s1, w1, t1) ->
  dom (_peak_prices self) ⊆ followed ->
  holding_set holding ⊆ followed ->
  dom (_peak_prices s1) ⊆ track followed res
  /\ holding_set h1 ⊆ track followed res
  /\ (action res = SELL -> _peak_prices s1 !! ticker res = None /\ h1 = None)
  /\ (action res = BUY -> is_Some (_peak_prices s1 !! ticker res) /\ h1 = Some tkr)
  /\ (forall t, is_Some (_peak_prices self !! t) ->
                (action res = SELL -> t <> ticker res) ->
                is_Some (_peak_prices s1 !! t)).
Proof.
  intros Hstep Hdom Hh.
  destruct (evaluate env tkr holding self w) as [[[[res0|e] s0] w0] t0] eqn:Hev;
    [|rewrite (cycle_step_raises _ _ _ _ _ _ _ _ Hev) in Hstep; discriminate Hstep].
  rewrite (cycle_step_run _ _ _ _ _ _ _ _ Hev) in Hstep.
  destruct (evaluate_frame _ _ _ _ _ _ _ _ Hev) as [Hp Hr].
  specialize (Hr res0 eq_refl).
  assert (Hdom0 : dom (_peak_prices s0) ⊆ followed).
  { destruct Hp as [-> | (h & p & Hhs & ->)]; [exact Hdom|].
    unfold holding_set in Hh. rewrite Hhs in Hh. rewrite dom_insert_L. set_solver. }
  assert (Hkeep : forall t, is_Some (_peak_prices self !! t) ->
                           is_Some (_peak_prices s0 !! t)).
  { intros t Ht. destruct Hp as [-> | (h & p & _ & ->)]; [exact Ht|].
    apply lookup_insert_is_Some. destruct (decide (h = t)); auto. }
  unfold track.
  destruct (action res0) eqn:Ha; cbn zeta in Hstep; injection Hstep as <- <- <- _ _;
    rewrite Ha.
  - rewrite Hr. cbn [with_peak _peak_prices]. rewrite dom_insert_L.
    split; [set_solver|].
    split; [pose proof (holding_set_some tkr); set_solver|].
    split; [discriminate|].
    split; [intros _; rewrite lookup_insert_eq; eauto|].
    intros t Ht _. apply lookup_insert_is_Some.
    destruct (decide (tkr = t)); auto.
  - cbn [without_peak _peak_prices]. rewrite dom_delete_L.
    split; [set_solver|].
    split; [rewrite holding_set_none; set_solver|].
    split; [intros _; split; [apply lookup_delete_eq | reflexivity]|].
    split; [discriminate|].
    intros t Ht Hne. rewrite lookup_delete_ne by (intros Heq; now apply (Hne eq_refl)).
    now apply Hkeep.
  - split; [assumption|]. split; [assumption|].
    split; [discriminate|]. split; [discriminate|].
    intros t Ht _. now apply Hkeep.
Qed.

(** When the loop returns, it has appended one result per ticker, in
    order, each the result of [cycle_step] for that ticker with the holding
    left by the step before. *)
Lemma cycle_loop_results (tickers : list string) :
  forall (holding : option string) (results : list DecisionResult)
         (self : Engine) (w : W) out h' self' w' tr,
  cycle_loop env tickers holding results self w = (Val (out, h'), self', w', tr) ->
  exists new, out = results ++ new /\ length new = length tickers.
Proof.
  induction tickers as [|tkr rest IH]; intros holding results self w out h' self' w' tr Hrun.
  - injection Hrun as <- _ _ _. exists []. now rewrite app_nil_r.
  - cbn [cycle_loop] in Hrun.
    apply bind_inv in Hrun as [(step & s1 & w1 & t1 & t2 & E1 & Hrun & ->) | (e & _ & [=])].
    apply IH in Hrun as (new & -> & Hlen).
    exists (fst step :: new). rewrite <- app_assoc. cbn. now rewrite Hlen.
Qed.

(** C7 (amended): along [run_cycle], from any engine, every ticker with a
    peak-price entry is among the followed tickers: those with an entry at
    the start, the starting holding and the tickers bought since, less the
    tickers sold since; the holding is among them too.  A SELL removes the
    entry of its ticker and clears the holding; a BUY leaves an entry for
    its ticker and makes it the holding, without removing the entry of the
    ticker held before. *)
Theorem peak_entries_tracked (tickers : list string) :
  forall (holding : option string) (results : list DecisionResult)
         (self : Engine) (w : W) out h' self' w' tr,
  cycle_loop env tickers holding results self w = (Val (out, h'), self', w', tr) ->
  exists new, out = results ++ new
  /\ dom (_peak_prices self') ⊆
       foldl track (dom (_peak_prices self) ∪ holding_set holding) new
  /\ holding_set h' ⊆
       foldl track (dom (_peak_prices self) ∪ holding_set holding) new
  /\ (forall tkr h0 s0 w0 res h1 s1 w1 t1,
        cycle_step env tkr h0 s0 w0 = (Val (res, h1), s1, w1, t1) ->
        (action res = SELL -> _peak_prices s1 !! ticker res = None /\ h1 = None) /\
        (action res = BUY -> is_Some (_peak_prices s1 !! ticker res) /\ h1 = Some tkr) /\
        (forall t, is_Some (_peak_prices s0 !! t) ->
                   (action res = SELL -> t <> ticker res) ->
                   is_Some (_peak_prices s1 !! t))).
Proof.
  assert (Hgen : forall (followed : gset string) holding results self w out h' self' w' tr,
    cycle_loop env tickers holding results self w = (Val (out, h'), self', w', tr) ->
    dom (_peak_prices self) ⊆ followed -> holding_set holding ⊆ followed ->
    exists new, out = results ++ new
      /\ dom (_peak_prices self') ⊆ foldl track followed new
      /\ holding_set h' ⊆ foldl track followed new).
  { induction tickers as [|tkr rest IH];
      intros followed holding results self w out h' self' w' tr Hrun Hdom Hh.
    - injection Hrun as <- <- <- _ _. exists []. rewrite app_nil_r. auto.
    - cbn [cycle_loop] in Hrun.
      apply bind_inv in Hrun as [([res h1] & s1 & w1 & t1 & t2 & E1 & Hrun & ->) | (e & _ & [=])].
      destruct (cycle_step_tracked _ _ _ _ _ _ _ _ _ followed E1 Hdom Hh)
        as (Hd1 & Hh1 & _).
      destruct (IH (track followed res) _ _ _ _ _ _ _ _ _ Hrun Hd1 Hh1)
        as (new & -> & Hd & Hh').
      exists (res :: new). rewrite <- app_assoc. auto. }
  intros holding results self w out h' self' w' tr Hrun.
  destruct (Hgen (dom (_peak_prices self) ∪ holding_set holding)
              _ _ _ _ _ _ _ _ _ Hrun) as (new & -> & Hd & Hh); [set_solver.. |].
  exists new. split; [reflexivity|]. split; [exact Hd|]. split; [exact Hh|].
  intros tkr h0 s0 w0 res h1 s1 w1 t1 Hstep.
  destruct (cycle_step_tracked _ _ _ _ _ _ _ _ _
              (dom (_peak_prices s0) ∪ holding_set h0) Hstep)
    as (_ & _ & Hsell & Hbuy & Hkeep); [set_solver.. |].
  auto.
Qed.

(** A loop that returns has run [cycle_step] on its first ticker with the
    holding it was given, appended that result, and gone on with the
    holding, the engine and the world left by that step. *)
Lemma cycle_loop_cons (tkr : string) (rest : list string)
    (holding : option string) (results : list DecisionResult)
    (self : Engine) (w : W) out h' self' w' tr :
  cycle_loop env (tkr :: rest) holding results self w
    = (Val (out, h'), self', w', tr) ->
  exists res h1 s1 w1 t1 t2,
    cycle_step env tkr holding self w = (Val (res, h1), s1, w1, t1)
    /\ cycle_loop env rest h1 (results ++ [res]) s1 w1
         = (Val (out, h'), self', w', t2)
    /\ tr = t1 ++ t2.
Proof.
  cbn [cycle_loop]. intros Hrun.
  apply bind_inv in Hrun as [([res h1] & s1 & w1 & t1 & t2 & E1 & Hrun & ->) | (e & _ & [=])].
  exists res, h1, s1, w1, t1, t2. auto.
Qed.

(** [run_cycle] raises nothing but the division by a zero peak. *)
Lemma cycle_step_exc (tkr : string) (holding : option string)
    (self : Engine) (w : W) e s1 w1 t1 :
  cycle_step env tkr holding self w = (Exc e, s1, w1, t1) ->
  e = ZeroDivisionError.
Proof.
  destruct (evaluate env tkr holding self w) as [[[[res|e0] s0] w0] t0] eqn:Hev.
  - rewrite (cycle_step_run _ _ _ _ _ _ _ _ Hev).
    destruct (action res); discriminate.
  - rewrite (cycle_step_raises _ _ _ _ _ _ _ _ Hev). intros [= <- _ _ _].
    now apply evaluate_raises in Hev.
Qed.

Lemma run_cycle_raises (tickers : list string) (current_holding : option string)
    (self : Engine) (w : W) e self' w' tr :
  run_cycle env tickers current_holding self w = (Exc e, self', w', tr) ->
  e = ZeroDivisionError.
Proof.
  unfold run_cycle. intros Hrun.
  apply bind_inv in Hrun as [(out & s1 & w1 & t1 & t2 & _ & [=] & _) | (e' & Hrun & [= <-])].
  revert current_holding self w tr Hrun. generalize (@nil DecisionResult).
  induction tickers as [|tkr rest IH]; intros results holding self w tr Hrun;
    [discriminate Hrun|].
  cbn [cycle_loop] in Hrun.
  apply bind_inv in Hrun as [(step & s1 & w1 & t1 & t2 & _ & Hrun & _) | (e0 & Hrun & [= ->])].
  - now apply IH in Hrun.
  - now apply cycle_step_exc in Hrun.
Qed.

(** When [run_cycle] returns, it returns one result per ticker. *)
Lemma run_cycle_length (tickers : list string) (current_holding : option string)
    (self : Engine) (w : W) out self' w' tr :
  run_cycle env tickers current_holding self w = (Val out, self', w', tr) ->
  length out = length tickers.
Proof.
  unfold run_cycle. intros Hrun.
  apply bind_inv in Hrun as [([res h] & s1 & w1 & t1 & t2 & E1 & Hrun & ->) | (e & _ & [=])].
  injection Hrun as <- _ _ _.
  now apply cycle_loop_results in E1 as (new & -> & Hlen).
Qed.

End Cycle.

(** C7, as stated, fails: after [two_buys] the holding is BBB and AAA still
    has its peak-price entry. *)
Lemma peak_entry_outlives_holding : ~ peak_entries_follow_holding.
Proof.
  intros Hclaim.
  destruct (cycle_loop replay ["AAA"; "BBB"]%string None [] new_engine two_buys)
    as [[[[[results holding]|e] self'] w'] tr] eqn:Hrun; [|discriminate Hrun].
  specialize (Hclaim _ _ _ _ _ _ _ Hrun "AAA"%string).
  vm_compute in Hrun. injection Hrun as _ <- <- _ _.
  discriminate Hclaim. vm_compute. eauto.
Qed.

(** A run of the amended C7: after [two_buys] the entries are among AAA
    and BBB. *)
Lemma peak_entries_tracked_witness :
  exists out h' self' w' tr,
    cycle_loop replay ["AAA"; "BBB"]%string None [] new_engine two_buys
      = (Val (out, h'), self', w', tr)
    /\ dom (_peak_prices self') ⊆ ({[ "AAA"; "BBB" ]} : gset string)%string.
Proof.
  destruct (cycle_loop replay ["AAA"; "BBB"]%string None [] new_engine two_buys)
    as [[[[[out h']|e] self'] w'] tr] eqn:Hrun;
    [|exfalso; vm_compute in Hrun; discriminate Hrun].
  exists out, h', self', w', tr. split; [reflexivity|].
  destruct (peak_entries_tracked replay _ _ _ _ _ _ _ _ _ _ Hrun)
    as (new & Hout & Hdom & _).
  vm_compute in Hrun. injection Hrun as <- _ _ _ _.
  cbn [app] in Hout. subst new.
  etransitivity; [exact Hdom|]. cbn. set_solver.
Defined.

(** C6 fails on this run: AAA is bought while its price is unavailable, so
    its peak is stored as 0.0; on the next ticker the drawdown check of AAA
    gets a NaN close, keeps the peak 0.0 and divides by it.  [run_cycle]
    raises ZeroDivisionError and returns no result at all. *)
Theorem run_cycle_zero_peak_raises :
  run_cycle replay ["AAA"; "BBB"]%string None new_engine
    [IToday 5; ISentiment "AAA" (inr (0.5%float, false));
     IAnalyze "AAA" (inr 0.5%float); IToday 5; IToday 5;
     IExecuteBuy "AAA" 1; IHistory "AAA.IS" None;
     IToday 5;
     IGetPosition "AAA" (Some {| entry_price := 10; quantity := 1 |});
     IHistory "AAA.IS" (Some [nan])]
  = (Exc ZeroDivisionError,
     with_peak {| _trade_counter_date := Some 5; _trade_count_today := 1;
                  _peak_prices := ∅ |} "AAA" 0,
     [],
     [IToday 5; ISentiment "AAA" (inr (0.5%float, false));
      IAnalyze "AAA" (inr 0.5%float); IToday 5; IToday 5;
      IExecuteBuy "AAA" 1; IHistory "AAA.IS" None;
      IToday 5;
      IGetPosition "AAA" (Some {| entry_price := 10; quantity := 1 |});
      IHistory "AAA.IS" (Some [nan])]).
Proof. vm_compute. reflexivity. Qed.

(** ** Scenarios *)

(** T = S = 0.25 at full confidence is aligned bullish (threshold 0.2) and
    bought; with the risk flag the confidence is 0.7, the threshold about
    0.286, and the result is a HOLD that mentions the reduced confidence. *)
Example bullish_candidate_is_bought :
  evaluate replay "THYAO" None new_engine
    [IToday 5; ISentiment "THYAO" (inr (0.25%float, false));
     IAnalyze "THYAO" (inr 0.25%float); IToday 5; IToday 5]
  = (Val {| action := BUY; ticker := "THYAO";
            T_score := 0.25; S_score := 0.25; confidence_score := 1;
            aligned := true; daily_trades_left := 2;
            reason := "Technical and sentiment aligned bullish." |},
     {| _trade_counter_date := Some 5; _trade_count_today := 1; _peak_prices := ∅ |},
     [],
     [IToday 5; ISentiment "THYAO" (inr (0.25%float, false));
      IAnalyze "THYAO" (inr 0.25%float); IToday 5; IToday 5]).
Proof. reflexivity. Qed.

Example risk_flag_blocks_the_buy :
  evaluate replay "THYAO" None new_engine
    [IToday 5; ISentiment "THYAO" (inr (0.25%float, true));
     IAnalyze "THYAO" (inr 0.25%float)]
  = (Val {| action := HOLD; ticker := "THYAO";
            T_score := 0.25; S_score := 0.25;
            confidence_score := (1 - 0.30)%float;
            aligned := false; daily_trades_left := 3;
            reason := "T and S not aligned for trade. (Confidence reduced: enflasyon/belirsizlik in news)" |},
     {| _trade_counter_date := Some 5; _trade_count_today := 0; _peak_prices := ∅ |},
     [],
     [IToday 5; ISentiment "THYAO" (inr (0.25%float, true));
      IAnalyze "THYAO" (inr 0.25%float)])
  /\ alignment_thresh (1 - 0.30) = 0.28571428571428575%float.
Proof. split; reflexivity. Qed.

(** A holding entered at 100 whose price goes 100, 110, 106.5: the third
    drawdown check fires. *)
Example price_path_triggers_stop_loss :
  (a <- _check_drawdown_sell replay "THYAO" ;;
   b <- _check_drawdown_sell replay "THYAO" ;;
   c <- _check_drawdown_sell replay "THYAO" ;;
   ret (a, b, c)) new_engine
    [IGetPosition "THYAO" (Some {| entry_price := 100; quantity := 1 |});
     IHistory "THYAO.IS" (Some [100%float]);
     IGetPosition "THYAO" (Some {| entry_price := 100; quantity := 1 |});
     IHistory "THYAO.IS" (Some [100%float; 110%float]);
     IGetPosition "THYAO" (Some {| entry_price := 100; quantity := 1 |});
     IHistory "THYAO.IS" (Some [100%float; 110%float; 106.5%float])]
  = (Val (false, false, true), with_peak new_engine "THYAO" 110, [],
     [IGetPosition "THYAO" (Some {| entry_price := 100; quantity := 1 |});
      IHistory "THYAO.IS" (Some [100%float]);
      IGetPosition "THYAO" (Some {| entry_price := 100; quantity := 1 |});
      IHistory "THYAO.IS" (Some [100%float; 110%float]);
      IGetPosition "THYAO" (Some {| entry_price := 100; quantity := 1 |});
      IHistory "THYAO.IS" (Some [100%float; 110%float; 106.5%float])]).
Proof. vm_compute. reflexivity. Qed.

(** * Further properties *)

(** ** Order and opposite on binary64 *)

Lemma compare_cont_flip (p q : positive) :
  Pos.compare_cont Eq q p = CompOpp (Pos.compare_cont Eq p q).
Proof. now rewrite (Pos.compare_cont_antisym p q Eq). Qed.

Lemma SFcompare_antisym (x y : spec_float) :
  SFcompare y x = option_map CompOpp (SFcompare x y).
Proof.
  destruct x as [sx|sx| |sx mx ex], y as [sy|sy| |sy my ey];
    try destruct sx; try destruct sy; try reflexivity;
    cbn [SFcompare option_map];
    rewrite (Z.compare_antisym ex ey), (compare_cont_flip mx my);
    destruct (ex ?= ey); cbn [CompOpp]; try reflexivity;
    destruct (Pos.compare_cont Eq mx my); reflexivity.
Qed.

Lemma SFcompare_opp (x y : spec_float) :
  SFcompare (SFopp x) (SFopp y) = SFcompare y x.
Proof.
  destruct x as [sx|sx| |sx mx ex], y as [sy|sy| |sy my ey];
    try destruct sx; try destruct sy; try reflexivity;
    cbn [SFcompare SFopp negb];
    rewrite (Z.compare_antisym ex ey), (compare_cont_flip mx my);
    destruct (ex ?= ey); cbn [CompOpp]; try reflexivity;
    destruct (Pos.compare_cont Eq mx my); reflexivity.
Qed.

Lemma ltb_asym (x y : float) : (x <? y)%float = true -> (y <? x)%float = false.
Proof.
  rewrite !ltb_spec. unfold SFltb. rewrite (SFcompare_antisym (Prim2SF x)).
  destruct (SFcompare (Prim2SF x) (Prim2SF y)) as [[]|]; simpl; congruence.
Qed.

Lemma ltb_irrefl (x : float) : (x <? x)%float = false.
Proof.
  destruct (x <? x)%float eqn:E; [|reflexivity].
  pose proof (ltb_asym x x E). congruence.
Qed.

Lemma ltb_opp (x y : float) : (- x <? - y)%float = (y <? x)%float.
Proof. rewrite !ltb_spec, !opp_spec. unfold SFltb. now rewrite SFcompare_opp. Qed.

Lemma opp_involutive (x : float) : (- - x)%float = x.
Proof.
  apply Prim2SF_inj. rewrite !opp_spec.
  destruct (Prim2SF x) as [[]|[]| |[] m e]; reflexivity.
Qed.

(** ** More binary64 facts *)

Lemma SFcompare_zero_left (s : bool) (y : spec_float) :
  SFcompare (S754_zero s) y = SFcompare (S754_zero false) y.
Proof. reflexivity. Qed.

(** [x - x] is [+0.0] or NaN, so [(x - x) / x] is a zero or NaN. *)
Lemma SFsub_diag_div (x : spec_float) :
  match SFdiv prec emax (SFsub prec emax x x) x with
  | S754_zero _ | S754_nan => True
  | _ => False
  end.
Proof.
  destruct x as [[]|[]| |s m e]; try exact I.
  cbn [SFsub]. rewrite Z.min_id.
  assert (H : forall a, IntDef.Z.sub a a = 0) by (intros; apply Z.sub_diag).
  unfold shl_align. rewrite H. exact I.
Qed.

Lemma eqb_zero_shape (x : float) :
  float_truthy x = false -> exists s, Prim2SF x = S754_zero s.
Proof.
  unfold float_truthy. intros H. apply negb_false_iff in H. revert H.
  rewrite FloatAxioms.eqb_spec.
  change (Prim2SF 0) with (S754_zero false). unfold SFeqb.
  destruct (Prim2SF x) as [s|[]| |[] m e]; try discriminate; eauto.
Qed.

(** The drawdown test fails whenever the price is not below the peak. *)
Lemma no_drop_no_stop (peak cur : float) :
  (cur <? peak)%float = false -> (peak <? cur)%float = false ->
  float_truthy peak = true ->
  (DRAWDOWN_THRESHOLD <=? (peak - cur) / peak)%float = false.
Proof.
  unfold float_truthy. intros H1 H2 H3. apply negb_true_iff in H3.
  revert H1 H2 H3.
  rewrite FloatAxioms.eqb_spec, !ltb_spec, leb_spec, div_spec, sub_spec.
  change (Prim2SF 0) with (S754_zero false).
  unfold SFltb, SFeqb. rewrite (SFcompare_antisym (Prim2SF peak) (Prim2SF cur)).
  intros H1 H2 H3.
  assert (Hd : match SF64div (SF64sub (Prim2SF peak) (Prim2SF cur)) (Prim2SF peak) with
               | S754_zero _ | S754_nan => True | _ => False end).
  { destruct (Prim2SF peak) as [sp|sp| |sp mp ep] eqn:Ep,
             (Prim2SF cur) as [sc|sc| |sc mc ec] eqn:Ec;
      try destruct sp; try destruct sc; try discriminate; try exact I;
      cbn [SFcompare option_map] in H1, H2.
    all: destruct (ep ?= ec) eqn:Ee; try discriminate;
      destruct (Pos.compare_cont Eq mp mc) eqn:Em; try discriminate;
      apply Z.compare_eq in Ee; apply Pos.compare_eq in Em; subst;
      apply (SFsub_diag_div (S754_finite _ mc ec)). }
  unfold SFleb.
  destruct (SF64div _ _) as [[]| | |]; try contradiction; reflexivity.
Qed.

Lemma SFleb_ltb_trans (a b x : spec_float) :
  SFleb a b = true -> SFltb b x = true -> SFltb a x = true.
Proof.
  unfold SFleb, SFltb.
  destruct a as [sa|sa| |sa ma ea], b as [sb|sb| |sb mb eb], x as [sx|sx| |sx mx ex];
    try destruct sa; try destruct sb; try destruct sx;
    cbn [SFcompare]; try discriminate; try reflexivity;
    change (Pos.compare_cont Eq) with Pos.compare;
    repeat match goal with
           | |- context [Z.compare ?p ?q] => destruct (Z.compare_spec p q)
           | |- context [Pos.compare ?p ?q] => destruct (Pos.compare_spec p q)
           end;
    cbn [CompOpp]; try discriminate; try reflexivity; intros _ _; exfalso;
    repeat match goal with
           | H : Pos.lt _ _ |- _ => apply Pos2Z.pos_lt_pos in H
           | H : @eq positive _ _ |- _ => apply (f_equal Zpos) in H
           end; lia.
Qed.

(** ** evaluate, whatever the dates *)

Section EvaluateAnyDay.
Context {W : Type} (env : Env W).

Lemma rolled_counter_ok (d : date) (self : Engine) :
  counter_ok self -> counter_ok (rolled d self).
Proof.
  unfold counter_ok, rolled, MAX_DAILY_TRADES.
  destruct (date_differs _ d); cbn; lia.
Qed.

Lemma rolled_count_below (d : date) (self : Engine) :
  _trade_count_today self < MAX_DAILY_TRADES ->
  _trade_count_today (rolled d self) < MAX_DAILY_TRADES.
Proof.
  unfold rolled, MAX_DAILY_TRADES. destruct (date_differs _ d); cbn; lia.
Qed.

(** With a count below the limit the attempt succeeds, whatever the dates
    answered. *)
Lemma attempt_any_day {A : Type} (made : Z -> A) (refused : A)
    (self : Engine) (w : W) r self' w' tr :
  (ok <- _increment_trade_count env ;;
   if ok : bool then left <- _trades_remaining env ;; ret (made left)
   else ret refused) self w = (r, self', w', tr) ->
  _trade_count_today self < MAX_DAILY_TRADES ->
  exists left, r = Val (made left)
    /\ (counter_ok self -> counter_ok self' /\ 0 <= left <= MAX_DAILY_TRADES).
Proof.
  rewrite attempt_run. cbn zeta. intros Hrun Hlt.
  pose proof (rolled_count_below (fst (env_today env w)) self Hlt) as Hlt1.
  destruct (Z.geb_spec (_trade_count_today (rolled (fst (env_today env w)) self))
              MAX_DAILY_TRADES) as [Hge | _]; [lia|].
  injection Hrun as <- <- _ _. eexists. split; [reflexivity|].
  intros Hok. apply (rolled_counter_ok (fst (env_today env w))) in Hok.
  set (s1 := rolled (fst (env_today env w)) self) in *.
  assert (Hb : counter_ok (bumped s1)).
  { unfold counter_ok, bumped in *. cbn. lia. }
  apply (rolled_counter_ok (fst (env_today env (snd (env_today env w))))) in Hb.
  split; [exact Hb|]. unfold counter_ok in Hb. lia.
Qed.

Lemma evaluate_drawdown_any_day (holding : option string)
    (self : Engine) (w : W) r self' w' tr :
  evaluate_drawdown env holding self w = (r, self', w', tr) ->
  _trade_count_today self < MAX_DAILY_TRADES ->
  sell_rule_any_day holding self (r, self', w', tr).
Proof.
  intros Hrun Hcount. unfold evaluate_drawdown in Hrun.
  destruct (str_truthy holding) as [h|] eqn:Hh;
    [|injection Hrun as <- <- <- <-; split; [auto | reflexivity]].
  unfold bind at 1 in Hrun. rewrite check_drawdown_sell_run in Hrun.
  cbn zeta in Hrun.
  destruct (fst (env_get_position env h w)) as [p|];
    [|injection Hrun as <- <- <- <-; split; [auto | reflexivity]].
  destruct (match fst (env_history env (yf_symbol h) _) with
            | None => None | Some closes => last_close closes end) as [cur|];
    [|injection Hrun as <- <- <- <-; split; [auto | reflexivity]].
  destruct (float_truthy _);
    [|injection Hrun as <- <- <- <-; split; [auto | reflexivity]].
  destruct (DRAWDOWN_THRESHOLD <=? _)%float;
    [|injection Hrun as <- <- <- <-; split; [auto | reflexivity]].
  split_attempt Hrun E r1 s1 w1 t1. injection Hrun as <- <- <- <-.
  apply attempt_any_day in E as (left & -> & Hok); [|exact Hcount].
  split; [intros H; now apply Hok|].
  split; [intros [H | [H | [H _]]]; discriminate H|].
  split; [|intros H; now apply Hok].
  intros tkr. unfold result_shape. cbn. rewrite Hh. auto 10.
Qed.

Lemma evaluate_downside_any_day (holding : option string)
    (self : Engine) (w : W) r self' w' tr :
  evaluate_downside env holding self w = (r, self', w', tr) ->
  _trade_count_today self < MAX_DAILY_TRADES ->
  sell_rule_any_day holding self (r, self', w', tr).
Proof.
  intros Hrun Hcount. unfold evaluate_downside in Hrun.
  destruct (str_truthy holding) as [h|] eqn:Hh;
    [|injection Hrun as <- <- <- <-; split; [auto | reflexivity]].
  unfold bind at 1 in Hrun. rewrite holding_technical_run in Hrun.
  unfold bind at 1 in Hrun. rewrite holding_sentiment_run in Hrun.
  cbn zeta in Hrun.
  destruct (fst (_aligned _ _ _) && _)%bool eqn:Hal;
    [|injection Hrun as <- <- <- <-; split; [auto | reflexivity]].
  split_attempt Hrun E r1 s1 w1 t1. injection Hrun as <- <- <- <-.
  apply attempt_any_day in E as (left & -> & Hok); [|exact Hcount].
  split; [intros H; now apply Hok|].
  split; [intros [H | [H | [H _]]]; discriminate H|].
  split; [|intros H; now apply Hok].
  intros tkr. unfold result_shape.
  cbn [action ticker aligned T_score S_score confidence_score].
  rewrite Hh. apply andb_prop in Hal as [Hal1 Hal2]. apply String.eqb_eq in Hal2.
  split.
  - split; [reflexivity|]. split; [reflexivity|]. right.
    destruct (_aligned _ _ _) as [a dir]. cbn in *. congruence.
  - cbn [fst snd]. destruct (fst (env_sentiment env h _)) as [msg | [S risk]];
      cbn [fst snd]; [now left|]. destruct risk; [now right | now left].
Qed.

Lemma zero_T_neutral (S c : float) : fst (_aligned 0 S c) = false.
Proof.
  unfold _aligned. rewrite thresh_not_below_zero.
  rewrite (proj2 (above_zero_false _ (alignment_thresh_sign c))). reflexivity.
Qed.

Lemma confidence_of_cases (risk : bool) :
  confidence_of risk = 1%float \/
  confidence_of risk = (1 - ANIMAL_SPIRITS_PENALTY)%float.
Proof. destruct risk; [now right | now left]. Qed.

Lemma evaluate_entry_any_day (tkr : string) (holding : option string)
    (S confidence : float) (remaining : Z)
    (self : Engine) (w : W) r self' w' tr :
  evaluate_entry env tkr S confidence remaining self w = (r, self', w', tr) ->
  _trade_count_today self < MAX_DAILY_TRADES ->
  confidence = 1%float \/ confidence = (1 - ANIMAL_SPIRITS_PENALTY)%float ->
  (counter_ok self -> counter_ok self') /\
  exists res, r = Val res
    /\ ~ quota_failure res
    /\ result_shape tkr holding res
    /\ (counter_ok self -> 0 <= remaining <= MAX_DAILY_TRADES ->
        0 <= daily_trades_left res <= MAX_DAILY_TRADES).
Proof.
  intros Hrun Hcount Hconf. unfold evaluate_entry in Hrun.
  unfold bind at 1 in Hrun. rewrite entry_fetch_run in Hrun.
  destruct (fst (env_analyze env tkr w)) as [msg | T].
  - injection Hrun as <- <- <- <-. split; [auto|].
    eexists. split; [reflexivity|].
    split; [|split; [|auto]].
    + intros [H | [H | [_ H]]]; try discriminate H.
      now apply zero_not_bullish in H.
    + unfold result_shape. cbn. rewrite zero_T_neutral. auto.
  - cbn zeta in Hrun. unfold bind at 1 in Hrun.
    destruct (fst (_aligned T S confidence) && _)%bool eqn:Hc.
    + split_attempt Hrun E r1 s1 w1 t1.
      apply attempt_any_day in E as (left & -> & Hok); [|exact Hcount].
      injection Hrun as <- <- <- <-.
      split; [intros H; now apply Hok|].
      eexists. split; [reflexivity|].
      split; [|split; [|intros H _; now apply Hok]].
      * intros [H | [H | [H _]]]; try discriminate H;
          cbn in H; destruct (confidence <? 1)%float; discriminate H.
      * unfold result_shape.
        cbn [action ticker aligned T_score S_score confidence_score].
        apply andb_prop in Hc as [Hc1 Hc2]. apply String.eqb_eq in Hc2.
        split; [|exact Hconf]. split; [reflexivity|]. split; [reflexivity|].
        destruct (_aligned _ _ _) as [a dir]. cbn in *. congruence.
    + injection Hrun as <- <- <- <-. split; [auto|].
      eexists. split; [reflexivity|].
      split; [|split; [|auto]].
      * intros [H | [H | [_ H]]];
          try (cbn in H; destruct (confidence <? 1)%float; discriminate H).
        cbn [T_score S_score confidence_score] in H. rewrite H in Hc. discriminate Hc.
      * unfold result_shape.
        cbn [action ticker aligned T_score S_score confidence_score]. auto.
Qed.

(** One [evaluate] call, whatever the dates answered during it. *)
Lemma evaluate_any_day (tkr : string) (holding : option string)
    (self : Engine) (w : W) r self' w' tr :
  evaluate env tkr holding self w = (r, self', w', tr) ->
  (counter_ok self -> counter_ok self') /\
  match r with
  | Val res =>
      ~ quota_failure res
      /\ result_shape tkr holding res
      /\ (counter_ok self -> 0 <= daily_trades_left res <= MAX_DAILY_TRADES)
  | Exc e => e = ZeroDivisionError
  end.
Proof.
  intros Hrun. unfold evaluate in Hrun.
  unfold bind at 1 in Hrun. rewrite remaining_run in Hrun.
  cbv beta iota zeta in Hrun.
  pose proof (rolled_counter_ok (fst (env_today env w)) self) as Hok0.
  set (s0 := rolled (fst (env_today env w)) self) in *.
  destruct (Z.leb_spec (Z.max 0 (MAX_DAILY_TRADES - _trade_count_today s0)) 0)
    as [Hgate | Hgate].
  - injection Hrun as <- <- <- <-. split; [exact Hok0|].
    split; [intros [H | [H | [_ H]]]; discriminate H|].
    split; [|intros _; cbn; unfold MAX_DAILY_TRADES; lia].
    unfold result_shape. cbn. auto.
  - match type of Hrun with
    | context [bind ?m ?k ?s ?w0] =>
        destruct (bind m k s w0) as [[[rr ss] ww] tt] eqn:ER
    end.
    injection Hrun as <- <- <- <-.
    assert (Hlt : _trade_count_today s0 < MAX_DAILY_TRADES) by lia.
    assert (Hrem : counter_ok self ->
              0 <= Z.max 0 (MAX_DAILY_TRADES - _trade_count_today s0) <= MAX_DAILY_TRADES).
    { intros H. apply Hok0 in H. unfold counter_ok in H. lia. }
    clearbody s0. clear Hgate.
    apply bind_inv in ER as [(stop & s1 & w1 & t1 & t2 & E1 & ER & ->) | (e & E1 & ->)];
      pose proof (evaluate_drawdown_any_day _ _ _ _ _ _ _ E1 Hlt) as [Pok1 P1];
      [|split; [auto | exact P1]].
    destruct stop as [res1|].
    { injection ER as <- <- <- <-. destruct P1 as (Hq & Hs & Hb).
      split; [auto|]. split; [exact Hq|]. split; [apply Hs | auto]. }
    assert (Hlt1 : _trade_count_today s1 < MAX_DAILY_TRADES) by congruence.
    apply bind_inv in ER as [(sc & s1' & w1' & t1' & t2' & Es & ER & ->) | (e & Es & ->)];
      rewrite evaluate_sentiment_run in Es; [|discriminate Es].
    injection Es as <- <- <- <-.
    apply bind_inv in ER as [(down & s2 & w2 & t3 & t4 & E2 & ER & ->) | (e & E2 & ->)];
      pose proof (evaluate_downside_any_day _ _ _ _ _ _ _ E2 Hlt1) as [Pok2 P2];
      [|split; [auto | exact P2]].
    destruct down as [res2|].
    { injection ER as <- <- <- <-. destruct P2 as (Hq & Hs & Hb).
      split; [auto|]. split; [exact Hq|]. split; [apply Hs | auto]. }
    assert (Hlt2 : _trade_count_today s2 < MAX_DAILY_TRADES) by congruence.
    apply (evaluate_entry_any_day _ holding) in ER
      as (Pok3 & res & -> & Hq & Hs & Hb); [|exact Hlt2|].
    + split; [auto|]. split; [exact Hq|]. split; [exact Hs | auto].
    + destruct (fst (env_sentiment env tkr w1)) as [msg | [S risk]]; cbn [fst snd];
        [now left | apply confidence_of_cases].
Qed.

End EvaluateAnyDay.

(** ** What evaluate asks the outside world *)

Section EvaluateTrace.
Context {W : Type} (env : Env W).
Context (tkr : string) (holding : option string).


Lemma attempt_trace {A : Type} (made : Z -> A) (refused : A)
    (self : Engine) (w : W) r self' w' tr :
  (ok <- _increment_trade_count env ;;
   if ok : bool then left <- _trades_remaining env ;; ret (made left)
   else ret refused) self w = (r, self', w', tr) ->
  forallb (evaluate_may_ask tkr holding) tr = true.
Proof.
  rewrite attempt_run. cbn zeta.
  destruct (_ >=? _); intros [= _ _ _ <-]; reflexivity.
Qed.

Lemma evaluate_drawdown_trace (self : Engine) (w : W) r self' w' tr :
  evaluate_drawdown env holding self w = (r, self', w', tr) ->
  forallb (evaluate_may_ask tkr holding) tr = true.
Proof.
  unfold evaluate_drawdown.
  destruct (str_truthy holding) as [h|] eqn:Hh; [|intros [= _ _ _ <-]; reflexivity].
  assert (Hq : forall p c, forallb (evaluate_may_ask tkr holding) [IGetPosition h p] = true /\
                 forallb (evaluate_may_ask tkr holding) [IGetPosition h p; IHistory (yf_symbol h) c] = true).
  { intros p c. cbn. rewrite Hh, !String.eqb_refl. auto. }
  intros Hrun.
  assert (Hcheck : forall r1 s1 w1 t1,
            _check_drawdown_sell env h self w = (r1, s1, w1, t1) ->
            forallb (evaluate_may_ask tkr holding) t1 = true).
  { intros r1 s1 w1 t1. rewrite check_drawdown_sell_run. cbn zeta.
    destruct (fst (env_get_position _ _ _)); [|intros [= _ _ _ <-]; apply Hq; exact None].
    destruct (match fst (env_history _ _ _) with None => None | Some c => last_close c end);
      intros [= _ _ _ <-]; apply Hq. }
  apply bind_inv in Hrun as [(fired & s1 & w1 & t1 & t2 & E1 & Hrun & ->) | (e' & E1 & _)];
    [|now apply Hcheck in E1].
  rewrite forallb_app, (Hcheck _ _ _ _ E1).
  destruct fired; [now apply attempt_trace in Hrun | now injection Hrun as _ _ _ <-].
Qed.

Lemma evaluate_downside_trace (self : Engine) (w : W) r self' w' tr :
  evaluate_downside env holding self w = (r, self', w', tr) ->
  forallb (evaluate_may_ask tkr holding) tr = true.
Proof.
  unfold evaluate_downside.
  destruct (str_truthy holding) as [h|] eqn:Hh; [|intros [= _ _ _ <-]; reflexivity].
  unfold bind at 1. rewrite holding_technical_run.
  unfold bind at 1. rewrite holding_sentiment_run. cbn zeta.
  assert (Hq : forall a b, forallb (evaluate_may_ask tkr holding) [IAnalyze h a; ISentiment h b] = true).
  { intros a b. cbn. rewrite Hh, !String.eqb_refl, !orb_true_r. reflexivity. }
  destruct (fst (_aligned _ _ _) && _)%bool;
    [|intros [= _ _ _ <-]; apply Hq].
  intros Hrun. split_attempt Hrun E r1 s1 w1 t1. injection Hrun as _ _ _ <-.
  apply attempt_trace in E.
  change (forallb (evaluate_may_ask tkr holding) ([IAnalyze h (fst (env_analyze env h w));
                            ISentiment h (fst (env_sentiment env h (snd (env_analyze env h w))))]
                           ++ t1) = true).
  now rewrite forallb_app, Hq, E.
Qed.

Lemma evaluate_entry_trace (S confidence : float) (remaining : Z)
    (self : Engine) (w : W) r self' w' tr :
  evaluate_entry env tkr S confidence remaining self w = (r, self', w', tr) ->
  forallb (evaluate_may_ask tkr holding) tr = true.
Proof.
  unfold evaluate_entry. unfold bind at 1. rewrite entry_fetch_run.
  assert (Hq : forall a, forallb (evaluate_may_ask tkr holding) [IAnalyze tkr a] = true).
  { intros a. cbn. now rewrite String.eqb_refl. }
  destruct (fst (env_analyze env tkr w)) as [msg | T] eqn:Ea;
    [intros [= _ _ _ <-]; apply Hq|].
  cbn zeta. unfold bind at 1.
  destruct (fst (_aligned T S confidence) && _)%bool;
    [|intros [= _ _ _ <-]; apply Hq].
  intros Hrun. split_attempt Hrun E r1 s1 w1 t1.
  apply attempt_trace in E.
  destruct r1 as [[res|]|e]; injection Hrun as _ _ _ <-;
    rewrite ?app_nil_r;
    change (forallb (evaluate_may_ask tkr holding) ([IAnalyze tkr (inr T)] ++ t1) = true);
    now rewrite forallb_app, Hq, E.
Qed.

Lemma evaluate_trace (self : Engine) (w : W) r self' w' tr :
  evaluate env tkr holding self w = (r, self', w', tr) ->
  forallb (evaluate_may_ask tkr holding) tr = true.
Proof.
  unfold evaluate. intros Hrun.
  apply bind_inv in Hrun as [(n & s1 & w1 & t1 & t2 & E1 & Hrun & ->) | (e' & E1 & _)];
    rewrite remaining_run in E1; [|discriminate E1].
  injection E1 as _ _ _ <-. cbn zeta in Hrun.
  change (forallb (evaluate_may_ask tkr holding) t2 = true).
  destruct (n <=? 0); [now injection Hrun as _ _ _ <-|].
  apply bind_inv in Hrun as [(stop & s2 & w2 & t3 & t4 & E2 & Hrun & ->) | (e' & E2 & _)];
    apply evaluate_drawdown_trace in E2; [|exact E2].
  rewrite forallb_app, E2.
  destruct stop; [now injection Hrun as _ _ _ <-|].
  apply bind_inv in Hrun as [(sc & s3 & w3 & t5 & t6 & E3 & Hrun & ->) | (e' & E3 & _)];
    rewrite evaluate_sentiment_run in E3; [|discriminate E3].
  injection E3 as _ _ _ <-.
  change (forallb (evaluate_may_ask tkr holding) ([ISentiment tkr (fst (env_sentiment env tkr w2))] ++ t6) = true).
  rewrite forallb_app.
  assert (Hs : forall a, forallb (evaluate_may_ask tkr holding) [ISentiment tkr a] = true).
  { intros a. cbn. now rewrite String.eqb_refl. }
  rewrite Hs.
  apply bind_inv in Hrun as [(down & s4 & w4 & t7 & t8 & E4 & Hrun & ->) | (e' & E4 & _)];
    apply evaluate_downside_trace in E4; [|exact E4].
  rewrite forallb_app, E4.
  destruct down; [now injection Hrun as _ _ _ <-|].
  now apply evaluate_entry_trace in Hrun.
Qed.

End EvaluateTrace.

(** ** Zero peaks and positive prices *)

(** A price above zero makes the peak a non-zero divisor. *)
Lemma positive_price_truthy_peak (old cur : float) :
  (0 <? cur)%float = true -> float_truthy (py_max old cur) = true.
Proof.
  intros Hpos. unfold py_max.
  destruct (old <? cur)%float eqn:Hlt;
    match goal with |- float_truthy ?x = true => destruct (float_truthy x) eqn:Ht end;
    try reflexivity; apply eqb_zero_shape in Ht as [s Hs].
  - rewrite ltb_spec, Hs in Hpos. discriminate Hpos.
  - rewrite ltb_spec in Hpos, Hlt. rewrite Hs in Hlt. unfold SFltb in Hpos, Hlt.
    rewrite SFcompare_zero_left in Hlt.
    change (Prim2SF 0) with (S754_zero false) in Hpos. congruence.
Qed.

Section CycleFurther.
Context {W : Type} (env : Env W).

(** When the drawdown check raises, it has just read a last close that is
    not above zero. *)
Lemma check_drawdown_sell_exc_cause (h : string) (self : Engine) (w : W)
    e s1 w1 t1 :
  _check_drawdown_sell env h self w = (Exc e, s1, w1, t1) ->
  exists closes cur,
    In (IHistory (yf_symbol h) (Some closes)) t1
    /\ last_close closes = Some cur /\ (0 <? cur)%float = false.
Proof.
  rewrite check_drawdown_sell_run. cbn zeta.
  destruct (fst (env_get_position _ _ _)) as [p|]; [|discriminate].
  destruct (fst (env_history _ _ _)) as [closes|] eqn:Eh; [|discriminate].
  destruct (last_close closes) as [cur|] eqn:Ec; [|discriminate].
  destruct (float_truthy _) eqn:Ht; [discriminate|].
  intros [= _ _ _ <-]. exists closes, cur.
  split; [right; now left|]. split; [exact Ec|].
  destruct (0 <? cur)%float eqn:Hpos; [|reflexivity].
  rewrite positive_price_truthy_peak in Ht by exact Hpos. discriminate Ht.
Qed.

Lemma evaluate_exc_cause (tkr : string) (holding : option string)
    (self : Engine) (w : W) e self' w' tr :
  evaluate env tkr holding self w = (Exc e, self', w', tr) ->
  exists symbol closes cur,
    In (IHistory symbol (Some closes)) tr
    /\ last_close closes = Some cur /\ (0 <? cur)%float = false.
Proof.
  unfold evaluate. intros Hrun.
  apply bind_inv in Hrun as [(n & s1 & w1 & t1 & t2 & E1 & Hrun & ->) | (e' & E1 & _)];
    [|rewrite remaining_run in E1; discriminate E1].
  destruct (n <=? 0); [discriminate Hrun|].
  apply bind_inv in Hrun as [(stop & s2 & w2 & t3 & t4 & E2 & Hrun & ->) | (e' & E2 & [= ->])].
  - destruct stop; [discriminate Hrun|].
    apply bind_inv in Hrun as [(sc & s3 & w3 & t5 & t6 & E3 & Hrun & ->) | (e' & E3 & _)];
      [|rewrite evaluate_sentiment_run in E3; discriminate E3].
    apply bind_inv in Hrun as [(down & s4 & w4 & t7 & t8 & E4 & Hrun & ->) | (e' & E4 & _)];
      [|apply evaluate_downside_val in E4 as [o E4]; discriminate E4].
    destruct down; [discriminate Hrun|].
    apply evaluate_entry_val in Hrun as [res Hrun]. discriminate Hrun.
  - unfold evaluate_drawdown in E2.
    destruct (str_truthy holding) as [h|]; [|discriminate E2].
    apply bind_inv in E2 as [(fired & s2 & w2 & t3 & t4 & E3 & E2 & ->) | (e2 & E3 & [= ->])].
    + destruct fired; [|discriminate E2].
      apply attempt_inv in E2 as [H | [left H]]; discriminate H.
    + apply check_drawdown_sell_exc_cause in E3 as (closes & cur & Hin & Hc & Hp).
      exists (yf_symbol h), closes, cur. split; [|auto].
      apply in_or_app. now right.
Qed.

Lemma cycle_loop_exc_cause (tickers : list string) :
  forall (holding : option string) (results : list DecisionResult)
         (self : Engine) (w : W) e self' w' tr,
  cycle_loop env tickers holding results self w = (Exc e, self', w', tr) ->
  exists symbol closes cur,
    In (IHistory symbol (Some closes)) tr
    /\ last_close closes = Some cur /\ (0 <? cur)%float = false.
Proof.
  induction tickers as [|tkr rest IH]; intros holding results self w e self' w' tr Hrun;
    [discriminate Hrun|].
  cbn [cycle_loop] in Hrun.
  apply bind_inv in Hrun as [(step & s1 & w1 & t1 & t2 & _ & Hrun & ->) | (e0 & Hrun & [= ->])].
  - apply IH in Hrun as (symbol & closes & cur & Hin & H).
    exists symbol, closes, cur. split; [apply in_or_app; now right | exact H].
  - destruct (evaluate env tkr holding self w) as [[[[res|e1] s0] w0] t0] eqn:Hev.
    + rewrite (cycle_step_run _ _ _ _ _ _ _ _ _ Hev) in Hrun.
      destruct (action res); discriminate Hrun.
    + rewrite (cycle_step_raises _ _ _ _ _ _ _ _ _ Hev) in Hrun.
      injection Hrun as <- <- <- <-. now apply evaluate_exc_cause in Hev.
Qed.

(** ** Orders *)

Lemma may_ask_no_order (tkr : string) (holding : option string) (tr : list Interaction) :
  forallb (evaluate_may_ask tkr holding) tr = true -> List.filter is_order tr = [].
Proof.
  induction tr as [|i tr IH]; [reflexivity|].
  cbn [forallb List.filter]. intros H. apply andb_prop in H as [Hi Htr].
  rewrite (IH Htr). destruct i; try reflexivity; discriminate Hi.
Qed.

(** The orders of one iteration are the order of its result. *)
Lemma cycle_step_orders (tkr : string) (holding : option string)
    (self : Engine) (w : W) res h1 s1 w1 t1 :
  cycle_step env tkr holding self w = (Val (res, h1), s1, w1, t1) ->
  List.filter is_order t1 = order_of res.
Proof.
  intros Hstep.
  destruct (evaluate env tkr holding self w) as [[[[res0|e] s0] w0] t0] eqn:Hev;
    [|rewrite (cycle_step_raises _ _ _ _ _ _ _ _ _ Hev) in Hstep; discriminate Hstep].
  rewrite (cycle_step_run _ _ _ _ _ _ _ _ _ Hev) in Hstep.
  pose proof (proj2 (evaluate_frame _ _ _ _ _ _ _ _ _ Hev) res0 eq_refl) as Hs.
  apply evaluate_trace, may_ask_no_order in Hev.
  unfold order_of.
  destruct (action res0) eqn:Ha; cbn zeta in Hstep; injection Hstep as <- _ _ _ <-;
    rewrite Ha, List.filter_app, Hev; cbn; congruence.
Qed.

Lemma cycle_loop_orders (tickers : list string) :
  forall (holding : option string) (results : list DecisionResult)
         (self : Engine) (w : W) out h' self' w' tr,
  cycle_loop env tickers holding results self w = (Val (out, h'), self', w', tr) ->
  exists new, out = results ++ new
    /\ length new = length tickers
    /\ List.filter is_order tr = flat_map order_of new.
Proof.
  induction tickers as [|tkr rest IH]; intros holding results self w out h' self' w' tr Hrun.
  - injection Hrun as <- _ _ _ <-. exists []. now rewrite app_nil_r.
  - apply cycle_loop_cons in Hrun as (res & h1 & s1 & w1 & t1 & t2 & E1 & Hrun & ->).
    apply cycle_step_orders in E1.
    apply IH in Hrun as (new & -> & Hlen & Hord).
    exists (res :: new). rewrite <- app_assoc. split; [reflexivity|].
    split; [cbn; now rewrite Hlen|].
    rewrite List.filter_app, E1, Hord. reflexivity.
Qed.

End CycleFurther.

(** ** The quota along a cycle *)

Lemma trades_cons (res : DecisionResult) (new : list DecisionResult) :
  trades (res :: new) = (if is_trade res then 1 else 0) + trades new.
Proof.
  unfold trades. cbn [List.filter]. destruct (is_trade res); cbn [length]; lia.
Qed.

Lemma trades_nonneg (results : list DecisionResult) : 0 <= trades results.
Proof. unfold trades. lia. Qed.

Section CycleQuota.
Context {W : Type} (env : Env W).

(** After [evaluate], an iteration changes the peak prices only. *)
Lemma cycle_step_counter (tkr : string) (holding : option string)
    (self : Engine) (w : W) res h1 s1 w1 t1 :
  cycle_step env tkr holding self w = (Val (res, h1), s1, w1, t1) ->
  exists s0 w0 t0 t',
    evaluate env tkr holding self w = (Val res, s0, w0, t0)
    /\ same_counter s1 s0 /\ t1 = t0 ++ t'
    /\ (action res = HOLD -> s1 = s0 /\ h1 = holding /\ t' = []).
Proof.
  intros Hstep.
  destruct (evaluate env tkr holding self w) as [[[[res0|e] s0] w0] t0] eqn:Hev;
    [|rewrite (cycle_step_raises _ _ _ _ _ _ _ _ _ Hev) in Hstep; discriminate Hstep].
  rewrite (cycle_step_run _ _ _ _ _ _ _ _ _ Hev) in Hstep.
  destruct (action res0) eqn:Ha; cbn zeta in Hstep; injection Hstep as <- <- <- _ <-;
    exists s0, w0, t0; eexists; (split; [reflexivity|]);
    (split; [split; reflexivity|]); (split; [reflexivity|]);
    rewrite Ha; try discriminate; auto.
Qed.

Lemma counter_ok_same (a b : Engine) : same_counter a b -> counter_ok b -> counter_ok a.
Proof. unfold counter_ok. intros [_ ->]. auto. Qed.

Lemma count_on_same (d : date) (a b : Engine) :
  same_counter a b -> count_on d a = count_on d b.
Proof. unfold count_on. now intros [-> ->]. Qed.

Lemma count_on_counted (d : date) (n : Z) (self : Engine) :
  counted d n self -> count_on d self = n.
Proof. intros [Hd Hn]. now rewrite (count_on_dated d self Hd). Qed.

(** On date [d], the count grows by the trades of the results. *)
Lemma cycle_loop_same_day (d : date) (tickers : list string) :
  forall (holding : option string) (results : list DecisionResult)
         (self : Engine) (w : W) out h' self' w' tr,
  cycle_loop env tickers holding results self w = (Val (out, h'), self', w', tr) ->
  same_day d tr ->
  counter_ok self ->
  exists new, out = results ++ new
    /\ count_on d self' = count_on d self + trades new
    /\ counter_ok self'.
Proof.
  induction tickers as [|tkr rest IH];
    intros holding results self w out h' self' w' tr Hrun Hday Hok.
  - injection Hrun as <- _ <- _ _. exists []. rewrite app_nil_r.
    change (trades []) with 0. rewrite Z.add_0_r. auto.
  - apply cycle_loop_cons in Hrun as (res & h1 & s1 & w1 & t1 & t2 & E1 & Hrun & ->).
    apply same_day_app in Hday as [Hd1 Hd2].
    apply cycle_step_counter in E1 as (s0 & w0 & t0 & t' & Hev & Hsame & -> & _).
    apply same_day_app in Hd1 as [Hd0 _].
    pose proof (evaluate_same_day env d _ _ _ _ _ _ _ _ Hev Hd0) as [_ Hcnt].
    pose proof (proj1 (evaluate_any_day env _ _ _ _ _ _ _ _ Hev) Hok) as Hok0.
    apply count_on_counted in Hcnt.
    apply (counter_ok_same s1) in Hok0; [|exact Hsame].
    rewrite <- (count_on_same d s1 s0 Hsame) in Hcnt.
    destruct (IH _ _ _ _ _ _ _ _ _ Hrun Hd2 Hok0) as (new & -> & Hc & Hok').
    exists (res :: new). rewrite <- app_assoc. split; [reflexivity|].
    split; [|exact Hok'].
    rewrite Hc, Hcnt, trades_cons. unfold is_trade. destruct (action res); lia.
Qed.

(** With the quota of date [d] used up, [evaluate] on date [d] answers the
    quota HOLD and leaves the engine as it is. *)
Lemma evaluate_exhausted (d : date) (tkr : string) (holding : option string)
    (self : Engine) (w : W) r self' w' tr :
  evaluate env tkr holding self w = (r, self', w', tr) ->
  same_day d tr ->
  MAX_DAILY_TRADES <= count_on d self ->
  r = Val (quota_hold tkr) /\ self' = self
  /\ w' = snd (env_today env w) /\ tr = [IToday d].
Proof.
  intros Hrun Hday Hfull.
  assert (Hdate : _trade_counter_date self = Some d).
  { unfold count_on, MAX_DAILY_TRADES in Hfull.
    destruct (date_differs _ d) eqn:E; [lia | now apply date_differs_false]. }
  unfold evaluate in Hrun.
  unfold bind at 1 in Hrun. rewrite remaining_run in Hrun.
  cbv beta iota zeta in Hrun.
  assert (Hd : fst (env_today env w) = d).
  { destruct (_ <=? 0);
      [|match type of Hrun with
        | context [bind ?m ?k ?s ?w0] =>
            destruct (bind m k s w0) as [[[rr ss] ww] tt]
        end];
      injection Hrun as _ _ _ <-; apply Hday; now left. }
  rewrite Hd in Hrun. rewrite (rolled_same d self Hdate) in Hrun.
  rewrite (count_on_dated d self Hdate) in Hfull.
  destruct (Z.leb_spec (Z.max 0 (MAX_DAILY_TRADES - _trade_count_today self)) 0);
    [|lia].
  injection Hrun as <- <- <- <-. auto.
Qed.

Lemma cycle_loop_exhausted (d : date) (tickers : list string) :
  forall (holding : option string) (results : list DecisionResult)
         (self : Engine) (w : W) r self' w' tr,
  cycle_loop env tickers holding results self w = (r, self', w', tr) ->
  same_day d tr ->
  MAX_DAILY_TRADES <= count_on d self ->
  r = Val (results ++ map quota_hold tickers, holding)
  /\ self' = self
  /\ tr = map (fun _ => IToday d) tickers.
Proof.
  induction tickers as [|tkr rest IH];
    intros holding results self w r self' w' tr Hrun Hday Hfull.
  - injection Hrun as <- <- _ <-. rewrite app_nil_r. auto.
  - cbn [cycle_loop] in Hrun. unfold bind at 1 in Hrun.
    destruct (evaluate env tkr holding self w) as [[[[res|e] s0] w0] t0] eqn:Hev.
    + rewrite (cycle_step_run _ _ _ _ _ _ _ _ _ Hev) in Hrun.
      assert (Hd0 : same_day d t0).
      { destruct (action res); cbv beta iota zeta in Hrun;
          match type of Hrun with
          | context [cycle_loop env rest ?h ?rs ?s ?w0] =>
              destruct (cycle_loop env rest h rs s w0) as [[[r2 s2] w2] t2]
          end;
          injection Hrun as _ _ _ <-;
          apply same_day_app in Hday as [Hday _];
          now apply same_day_app in Hday as [Hday _]. }
      destruct (evaluate_exhausted d _ _ _ _ _ _ _ _ Hev Hd0 Hfull)
        as ([= ->] & -> & -> & ->).
      cbn [quota_hold action] in Hrun. cbv beta iota zeta in Hrun.
      cbn [fst snd] in Hrun.
      destruct (cycle_loop env rest holding _ self _) as [[[r2 s2] w2] t2] eqn:E2.
      injection Hrun as <- <- <- <-.
      apply same_day_tail in Hday.
      destruct (IH _ _ _ _ _ _ _ _ E2 Hday Hfull) as (-> & -> & ->).
      rewrite <- app_assoc. auto.
    + rewrite (cycle_step_raises _ _ _ _ _ _ _ _ _ Hev) in Hrun.
      injection Hrun as <- <- <- <-.
      destruct (evaluate_exhausted d _ _ _ _ _ _ _ _ Hev Hday Hfull) as (H & _).
      discriminate H.
Qed.

End CycleQuota.

(** ** Alignment: signs and symmetry *)

Lemma above_sign_clear_positive (thr x : float) :
  sign_clear (Prim2SF thr) -> (thr <? x)%float = true -> (0 <? x)%float = true.
Proof.
  rewrite !ltb_spec. change (Prim2SF 0) with (S754_zero false). unfold SFltb.
  destruct (Prim2SF thr) as [s|s| |s m e]; simpl; intros Hs; subst;
    destruct (Prim2SF x) as [[]|[]| |[] mx ex]; simpl;
    try discriminate; reflexivity.
Qed.

Lemma below_opp_negative (thr x : float) :
  sign_clear (Prim2SF thr) -> (x <? - thr)%float = true -> (x <? 0)%float = true.
Proof.
  rewrite !ltb_spec, opp_spec. change (Prim2SF 0) with (S754_zero false). unfold SFltb.
  destruct (Prim2SF thr) as [s|s| |s m e]; simpl; intros Hs; subst;
    destruct (Prim2SF x) as [[]|[]| |[] mx ex]; simpl;
    try discriminate; reflexivity.
Qed.

Lemma is_nan_shape (x : float) : is_nan x = true -> Prim2SF x = S754_nan.
Proof.
  unfold is_nan. intros H. apply negb_true_iff in H. revert H.
  rewrite FloatAxioms.eqb_spec. unfold SFeqb.
  destruct (Prim2SF x) as [[]|[]| |[] m e]; try discriminate; try reflexivity;
    cbn [SFcompare]; rewrite Z.compare_refl;
    change (Pos.compare_cont Eq m m) with (Pos.compare m m);
    rewrite Pos.compare_refl; discriminate.
Qed.

Lemma nan_not_ordered (x y : float) :
  is_nan x = true -> (y <? x)%float = false /\ (x <? y)%float = false.
Proof.
  intros H. apply is_nan_shape in H. rewrite !ltb_spec, H. unfold SFltb.
  split; [destruct (Prim2SF y) as [[]|[]| |[] m e]|]; reflexivity.
Qed.

Lemma leb_ltb_trans (a b x : float) :
  (a <=? b)%float = true -> (b <? x)%float = true -> (a <? x)%float = true.
Proof. rewrite leb_spec, !ltb_spec. apply SFleb_ltb_trans. Qed.

Lemma ltb_opp_right (x y : float) : (x <? - y)%float = (y <? - x)%float.
Proof. rewrite <- (opp_involutive x) at 1. apply ltb_opp. Qed.

(** X1 (alignment implies agreement in sign): whatever the confidence, an
    answer (true, bullish) means that both scores are above zero, an answer
    (true, bearish) that both are below zero, and a NaN score is always
    answered (false, neutral). *)
Theorem aligned_scores_agree_in_sign (T S c : float) :
  (_aligned T S c = (true, "bullish"%string) ->
     (0 <? T)%float = true /\ (0 <? S)%float = true)
  /\ (_aligned T S c = (true, "bearish"%string) ->
     (T <? 0)%float = true /\ (S <? 0)%float = true)
  /\ (is_nan T = true \/ is_nan S = true ->
     _aligned T S c = (false, "neutral"%string)).
Proof.
  pose proof (alignment_thresh_sign c) as Hs.
  unfold _aligned. set (thr := alignment_thresh c) in *.
  split; [|split].
  - destruct (thr <? T)%float eqn:HT, (thr <? S)%float eqn:HS; cbn [andb];
      try (destruct (_ && _)%bool; discriminate).
    intros _. split; eapply above_sign_clear_positive; eassumption.
  - destruct ((thr <? T) && (thr <? S))%float%bool; [discriminate|].
    destruct (T <? - thr)%float eqn:HT, (S <? - thr)%float eqn:HS; cbn [andb];
      try discriminate.
    intros _. split; eapply below_opp_negative; eassumption.
  - intros [H | H].
    + destruct (nan_not_ordered T thr H) as [H1 _].
      destruct (nan_not_ordered T (- thr) H) as [_ H2].
      now rewrite H1, H2.
    + destruct (nan_not_ordered S thr H) as [H1 _].
      destruct (nan_not_ordered S (- thr) H) as [_ H2].
      now rewrite H1, H2, !andb_false_r.
Qed.

(** X2 (symmetry of the classifier): exchanging the two scores does not
    change the answer, and negating both scores exchanges bullish and
    bearish and keeps neutral. *)
Theorem aligned_symmetry (T S c : float) :
  _aligned S T c = _aligned T S c
  /\ _aligned (- T) (- S) c = mirror (_aligned T S c).
Proof.
  pose proof (alignment_thresh_sign c) as Hs.
  pose proof (above_below_exclusive (alignment_thresh c) T Hs) as HxT.
  pose proof (above_below_exclusive (alignment_thresh c) S Hs) as HxS.
  unfold _aligned. set (thr := alignment_thresh c) in *.
  split.
  - rewrite (andb_comm (thr <? S)%float), (andb_comm (S <? - thr)%float). reflexivity.
  - rewrite (ltb_opp_right thr T), (ltb_opp_right thr S), !ltb_opp.
    destruct (thr <? T)%float, (thr <? S)%float,
             (T <? - thr)%float, (S <? - thr)%float;
      try reflexivity; exfalso; auto.
Qed.

(** ** The drawdown monitor: running peak *)

Lemma py_max_cases (a b : float) :
  (py_max a b = a \/ py_max a b = b)
  /\ (py_max a b <? a)%float = false
  /\ (py_max a b <? b)%float = false.
Proof.
  unfold py_max. destruct (a <? b)%float eqn:E.
  - split; [now right|]. split; [now apply ltb_asym | apply ltb_irrefl].
  - split; [now left|]. split; [apply ltb_irrefl | exact E].
Qed.

Section DrawdownFurther.
Context {W : Type} (env : Env W).

(** X3 (the stored peak is a running maximum): when the broker reports a
    position and yfinance a last close, the drawdown check stores for the
    ticker either the peak it had (the entry price when it had none) or
    the last close, and the stored value is below neither of them; the
    entries of other tickers and the daily counter are untouched; this
    holds whether the check answers or raises. *)
Theorem drawdown_peak_is_running_maximum (tkr : string) (self : Engine) (w : W)
    p w1 closes w2 cur :
  env_get_position env tkr w = (Some p, w1) ->
  env_history env (yf_symbol tkr) w1 = (Some closes, w2) ->
  last_close closes = Some cur ->
  let old := default (entry_price p) (_peak_prices self !! tkr) in
  let s1 := snd (fst (fst (_check_drawdown_sell env tkr self w))) in
  exists peak,
    _peak_prices s1 !! tkr = Some peak
    /\ (peak = old \/ peak = cur)
    /\ (peak <? old)%float = false
    /\ (peak <? cur)%float = false
    /\ (forall t, t <> tkr -> _peak_prices s1 !! t = _peak_prices self !! t)
    /\ same_counter s1 self.
Proof.
  intros Hp Hh Hc old s1. subst s1.
  rewrite check_drawdown_sell_run. cbn zeta.
  rewrite Hp. cbn [fst snd]. rewrite Hh. cbn [fst snd]. rewrite Hc.
  fold old. cbn [fst snd with_peak _peak_prices].
  destruct (py_max_cases old cur) as (Hcase & Hold & Hcur).
  exists (py_max old cur).
  split; [apply lookup_insert_eq|]. split; [exact Hcase|].
  split; [exact Hold|]. split; [exact Hcur|].
  split; [|split; reflexivity].
  intros t Hne. apply lookup_insert_ne. congruence.
Qed.

(** X4 (the stop-loss needs a drop): the drawdown check answers true only
    after reading a position and a last close that is strictly below the
    peak it stores for the ticker; a price at or above the running peak
    never triggers the stop-loss SELL. *)
Theorem stop_loss_needs_a_drop (tkr : string) (self : Engine) (w : W)
    s1 w1 t1 :
  _check_drawdown_sell env tkr self w = (Val true, s1, w1, t1) ->
  exists p closes cur peak,
    In (IGetPosition tkr (Some p)) t1
    /\ In (IHistory (yf_symbol tkr) (Some closes)) t1
    /\ last_close closes = Some cur
    /\ _peak_prices s1 !! tkr = Some peak
    /\ (cur <? peak)%float = true
    /\ (DRAWDOWN_THRESHOLD <=? (peak - cur) / peak)%float = true.
Proof.
  rewrite check_drawdown_sell_run. cbn zeta.
  destruct (fst (env_get_position _ _ _)) as [p|]; [|discriminate].
  destruct (fst (env_history _ _ _)) as [closes|]; [|discriminate].
  destruct (last_close closes) as [cur|] eqn:Ec; [|discriminate].
  set (peak := py_max _ cur).
  destruct (float_truthy peak) eqn:Ht; [|discriminate].
  intros [= Hfire <- _ <-].
  exists p, closes, cur, peak.
  split; [now left|]. split; [right; now left|]. split; [exact Ec|].
  split; [apply lookup_insert_eq|]. split; [|exact Hfire].
  destruct (cur <? peak)%float eqn:Hlt; [reflexivity|].
  rewrite (no_drop_no_stop peak cur Hlt) in Hfire; [discriminate Hfire | | exact Ht].
  apply py_max_cases.
Qed.

End DrawdownFurther.

(** A run of X3: a peak of 110, an entry at 100 and a last close of 106.5
    keep the peak at 110. *)
Lemma drawdown_peak_is_running_maximum_witness :
  exists peak,
    _peak_prices
      (snd (fst (fst (_check_drawdown_sell replay "THYAO"
         (with_peak new_engine "THYAO" 110)
         [IGetPosition "THYAO" (Some {| entry_price := 100; quantity := 1 |});
          IHistory "THYAO.IS" (Some [110%float; 106.5%float])]))))
      !! "THYAO"%string = Some peak
    /\ (peak = 110%float \/ peak = 106.5%float).
Proof.
  destruct (drawdown_peak_is_running_maximum replay "THYAO"
              (with_peak new_engine "THYAO" 110)
              [IGetPosition "THYAO" (Some {| entry_price := 100; quantity := 1 |});
               IHistory "THYAO.IS" (Some [110%float; 106.5%float])]
              {| entry_price := 100; quantity := 1 |}
              [IHistory "THYAO.IS" (Some [110%float; 106.5%float])]
              [110%float; 106.5%float] [] 106.5%float
              eq_refl eq_refl eq_refl)
    as (peak & Hpeak & Hcase & _).
  exists peak. split; [exact Hpeak | exact Hcase].
Defined.

(** A run of X4: the same check answers true, and 106.5 is below 110. *)
Lemma stop_loss_needs_a_drop_witness :
  exists p closes cur peak,
    In (IGetPosition "THYAO" (Some p))
       [IGetPosition "THYAO" (Some {| entry_price := 100; quantity := 1 |});
        IHistory "THYAO.IS" (Some [110%float; 106.5%float])]
    /\ In (IHistory (yf_symbol "THYAO") (Some closes))
       [IGetPosition "THYAO" (Some {| entry_price := 100; quantity := 1 |});
        IHistory "THYAO.IS" (Some [110%float; 106.5%float])]
    /\ last_close closes = Some cur
    /\ _peak_prices (with_peak (with_peak new_engine "THYAO" 110) "THYAO" 110)
         !! "THYAO"%string = Some peak
    /\ (cur <? peak)%float = true
    /\ (DRAWDOWN_THRESHOLD <=? (peak - cur) / peak)%float = true.
Proof.
  exact (stop_loss_needs_a_drop replay "THYAO" (with_peak new_engine "THYAO" 110)
           [IGetPosition "THYAO" (Some {| entry_price := 100; quantity := 1 |});
            IHistory "THYAO.IS" (Some [110%float; 106.5%float])]
           _ _ _ eq_refl).
Defined.

(** ** evaluate: results and questions *)

Lemma str_truthy_some (holding : option string) (h : string) :
  str_truthy holding = Some h -> holding = Some h /\ h <> ""%string.
Proof.
  destruct holding as [[|c r]|]; try discriminate.
  intros [= <-]. split; [reflexivity | discriminate].
Qed.

(** In [evaluate] the confidence is 1.0 or 0.7, and the threshold is then
    at least 0.2. *)
Lemma bullish_above_fifth (T S c : float) :
  c = 1%float \/ c = (1 - ANIMAL_SPIRITS_PENALTY)%float ->
  _aligned T S c = (true, "bullish"%string) ->
  (ALIGNMENT_THRESHOLD <? T)%float = true /\ (ALIGNMENT_THRESHOLD <? S)%float = true.
Proof.
  intros Hc. unfold _aligned.
  assert (Hthr : (ALIGNMENT_THRESHOLD <=? alignment_thresh c)%float = true)
    by (destruct Hc as [-> | ->]; reflexivity).
  destruct (alignment_thresh c <? T)%float eqn:HT,
           (alignment_thresh c <? S)%float eqn:HS; cbn [andb];
    try (destruct (_ && _)%bool; discriminate).
  intros _. split; eapply leb_ltb_trans; eassumption.
Qed.

Lemma bearish_below_fifth (T S c : float) :
  c = 1%float \/ c = (1 - ANIMAL_SPIRITS_PENALTY)%float ->
  _aligned T S c = (true, "bearish"%string) ->
  (T <? - ALIGNMENT_THRESHOLD)%float = true /\ (S <? - ALIGNMENT_THRESHOLD)%float = true.
Proof.
  intros Hc. unfold _aligned.
  assert (Hthr : (ALIGNMENT_THRESHOLD <=? alignment_thresh c)%float = true)
    by (destruct Hc as [-> | ->]; reflexivity).
  destruct ((alignment_thresh c <? T) && (alignment_thresh c <? S))%float%bool;
    [discriminate|].
  rewrite (ltb_opp_right T), (ltb_opp_right S).
  destruct (alignment_thresh c <? - T)%float eqn:HT,
           (alignment_thresh c <? - S)%float eqn:HS; cbn [andb];
    try discriminate.
  intros _. rewrite (ltb_opp_right T), (ltb_opp_right S).
  split; eapply leb_ltb_trans; eassumption.
Qed.

Section EvaluateFurther.
Context {W : Type} (env : Env W).

(** X5 (the refused-increment branches are dead code): whatever dates the
    calendar answers during the call, even when the date changes between
    two of its date queries, [evaluate] returns neither of the two "daily
    limit reached" HOLDs on the holding, and no HOLD for scores that are
    aligned bullish. *)
Theorem quota_failures_never_returned (tkr : string) (holding : option string)
    (self : Engine) (w : W) res self' w' tr :
  evaluate env tkr holding self w = (Val res, self', w', tr) ->
  reason res <> "Drawdown SELL required but daily limit reached."%string
  /\ reason res <> "Downside risk but daily limit reached."%string
  /\ ~ (action res = HOLD /\
        _aligned (T_score res) (S_score res) (confidence_score res)
        = (true, "bullish"%string)).
Proof.
  intros Hrun.
  destruct (evaluate_any_day env _ _ _ _ _ _ _ _ Hrun) as (_ & Hq & _).
  unfold quota_failure in Hq. tauto.
Qed.

(** X6 (trades only on alignment): a BUY returned by [evaluate] is for the
    candidate and carries scores that are both above 0.2; a SELL is for the
    non-empty holding and is either the stop-loss SELL, with zero scores,
    or carries scores that are both below -0.2; a HOLD is for the
    candidate, and its aligned flag is the first component of the
    classifier's answer on its scores.  The confidence is always 1.0 or
    1.0 - 0.30. *)
Theorem trades_only_on_alignment (tkr : string) (holding : option string)
    (self : Engine) (w : W) res self' w' tr :
  evaluate env tkr holding self w = (Val res, self', w', tr) ->
  match action res with
  | BUY =>
      ticker res = tkr /\ aligned res = true
      /\ (ALIGNMENT_THRESHOLD <? T_score res)%float = true
      /\ (ALIGNMENT_THRESHOLD <? S_score res)%float = true
  | SELL =>
      holding = Some (ticker res) /\ ticker res <> ""%string
      /\ aligned res = true
      /\ ((T_score res = 0%float /\ S_score res = 0%float)
          \/ ((T_score res <? - ALIGNMENT_THRESHOLD)%float = true /\
              (S_score res <? - ALIGNMENT_THRESHOLD)%float = true))
  | HOLD =>
      ticker res = tkr
      /\ aligned res =
           fst (_aligned (T_score res) (S_score res) (confidence_score res))
  end
  /\ (confidence_score res = 1%float \/
      confidence_score res = (1 - ANIMAL_SPIRITS_PENALTY)%float).
Proof.
  intros Hrun.
  destruct (evaluate_any_day env _ _ _ _ _ _ _ _ Hrun) as (_ & _ & [Hs Hc] & _).
  split; [|exact Hc].
  destruct (action res).
  - destruct Hs as (Ht & Ha & Hal). split; [exact Ht|]. split; [exact Ha|].
    now apply (bullish_above_fifth _ _ _ Hc).
  - destruct Hs as (Hh & Ha & Hal). apply str_truthy_some in Hh as [Hh Hne].
    split; [exact Hh|]. split; [exact Hne|]. split; [exact Ha|].
    destruct Hal as [(H1 & H2 & _) | Hal]; [now left | right].
    now apply (bearish_below_fifth _ _ _ Hc).
  - exact Hs.
Qed.

(** X7 ([evaluate] only asks): every interaction of an [evaluate] call is
    a date query, a call of an analyzer about the candidate or the holding,
    or a position or price query about the holding; it sends no order to
    the broker, and without a holding it queries neither the broker nor
    yfinance. *)
Theorem evaluate_only_asks (tkr : string) (holding : option string)
    (self : Engine) (w : W) r self' w' tr :
  evaluate env tkr holding self w = (r, self', w', tr) ->
  forallb (evaluate_may_ask tkr holding) tr = true
  /\ existsb is_order tr = false
  /\ (str_truthy holding = None -> existsb is_holding_query tr = false).
Proof.
  intros Hrun. apply evaluate_trace in Hrun.
  split; [exact Hrun|].
  induction tr as [|i tr IH]; [auto|].
  cbn [forallb existsb] in *. apply andb_prop in Hrun as [Hi Htr].
  destruct (IH Htr) as [IH1 IH2]. split.
  - rewrite IH1. destruct i; try reflexivity; discriminate Hi.
  - intros Hn. rewrite (IH2 Hn).
    destruct i; try reflexivity; cbn in Hi; rewrite Hn in Hi; discriminate Hi.
Qed.

End EvaluateFurther.

(** A run of X5: two trades are counted for date 5; the gate passes on
    date 5 and the date is 6 when the BUY is counted. *)
Lemma quota_failures_never_returned_witness :
  reason {| action := BUY; ticker := "THYAO"; T_score := 0.25; S_score := 0.25;
            confidence_score := 1; aligned := true; daily_trades_left := 2;
            reason := "Technical and sentiment aligned bullish." |}
  <> "Drawdown SELL required but daily limit reached."%string.
Proof.
  exact (proj1 (quota_failures_never_returned replay "THYAO" None
            {| _trade_counter_date := Some 5; _trade_count_today := 2;
               _peak_prices := ∅ |}
            [IToday 5; ISentiment "THYAO" (inr (0.25%float, false));
             IAnalyze "THYAO" (inr 0.25%float); IToday 6; IToday 6]
            _ _ _ _ eq_refl)).
Defined.

(** A run of X6: the BUY of a candidate with both scores at 0.25. *)
Lemma trades_only_on_alignment_witness :
  (ALIGNMENT_THRESHOLD <? 0.25)%float = true.
Proof.
  exact (proj1 (proj2 (proj2 (proj1
    (trades_only_on_alignment replay "THYAO" None new_engine
       [IToday 5; ISentiment "THYAO" (inr (0.25%float, false));
        IAnalyze "THYAO" (inr 0.25%float); IToday 5; IToday 5]
       _ _ _ _ eq_refl))))).
Defined.

(** A run of X7: the same call sends no order. *)
Lemma evaluate_only_asks_witness :
  existsb is_order
    [IToday 5; ISentiment "THYAO" (inr (0.25%float, false));
     IAnalyze "THYAO" (inr 0.25%float); IToday 5; IToday 5] = false.
Proof.
  exact (proj1 (proj2
    (evaluate_only_asks replay "THYAO" None new_engine
       [IToday 5; ISentiment "THYAO" (inr (0.25%float, false));
        IAnalyze "THYAO" (inr 0.25%float); IToday 5; IToday 5]
       _ _ _ _ eq_refl))).
Defined.

(** ** evaluate: the rules that trade on signals *)

Section EvaluatePaths.
Context {W : Type} (env : Env W).

(** Past the gate and the rules that fell through, the count is still
    below the limit. *)
Lemma gate_passed_count (self : Engine) (w : W) n s1 w1 t1 :
  _trades_remaining env self w = (Val n, s1, w1, t1) -> 0 < n ->
  _trade_count_today s1 < MAX_DAILY_TRADES.
Proof. rewrite remaining_run. cbn zeta. intros [= <- <- _ _]. lia. Qed.

Lemma evaluate_sentiment_state (tkr : string) (self : Engine) (w : W) r s1 w1 t1 :
  evaluate_sentiment env tkr self w = (r, s1, w1, t1) -> s1 = self.
Proof. rewrite evaluate_sentiment_run. now intros [= _ <- _ _]. Qed.

(** The attempt with a count below the limit, spelled out. *)
Lemma attempt_succeeds {A : Type} (made : Z -> A) (refused : A)
    (self : Engine) (w : W) :
  _trade_count_today self < MAX_DAILY_TRADES ->
  let d1 := fst (env_today env w) in
  let w1 := snd (env_today env w) in
  let d2 := fst (env_today env w1) in
  let s2 := rolled d2 (bumped (rolled d1 self)) in
  (ok <- _increment_trade_count env ;;
   if ok : bool then left <- _trades_remaining env ;; ret (made left)
   else ret refused) self w
  = (Val (made (Z.max 0 (MAX_DAILY_TRADES - _trade_count_today s2))), s2,
     snd (env_today env w1), [IToday d1; IToday d2]).
Proof.
  intros Hlt. cbn zeta. rewrite attempt_run. cbn zeta.
  pose proof (rolled_count_below (fst (env_today env w)) self Hlt) as Hlt1.
  destruct (Z.geb_spec (_trade_count_today (rolled (fst (env_today env w)) self))
              MAX_DAILY_TRADES) as [Hge | _]; [lia | reflexivity].
Qed.

(** X17 (a bearish holding is sold first): past the quota gate, when the
    stop-loss rule does not fire and the analyzers' scores for the
    non-empty holding (0.0 for a failed fetch) are aligned bearish,
    [evaluate] returns the SELL of the holding with those scores and the
    reason "Downside risk detected; rebalancing.", whatever the candidate's
    signals and whatever the dates; the increment is never refused, the
    quota left is computed from the count after it, and the interactions
    end with the two analyzer calls about the holding and two date queries:
    the candidate's technical analysis is not fetched. *)
Theorem bearish_holding_is_sold (tkr h : string) (self : Engine) (w : W)
    n s1 w1 t1 s2 w2 t2 sc s3 w3 t3 :
  h <> ""%string ->
  _trades_remaining env self w = (Val n, s1, w1, t1) -> 0 < n ->
  evaluate_drawdown env (Some h) s1 w1 = (Val None, s2, w2, t2) ->
  evaluate_sentiment env tkr s2 w2 = (Val sc, s3, w3, t3) ->
  let a := env_analyze env h w3 in
  let b := env_sentiment env h (snd a) in
  let T_hold := match fst a with inl _ => 0%float | inr x => x end in
  let S_hold := match fst b with inl _ => 0%float | inr x => fst x end in
  let conf_hold :=
    match fst b with inl _ => 1%float | inr x => confidence_of (snd x) end in
  _aligned T_hold S_hold conf_hold = (true, "bearish"%string) ->
  exists s4 w4 d1 d2,
    evaluate env tkr (Some h) self w =
      (Val {| action := SELL; ticker := h;
              T_score := T_hold; S_score := S_hold;
              confidence_score := conf_hold; aligned := true;
              daily_trades_left :=
                Z.max 0 (MAX_DAILY_TRADES - _trade_count_today s4);
              reason := "Downside risk detected; rebalancing." |},
       s4, w4,
       t1 ++ t2 ++ t3 ++
       [IAnalyze h (fst a); ISentiment h (fst b); IToday d1; IToday d2])
    /\ _peak_prices s4 = _peak_prices s2.
Proof.
  intros Hh Hrem Hn Hdd Hsent a b T_hold S_hold conf_hold Hal.
  assert (Htruthy : str_truthy (Some h) = Some h)
    by (destruct h; [exfalso; apply Hh; reflexivity | reflexivity]).
  pose proof (gate_passed_count _ _ _ _ _ _ Hrem Hn) as Hlt1.
  destruct (evaluate_drawdown_any_day env _ _ _ _ _ _ _ Hdd Hlt1) as [_ Hc2].
  pose proof (evaluate_sentiment_state _ _ _ _ _ _ _ Hsent) as ->.
  assert (Hlt2 : _trade_count_today s2 < MAX_DAILY_TRADES) by congruence.
  set (d1 := fst (env_today env (snd b))).
  set (d2 := fst (env_today env (snd (env_today env (snd b))))).
  exists (rolled d2 (bumped (rolled d1 s2))),
         (snd (env_today env (snd (env_today env (snd b))))), d1, d2.
  assert (Hdown : evaluate_downside env (Some h) s2 w3 =
            (Val (Some {| action := SELL; ticker := h;
                          T_score := T_hold; S_score := S_hold;
                          confidence_score := conf_hold; aligned := true;
                          daily_trades_left :=
                            Z.max 0 (MAX_DAILY_TRADES -
                                     _trade_count_today (rolled d2 (bumped (rolled d1 s2))));
                          reason := "Downside risk detected; rebalancing." |}),
             rolled d2 (bumped (rolled d1 s2)),
             snd (env_today env (snd (env_today env (snd b)))),
             [IAnalyze h (fst a); ISentiment h (fst b); IToday d1; IToday d2])).
  { unfold evaluate_downside. rewrite Htruthy.
    unfold bind at 1. rewrite holding_technical_run.
    unfold bind at 1. rewrite holding_sentiment_run. cbn zeta.
    fold a. fold b.
    assert (Hsc : (match fst b with
                   | inl _ => (0%float, 1%float)
                   | inr x => (fst x, confidence_of (snd x))
                   end) = (S_hold, conf_hold))
      by (unfold S_hold, conf_hold; destruct (fst b); reflexivity).
    rewrite Hsc. cbn [fst snd]. fold T_hold. rewrite Hal. cbn [fst snd andb].
    change (String.eqb "bearish" "bearish") with true. cbv iota.
    rewrite (attempt_succeeds _ _ _ _ Hlt2). reflexivity. }
  split.
  - replace (t1 ++ t2 ++ t3 ++
             [IAnalyze h (fst a); ISentiment h (fst b); IToday d1; IToday d2])
      with (t1 ++ t2 ++ t3 ++
            ([IAnalyze h (fst a); ISentiment h (fst b); IToday d1; IToday d2]) ++ [])
      by (now rewrite app_nil_r).
    unfold evaluate. eapply bind_val; [exact Hrem|].
    destruct (Z.leb_spec n 0); [lia|].
    eapply bind_val; [exact Hdd|]. cbv iota.
    eapply bind_val; [exact Hsent|].
    eapply bind_val; [exact Hdown|]. reflexivity.
  - rewrite rolled_peaks. cbn [bumped _peak_prices]. apply rolled_peaks.
Qed.

(** X18 (the entry rule): past the quota gate, when neither rule on the
    holding returns and the candidate's technical score is fetched, an
    answer (true, bullish) of the classifier gives the BUY of the
    candidate, never the refused-increment HOLD, whatever the dates: the
    result carries the scores, the confidence, aligned = true, the quota
    left after the increment, and the reason with its confidence note
    exactly when the confidence is below 1.0; any other answer gives the
    "not aligned" HOLD with the quota read at the gate, no date query and
    an unchanged engine. *)
Theorem entry_rule_outcomes (tkr : string) (holding : option string)
    (self : Engine) (w : W)
    n s1 w1 t1 s2 w2 t2 S conf s3 w3 t3 s4 w4 t4 T w5 :
  _trades_remaining env self w = (Val n, s1, w1, t1) -> 0 < n ->
  evaluate_drawdown env holding s1 w1 = (Val None, s2, w2, t2) ->
  evaluate_sentiment env tkr s2 w2 = (Val (S, conf), s3, w3, t3) ->
  evaluate_downside env holding s3 w3 = (Val None, s4, w4, t4) ->
  env_analyze env tkr w4 = (inr T, w5) ->
  (_aligned T S conf = (true, "bullish"%string) ->
   exists s6 w6 d1 d2,
     evaluate env tkr holding self w =
       (Val {| action := BUY; ticker := tkr;
               T_score := T; S_score := S; confidence_score := conf;
               aligned := true;
               daily_trades_left :=
                 Z.max 0 (MAX_DAILY_TRADES - _trade_count_today s6);
               reason := "Technical and sentiment aligned bullish." +:+
                 (if (conf <? 1)%float
                  then " (Confidence reduced: Animal Spirits risk)"
                  else "") |},
        s6, w6,
        t1 ++ t2 ++ t3 ++ t4 ++ [IAnalyze tkr (inr T); IToday d1; IToday d2])
     /\ _peak_prices s6 = _peak_prices s4)
  /\ (_aligned T S conf <> (true, "bullish"%string) ->
      evaluate env tkr holding self w =
        (Val {| action := HOLD; ticker := tkr;
                T_score := T; S_score := S; confidence_score := conf;
                aligned := fst (_aligned T S conf);
                daily_trades_left := n;
                reason := "T and S not aligned for trade." +:+
                  (if (conf <? 1)%float
                   then " (Confidence reduced: enflasyon/belirsizlik in news)"
                   else "") |},
         s4, w5, t1 ++ t2 ++ t3 ++ t4 ++ [IAnalyze tkr (inr T)])).
Proof.
  intros Hrem Hn Hdd Hsent Hdown Htech.
  pose proof (gate_passed_count _ _ _ _ _ _ Hrem Hn) as Hlt1.
  destruct (evaluate_drawdown_any_day env _ _ _ _ _ _ _ Hdd Hlt1) as [_ Hc2].
  pose proof (evaluate_sentiment_state _ _ _ _ _ _ _ Hsent) as ->.
  assert (Hlt2 : _trade_count_today s2 < MAX_DAILY_TRADES) by congruence.
  destruct (evaluate_downside_any_day env _ _ _ _ _ _ _ Hdown Hlt2) as [_ Hc4].
  assert (Hlt4 : _trade_count_today s4 < MAX_DAILY_TRADES) by congruence.
  assert (Hgo : forall res s' w' t5,
            evaluate_entry env tkr S conf n s4 w4 = (Val res, s', w', t5) ->
            evaluate env tkr holding self w = (Val res, s', w', t1 ++ t2 ++ t3 ++ t4 ++ t5)).
  { intros res s' w' t5 He.
    unfold evaluate. eapply bind_val; [exact Hrem|].
    destruct (Z.leb_spec n 0); [lia|].
    eapply bind_val; [exact Hdd|]. cbv iota.
    eapply bind_val; [exact Hsent|].
    eapply bind_val; [exact Hdown|]. exact He. }
  split.
  - intros Hal.
    set (d1 := fst (env_today env w5)).
    set (d2 := fst (env_today env (snd (env_today env w5)))).
    exists (rolled d2 (bumped (rolled d1 s4))),
           (snd (env_today env (snd (env_today env w5)))), d1, d2.
    split; [|rewrite rolled_peaks; cbn [bumped _peak_prices]; apply rolled_peaks].
    apply Hgo. unfold evaluate_entry.
    unfold bind at 1. rewrite entry_fetch_run, Htech. cbn [fst snd]. cbn zeta.
    rewrite Hal. cbn [fst snd andb].
    change (String.eqb "bullish" "bullish") with true. cbv iota.
    unfold bind at 1. rewrite (attempt_succeeds _ _ _ _ Hlt4). reflexivity.
  - intros Hal. apply Hgo. unfold evaluate_entry.
    unfold bind at 1. rewrite entry_fetch_run, Htech. cbn [fst snd]. cbn zeta.
    destruct (fst (_aligned T S conf) && String.eqb (snd (_aligned T S conf)) "bullish")%bool
      eqn:Hc; [|reflexivity].
    exfalso. apply Hal. apply andb_prop in Hc as [Ha1 Ha2].
    apply String.eqb_eq in Ha2. destruct (_aligned T S conf) as [x dir].
    cbn in *. congruence.
Qed.

End EvaluatePaths.

(** A run of X17: THYAO is held, its scores are both -0.5, and GARAN is the
    candidate. *)
Lemma bearish_holding_is_sold_witness :
  exists s4 w4 d1 d2,
    evaluate replay "GARAN" (Some "THYAO"%string) new_engine
      [IToday 5;
       IGetPosition "THYAO" (Some {| entry_price := 100; quantity := 1 |});
       IHistory "THYAO.IS" (Some [100%float]);
       ISentiment "GARAN" (inr (0.5%float, false));
       IAnalyze "THYAO" (inr (-0.5)%float);
       ISentiment "THYAO" (inr ((-0.5)%float, false));
       IToday 5; IToday 5]
    = (Val {| action := SELL; ticker := "THYAO";
              T_score := (-0.5)%float; S_score := (-0.5)%float;
              confidence_score := 1; aligned := true;
              daily_trades_left :=
                Z.max 0 (MAX_DAILY_TRADES - _trade_count_today s4);
              reason := "Downside risk detected; rebalancing." |},
       s4, w4,
       [IToday 5] ++
       [IGetPosition "THYAO" (Some {| entry_price := 100; quantity := 1 |});
        IHistory "THYAO.IS" (Some [100%float])] ++
       [ISentiment "GARAN" (inr (0.5%float, false))] ++
       [IAnalyze "THYAO" (inr (-0.5)%float);
        ISentiment "THYAO" (inr ((-0.5)%float, false));
        IToday d1; IToday d2])
    /\ _peak_prices s4 = _peak_prices (with_peak {| _trade_counter_date := Some 5;
                             _trade_count_today := 0; _peak_prices := ∅ |} "THYAO" 100).
Proof.
  refine (bearish_holding_is_sold replay "GARAN" "THYAO" new_engine
            [IToday 5;
             IGetPosition "THYAO" (Some {| entry_price := 100; quantity := 1 |});
             IHistory "THYAO.IS" (Some [100%float]);
             ISentiment "GARAN" (inr (0.5%float, false));
             IAnalyze "THYAO" (inr (-0.5)%float);
             ISentiment "THYAO" (inr ((-0.5)%float, false));
             IToday 5; IToday 5]
            3 _ _ _ _ _ _ _ _ _ _ _ eq_refl _ eq_refl eq_refl eq_refl).
  - discriminate.
  - lia.
Defined.

(** A run of X18: T = S = 0.25 at full confidence. *)
Lemma entry_rule_outcomes_witness :
  exists s6 w6 d1 d2,
    evaluate replay "THYAO" None new_engine
      [IToday 5; ISentiment "THYAO" (inr (0.25%float, false));
       IAnalyze "THYAO" (inr 0.25%float); IToday 5; IToday 5]
    = (Val {| action := BUY; ticker := "THYAO";
              T_score := 0.25; S_score := 0.25; confidence_score := 1;
              aligned := true;
              daily_trades_left :=
                Z.max 0 (MAX_DAILY_TRADES - _trade_count_today s6);
              reason := "Technical and sentiment aligned bullish." +:+
                (if (1 <? 1)%float
                 then " (Confidence reduced: Animal Spirits risk)"
                 else "") |},
       s6, w6,
       [IToday 5] ++ [] ++ [ISentiment "THYAO" (inr (0.25%float, false))] ++ [] ++
       [IAnalyze "THYAO" (inr 0.25%float); IToday d1; IToday d2])
    /\ _peak_prices s6 = ∅.
Proof.
  refine (proj1 (entry_rule_outcomes replay "THYAO" None new_engine
            [IToday 5; ISentiment "THYAO" (inr (0.25%float, false));
             IAnalyze "THYAO" (inr 0.25%float); IToday 5; IToday 5]
            3 _ _ _ _ _ _ 0.25%float 1%float _ _ _ _ _ _ 0.25%float _
            eq_refl _ eq_refl eq_refl eq_refl eq_refl) eq_refl).
  lia.
Defined.

(** ** run_cycle: results, orders and quota *)

Lemma orders_count (results : list DecisionResult) :
  Z.of_nat (length (flat_map order_of results)) = trades results.
Proof.
  induction results as [|res rest IH]; [reflexivity|].
  rewrite trades_cons, <- IH. cbn [flat_map]. rewrite length_app.
  unfold order_of, is_trade. destruct (action res); cbn [length]; lia.
Qed.

Section CycleTheorems.
Context {W : Type} (env : Env W).

Lemma cycle_loop_bounds (tickers : list string) :
  forall (holding : option string) (results : list DecisionResult)
         (self : Engine) (w : W) r self' w' tr,
  cycle_loop env tickers holding results self w = (r, self', w', tr) ->
  counter_ok self ->
  counter_ok self'
  /\ (forall out h', r = Val (out, h') ->
        exists new, out = results ++ new
          /\ Forall (fun res => 0 <= daily_trades_left res <= MAX_DAILY_TRADES) new).
Proof.
  induction tickers as [|tkr rest IH];
    intros holding results self w r self' w' tr Hrun Hok.
  - injection Hrun as <- <- _ _. split; [exact Hok|].
    intros out h' [= <- _]. exists []. now rewrite app_nil_r.
  - cbn [cycle_loop] in Hrun.
    apply bind_inv in Hrun as [([res h1] & s1 & w1 & t1 & t2 & E1 & Hrun & ->) | (e & E1 & ->)].
    + apply cycle_step_counter in E1 as (s0 & w0 & t0 & t' & Hev & Hsame & _).
      destruct (evaluate_any_day env _ _ _ _ _ _ _ _ Hev) as (Hok0 & _ & _ & Hb).
      specialize (Hok0 Hok). specialize (Hb Hok).
      apply (counter_ok_same s1) in Hok0; [|exact Hsame].
      destruct (IH _ _ _ _ _ _ _ _ Hrun Hok0) as [Hok' Hres].
      split; [exact Hok'|]. intros out h' ->.
      destruct (Hres out h' eq_refl) as (new & -> & Hall).
      exists (res :: new). cbn [fst]. rewrite <- app_assoc. split; [reflexivity|].
      now constructor.
    + split; [|discriminate].
      destruct (evaluate env tkr holding self w) as [[[[res|e1] s0] w0] t0] eqn:Hev.
      * rewrite (cycle_step_run _ _ _ _ _ _ _ _ _ Hev) in E1.
        destruct (action res); discriminate E1.
      * rewrite (cycle_step_raises _ _ _ _ _ _ _ _ _ Hev) in E1.
        injection E1 as _ <- _ _.
        now apply (evaluate_any_day env _ _ _ _ _ _ _ _ Hev).
Qed.

(** Each result is about the ticker of its iteration, unless it is a SELL. *)
Lemma cycle_loop_tickers (tickers : list string) :
  forall (holding : option string) (results : list DecisionResult)
         (self : Engine) (w : W) out h' self' w' tr,
  cycle_loop env tickers holding results self w = (Val (out, h'), self', w', tr) ->
  exists new, out = results ++ new
    /\ Forall2 (fun tkr res => action res <> SELL -> ticker res = tkr) tickers new.
Proof.
  induction tickers as [|tkr rest IH]; intros holding results self w out h' self' w' tr Hrun.
  - injection Hrun as <- _ _ _ _. exists []. rewrite app_nil_r. auto.
  - apply cycle_loop_cons in Hrun as (res & h1 & s1 & w1 & t1 & t2 & E1 & Hrun & ->).
    apply cycle_step_counter in E1 as (s0 & w0 & t0 & t' & Hev & _).
    destruct (evaluate_any_day env _ _ _ _ _ _ _ _ Hev) as (_ & _ & [Hs _] & _).
    apply IH in Hrun as (new & -> & Hall).
    exists (res :: new). rewrite <- app_assoc. split; [reflexivity|].
    constructor; [|exact Hall].
    intros Hne. destruct (action res); [apply Hs | congruence | apply Hs].
Qed.

Lemma orders_of_run_cycle (tickers : list string)
    (current_holding : option string) (self : Engine) (w : W) out self' w' tr :
  run_cycle env tickers current_holding self w = (Val out, self', w', tr) ->
  List.filter is_order tr = flat_map order_of out.
Proof.
  unfold run_cycle. intros Hrun.
  apply bind_inv in Hrun as [([res h] & s1 & w1 & t1 & t2 & E1 & Hrun & ->) | (e & _ & [=])].
  injection Hrun as <- _ _ <-. rewrite app_nil_r. cbn [fst].
  destruct (cycle_loop_orders _ _ _ _ _ _ _ _ _ _ _ E1) as (new & Hout & Hlen & Hord).
  cbn [app] in Hout. now subst.
Qed.

(** X8 (the counter stays within its bounds): from an engine whose count
    is between 0 and 3, [run_cycle] leaves a count between 0 and 3 whether
    it returns or raises and whatever the dates, and every result it
    returns has between 0 and 3 trades left. *)
Theorem run_cycle_counter_bounds (tickers : list string)
    (current_holding : option string) (self : Engine) (w : W) r self' w' tr :
  counter_ok self ->
  run_cycle env tickers current_holding self w = (r, self', w', tr) ->
  0 <= _trade_count_today self' <= MAX_DAILY_TRADES
  /\ match r with
     | Val out =>
         Forall (fun res => 0 <= daily_trades_left res <= MAX_DAILY_TRADES) out
     | Exc e => e = ZeroDivisionError
     end.
Proof.
  intros Hok Hrun. pose proof Hrun as Hraise. unfold run_cycle in Hrun.
  apply bind_inv in Hrun as [([out h] & s1 & w1 & t1 & t2 & E1 & Hrun & ->) | (e & E1 & ->)];
    destruct (cycle_loop_bounds _ _ _ _ _ _ _ _ _ E1 Hok) as [Hok' Hres].
  - injection Hrun as <- <- _ _. split; [exact Hok'|].
    destruct (Hres out h eq_refl) as (new & Hout & Hall). cbn [fst].
    cbn [app] in Hout. now subst out.
  - split; [exact Hok'|]. now apply run_cycle_raises in Hraise.
Qed.

(** X9 (orders follow results): when [run_cycle] returns, it returns one
    result per ticker, each BUY and each HOLD about the ticker of its
    iteration, and the orders sent to the broker during the call are
    exactly one one-unit order per BUY or SELL result, in the order of the
    results; no other order is sent. *)
Theorem run_cycle_orders_follow_results (tickers : list string)
    (current_holding : option string) (self : Engine) (w : W) out self' w' tr :
  run_cycle env tickers current_holding self w = (Val out, self', w', tr) ->
  length out = length tickers
  /\ Forall2 (fun tkr res => action res <> SELL -> ticker res = tkr) tickers out
  /\ List.filter is_order tr = flat_map order_of out.
Proof.
  unfold run_cycle. intros Hrun.
  apply bind_inv in Hrun as [([res h] & s1 & w1 & t1 & t2 & E1 & Hrun & ->) | (e & _ & [=])].
  injection Hrun as <- _ _ <-. rewrite app_nil_r. cbn [fst].
  destruct (cycle_loop_orders _ _ _ _ _ _ _ _ _ _ _ E1) as (new & Hout & Hlen & Hord).
  destruct (cycle_loop_tickers _ _ _ _ _ _ _ _ _ _ E1) as (new' & Hout' & Hall).
  cbn [app] in Hout, Hout'. subst. auto.
Qed.

(** X10 (at most three trades per cycle and date): when every date query
    of a [run_cycle] call answers the same date and the call returns, the
    count of that date grows by the number of BUY and SELL results, that
    number is at most the quota left at the start (so at most 3), and it is
    the number of orders sent to the broker. *)
Theorem run_cycle_trades_within_quota (d : date) (tickers : list string)
    (current_holding : option string) (self : Engine) (w : W) out self' w' tr :
  counter_ok self ->
  run_cycle env tickers current_holding self w = (Val out, self', w', tr) ->
  same_day d tr ->
  count_on d self' = count_on d self + trades out
  /\ trades out <= MAX_DAILY_TRADES - count_on d self
  /\ trades out <= 3
  /\ Z.of_nat (length (List.filter is_order tr)) = trades out.
Proof.
  intros Hok Hrun Hday.
  pose proof (orders_of_run_cycle _ _ _ _ _ _ _ _ Hrun) as Hord.
  unfold run_cycle in Hrun.
  apply bind_inv in Hrun as [([res h] & s1 & w1 & t1 & t2 & E1 & Hrun & ->) | (e & _ & [=])].
  injection Hrun as <- <- _ <-. rewrite app_nil_r in *. cbn [fst] in *.
  destruct (cycle_loop_same_day env d _ _ _ _ _ _ _ _ _ _ E1 Hday Hok)
    as (new & Hout & Hcnt & Hok').
  cbn [app] in Hout. subst new.
  assert (H0 : 0 <= count_on d self /\ count_on d s1 <= MAX_DAILY_TRADES).
  { unfold count_on, counter_ok, MAX_DAILY_TRADES in *.
    destruct (date_differs _ d), (date_differs _ d); lia. }
  unfold MAX_DAILY_TRADES in *.
  split; [exact Hcnt|]. split; [lia|]. split; [lia|].
  rewrite Hord. apply orders_count.
Qed.

(** X11 (an exhausted quota stops everything): when 3 trades are counted
    for date [d] and every date query of a [run_cycle] call answers [d],
    the call returns the quota HOLD for every ticker, in order; it asks the
    date once per ticker and nothing else, so the holding is not checked
    for a stop-loss and no order is sent; the engine is left as it was. *)
Theorem exhausted_quota_holds_every_ticker (d : date) (tickers : list string)
    (current_holding : option string) (self : Engine) (w : W) r self' w' tr :
  MAX_DAILY_TRADES <= count_on d self ->
  run_cycle env tickers current_holding self w = (r, self', w', tr) ->
  same_day d tr ->
  r = Val (map quota_hold tickers)
  /\ self' = self
  /\ tr = map (fun _ => IToday d) tickers.
Proof.
  intros Hfull Hrun Hday. unfold run_cycle in Hrun.
  apply bind_inv in Hrun as [([out h] & s1 & w1 & t1 & t2 & E1 & Hrun & ->) | (e & E1 & ->)].
  - injection Hrun as <- <- _ <-. rewrite app_nil_r in *.
    destruct (cycle_loop_exhausted env d _ _ _ _ _ _ _ _ _ E1 Hday Hfull)
      as ([= -> ->] & -> & ->).
    auto.
  - destruct (cycle_loop_exhausted env d _ _ _ _ _ _ _ _ _ E1 Hday Hfull) as (H & _).
    discriminate H.
Qed.

(** X12 (positive prices never raise): when every last close that
    yfinance reports during a [run_cycle] call is above zero, the call
    raises nothing and returns one result per ticker; so the division by a
    zero peak needs a last close that is zero, negative or NaN. *)
Theorem positive_prices_never_raise (tickers : list string)
    (current_holding : option string) (self : Engine) (w : W) r self' w' tr :
  run_cycle env tickers current_holding self w = (r, self', w', tr) ->
  prices_positive tr ->
  exists out, r = Val out /\ length out = length tickers.
Proof.
  intros Hrun Hpos. destruct r as [out|e].
  - exists out. split; [reflexivity|]. now apply run_cycle_length in Hrun.
  - exfalso. unfold run_cycle in Hrun.
    apply bind_inv in Hrun as [(o & s1 & w1 & t1 & t2 & _ & [=] & _) | (e' & Hrun & _)].
    apply cycle_loop_exc_cause in Hrun as (symbol & closes & cur & Hin & Hc & Hz).
    rewrite (Hpos symbol closes cur Hin Hc) in Hz. discriminate Hz.
Qed.

End CycleTheorems.

(** The results of [two_buys]. *)
Lemma two_buys_run :
  run_cycle replay ["AAA"; "BBB"]%string None new_engine two_buys
  = (Val [{| action := BUY; ticker := "AAA"; T_score := 0.5; S_score := 0.5;
             confidence_score := 1; aligned := true; daily_trades_left := 2;
             reason := "Technical and sentiment aligned bullish." |};
          {| action := BUY; ticker := "BBB"; T_score := 0.5; S_score := 0.5;
             confidence_score := 1; aligned := true; daily_trades_left := 1;
             reason := "Technical and sentiment aligned bullish." |}],
     {| _trade_counter_date := Some 5; _trade_count_today := 2;
        _peak_prices := <["BBB"%string := 20%float]>
                          (<["AAA"%string := 10%float]> ∅) |},
     [], two_buys).
Proof. vm_compute. reflexivity. Qed.

(** A run of X8: after [two_buys] the count is 2. *)
Lemma run_cycle_counter_bounds_witness :
  0 <= 2 <= MAX_DAILY_TRADES.
Proof.
  refine (proj1 (run_cycle_counter_bounds replay ["AAA"; "BBB"]%string None
                   new_engine two_buys _ _ _ _ _ two_buys_run)).
  unfold counter_ok, MAX_DAILY_TRADES. cbn. lia.
Defined.

(** A run of X9: [two_buys] sends the two buy orders. *)
Lemma run_cycle_orders_follow_results_witness :
  List.filter is_order two_buys = [IExecuteBuy "AAA" 1; IExecuteBuy "BBB" 1].
Proof.
  exact (proj2 (proj2 (run_cycle_orders_follow_results replay
                         ["AAA"; "BBB"]%string None new_engine two_buys
                         _ _ _ _ two_buys_run))).
Defined.

(** A run of X10: [two_buys] makes two trades on date 5. *)
Lemma run_cycle_trades_within_quota_witness :
  Z.of_nat (length (List.filter is_order two_buys)) = 2.
Proof.
  refine (proj2 (proj2 (proj2 (run_cycle_trades_within_quota replay 5
                   ["AAA"; "BBB"]%string None new_engine two_buys
                   _ _ _ _ _ two_buys_run _)))).
  - unfold counter_ok, MAX_DAILY_TRADES. cbn. lia.
  - explicit_same_day.
Defined.

(** A run of X11: three trades counted on date 5, two tickers. *)
Lemma exhausted_quota_holds_every_ticker_witness :
  Val [quota_hold "AAA"; quota_hold "BBB"]
  = Val (map quota_hold ["AAA"; "BBB"]%string)
  /\ [IToday 5; IToday 5] = map (fun _ => IToday 5) ["AAA"; "BBB"]%string.
Proof.
  refine ((fun H => conj (proj1 H) (proj2 (proj2 H)))
            (exhausted_quota_holds_every_ticker replay 5 ["AAA"; "BBB"]%string
               (Some "CCC"%string)
               {| _trade_counter_date := Some 5; _trade_count_today := 3;
                  _peak_prices := ∅ |}
               [IToday 5; IToday 5] _ _ _ _ _ eq_refl _)).
  - unfold MAX_DAILY_TRADES. cbn. lia.
  - explicit_same_day.
Defined.

(** A run of X12: the closes of [two_buys] are 10 and 20. *)
Lemma positive_prices_never_raise_witness :
  exists out : list DecisionResult, length out = 2%nat.
Proof.
  destruct (positive_prices_never_raise replay ["AAA"; "BBB"]%string None
              new_engine two_buys _ _ _ _ two_buys_run) as (out & _ & Hlen).
  - intros symbol closes cur Hin Hc. cbn in Hin.
    repeat (destruct Hin as [Hin | Hin];
            [try discriminate Hin; injection Hin as <- <-;
             injection Hc as <-; reflexivity|]).
    contradiction.
  - exists out. exact Hlen.
Defined.

(** ** Symbols *)

Lemma ascii_upper_idem (c : ascii) : ascii_upper (ascii_upper c) = ascii_upper c.
Proof. destruct c as [[] [] [] [] [] [] [] []]; reflexivity. Qed.

Lemma upper_idem (s : string) : upper (upper s) = upper s.
Proof. induction s as [|c r IH]; cbn; [reflexivity|]. now rewrite ascii_upper_idem, IH. Qed.

Lemma upper_app (s t : string) : upper (s +:+ t) = upper s +:+ upper t.
Proof. induction s as [|c r IH]; simpl; [reflexivity|]. now rewrite IH. Qed.

Lemma length_app_string (s t : string) :
  String.length (s +:+ t) = (String.length s + String.length t)%nat.
Proof. induction s as [|c r IH]; simpl; [reflexivity|]. now rewrite IH. Qed.

Lemma substring_all (s : string) : substring 0 (String.length s) s = s.
Proof. induction s as [|c r IH]; cbn; [reflexivity|]. now rewrite IH. Qed.

Lemma substring_skip (s t : string) :
  substring (String.length s) (String.length t) (s +:+ t) = t.
Proof. induction s as [|c r IH]; cbn; [apply substring_all | exact IH]. Qed.

Lemma endswith_app (s t : string) : endswith (s +:+ t) t = true.
Proof.
  unfold endswith. rewrite length_app_string.
  rewrite Nat.add_sub, substring_skip, String.eqb_refl, andb_true_r.
  apply Nat.leb_le. lia.
Qed.

Lemma append_inv_tail (t s s' : string) : s +:+ t = s' +:+ t -> s = s'.
Proof.
  revert s'. induction s as [|c r IH]; intros [|c' r'] H; simpl in H.
  - reflexivity.
  - apply (f_equal String.length) in H. simpl in H.
    rewrite ?length_app_string in H. simpl in H. lia.
  - apply (f_equal String.length) in H. simpl in H.
    rewrite ?length_app_string in H. simpl in H. lia.
  - injection H as -> H. now rewrite (IH _ H).
Qed.

Lemma yf_symbol_endswith (ticker : string) : endswith (yf_symbol ticker) ".IS" = true.
Proof.
  unfold yf_symbol. destruct (endswith (upper ticker) ".IS") eqn:E;
    [exact E | apply endswith_app].
Qed.

Lemma yf_symbol_upper (ticker : string) : upper (yf_symbol ticker) = yf_symbol ticker.
Proof.
  unfold yf_symbol. destruct (endswith (upper ticker) ".IS");
    [apply upper_idem | now rewrite upper_app, upper_idem].
Qed.

Lemma ascii_upper_isascii (c : ascii) :
  Nat.ltb (nat_of_ascii c) 128 = true ->
  Nat.ltb (nat_of_ascii (ascii_upper c)) 128 = true.
Proof. destruct c as [[] [] [] [] [] [] [] []]; intros H; exact H || reflexivity. Qed.

Lemma upper_isascii (s : string) : isascii s = true -> isascii (upper s) = true.
Proof.
  induction s as [|c r IH]; simpl; [reflexivity|].
  intros H. apply andb_prop in H as [Hc Hr].
  now rewrite (ascii_upper_isascii c Hc), (IH Hr).
Qed.

Lemma isascii_app (s t : string) : isascii (s +:+ t) = (isascii s && isascii t)%bool.
Proof.
  induction s as [|c r IH]; simpl; [reflexivity|].
  now rewrite IH, andb_assoc.
Qed.

Lemma yf_symbol_isascii (ticker : string) :
  isascii ticker = true -> isascii (yf_symbol ticker) = true.
Proof.
  intros H. apply upper_isascii in H. unfold yf_symbol.
  destruct (endswith (upper ticker) ".IS"); [exact H|].
  now rewrite isascii_app, H.
Qed.

(** X13 (one symbol per ticker): for a ticker of ASCII characters, the
    symbol that the engine asks yfinance for is made of ASCII characters,
    ends with ".IS" and is in upper case; normalising it again gives the
    same symbol, and the case of the ticker does not matter. *)
Theorem yf_symbol_normal_form (ticker : string) :
  isascii ticker = true ->
  isascii (yf_symbol ticker) = true
  /\ endswith (yf_symbol ticker) ".IS" = true
  /\ upper (yf_symbol ticker) = yf_symbol ticker
  /\ yf_symbol (yf_symbol ticker) = yf_symbol ticker
  /\ (isascii (upper ticker) = true /\ yf_symbol (upper ticker) = yf_symbol ticker).
Proof.
  intros Hascii.
  pose proof (yf_symbol_endswith ticker) as H1.
  pose proof (yf_symbol_upper ticker) as H2.
  split; [now apply yf_symbol_isascii|].
  split; [exact H1|]. split; [exact H2|]. split.
  - unfold yf_symbol at 1. now rewrite H2, H1.
  - split; [now apply upper_isascii|]. unfold yf_symbol. now rewrite upper_idem.
Qed.

(** A run of X13: the tickers thyao and THYAO.IS are both asked as
    THYAO.IS. *)
Lemma yf_symbol_normal_form_witness :
  yf_symbol "thyao" = "THYAO.IS"%string
  /\ yf_symbol "THYAO.IS" = "THYAO.IS"%string.
Proof.
  destruct (yf_symbol_normal_form "thyao" eq_refl) as (_ & _ & _ & Hidem & _).
  split; [reflexivity | exact Hidem].
Defined.

(** X14 (the dashboard and the engine agree on upper-case tickers): for a
    ticker of ASCII characters, the engine's price lookup is the
    dashboard's lookup for the upper-cased ticker: the same symbol is
    asked, and the dashboard shows the last close, or 0.0 where the engine
    has no price.  The dashboard does not upper-case: its symbol for a
    ticker that is not in upper case differs from the engine's. *)
Theorem dashboard_price_matches_engine {W : Type} (env : Env W)
    (ticker : string) (self : Engine) (w : W) :
  isascii ticker = true ->
  isascii (upper ticker) = true
  /\ dashboard_symbol (upper ticker) = yf_symbol ticker
  /\ (forall price s1 w1 tr,
        _get_current_price env ticker self w = (Val price, s1, w1, tr) ->
        get_current_price env (upper ticker) w = (default 0%float price, w1, tr))
  /\ (upper ticker <> ticker -> dashboard_symbol ticker <> yf_symbol ticker).
Proof.
  intros Hascii.
  split; [now apply upper_isascii|]. split; [reflexivity|]. split.
  - intros price s1 w1 tr. rewrite get_current_price_run.
    unfold get_current_price.
    change (dashboard_symbol (upper ticker)) with (yf_symbol ticker).
    destruct (env_history env (yf_symbol ticker) w) as [hist w2]. cbn [fst snd].
    intros [= <- _ <- <-]. destruct hist; reflexivity.
  - intros Hne Heq. apply Hne.
    pose proof (yf_symbol_upper ticker) as Hup.
    rewrite <- Heq in Hup. unfold dashboard_symbol in Hup.
    destruct (endswith ticker ".IS"); [exact Hup|].
    rewrite upper_app in Hup. now apply append_inv_tail in Hup.
Qed.

(** A run of X14: the engine's lookup for thyao and the dashboard's lookup
    for THYAO read the same close; the dashboard's symbol for thyao is not
    the engine's. *)
Lemma dashboard_price_matches_engine_witness :
  get_current_price replay "THYAO" [IHistory "THYAO.IS" (Some [100%float; 101%float])]
  = (101%float, [], [IHistory "THYAO.IS" (Some [100%float; 101%float])])
  /\ dashboard_symbol "thyao" <> yf_symbol "thyao".
Proof.
  destruct (dashboard_price_matches_engine replay "thyao" new_engine
              [IHistory "THYAO.IS" (Some [100%float; 101%float])] eq_refl)
    as (_ & _ & Hprice & Hdiff).
  split.
  - exact (Hprice (Some 101%float) new_engine []
             [IHistory "THYAO.IS" (Some [100%float; 101%float])] eq_refl).
  - apply Hdiff. discriminate.
Defined.

(** ** The scheduler *)

(** X15 (the trading window): for a clock reading with a minute between 0
    and 59, [is_bist_trading_hours] answers true exactly from 09:55
    (included) to 18:10 (excluded); and of the wake-ups that follow 09:55
    at multiples of [INTERVAL_MINUTES], exactly the first 33 (numbers 0 to
    32) are inside the window. *)
Theorem trading_window :
  (forall h m, 0 <= m < 60 ->
     (is_bist_trading_hours h m = true <->
      (h = 9 /\ 55 <= m) \/ 10 <= h <= 17 \/ (h = 18 /\ m < 10)))
  /\ (forall i, 0 <= i ->
        let t := 9 * 60 + 55 + INTERVAL_MINUTES * i in
        (is_bist_trading_hours (t / 60) (t mod 60) = true <-> i < 33)).
Proof.
  split.
  - intros h m Hm. unfold is_bist_trading_hours, BIST_START, BIST_END.
    cbn [fst snd]. rewrite andb_true_iff, Z.leb_le, Z.ltb_lt. lia.
  - intros i Hi t. unfold is_bist_trading_hours, BIST_START, BIST_END.
    cbn [fst snd]. rewrite andb_true_iff, Z.leb_le, Z.ltb_lt.
    pose proof (Z.div_mod t 60 ltac:(lia)) as Hdm.
    replace (t / 60 * 60 + t mod 60) with t by lia.
    unfold t, INTERVAL_MINUTES. lia.
Qed.

(** One pass of the loop on the script [three_buys]. *)
Lemma main_iteration_three_buys (h m : Z) (rest : list Interaction) :
  is_bist_trading_hours h m = true ->
  main_iteration replay ["AAA"; "BBB"; "CCC"]%string
    {| engine_running := true; now_hour := h; now_minute := m;
       broker_positions := ["AAA"; "BBB"; "CCC"]%string |}
    (three_buys ++ rest)
  = ([], rest, three_buys).
Proof.
  intros Hh. unfold main_iteration. cbn [engine_running now_hour now_minute broker_positions andb].
  rewrite Hh. vm_compute. reflexivity.
Qed.

(** X16 (the daily limit is per cycle): [run_one_cycle] makes a new engine,
    so the count of the day starts at 0 in every cycle.  For any sequence
    of wake-ups inside the trading window with the engine enabled, there is
    a world, all on one date, in which every cycle buys three tickers: the
    loop sends three orders per wake-up to the broker, prints no error, and
    the number of orders of the date is not bounded by 3. *)
Theorem daily_limit_is_per_cycle (times : list (Z * Z)) :
  Forall (fun t => is_bist_trading_hours (fst t) (snd t) = true) times ->
  let its :=
    map (fun t => {| engine_running := true; now_hour := fst t; now_minute := snd t;
                     broker_positions := ["AAA"; "BBB"; "CCC"]%string |}) times in
  let world := concat (map (fun _ => three_buys) times) in
  main_loop replay ["AAA"; "BBB"; "CCC"]%string its world = ([], [], world)
  /\ same_day 5 world
  /\ Z.of_nat (length (List.filter is_order world)) = 3 * Z.of_nat (length times).
Proof.
  intros Hall. induction Hall as [|[h m] times Hh _ IH]; cbn zeta in *.
  - split; [reflexivity|]. split; [intros d []|reflexivity].
  - destruct IH as (Hrun & Hday & Hlen).
    cbn [map concat main_loop fst snd] in *.
    rewrite (main_iteration_three_buys h m _ Hh), Hrun.
    split; [reflexivity|]. split.
    + apply same_day_app. split; [explicit_same_day | exact Hday].
    + rewrite List.filter_app, length_app, Nat2Z.inj_add, Hlen.
      change (List.filter is_order three_buys)
        with [IExecuteBuy "AAA" 1; IExecuteBuy "BBB" 1; IExecuteBuy "CCC" 1].
      cbn [length]. lia.
Qed.

(** A run of X16: two wake-ups, at 10:00 and 10:15, send six orders on
    date 5. *)
Lemma daily_limit_is_per_cycle_witness :
  Z.of_nat (length (List.filter is_order (three_buys ++ three_buys ++ []))) = 6.
Proof.
  refine (proj2 (proj2 (daily_limit_is_per_cycle [(10, 0); (10, 15)] _))).
  repeat constructor.
Defined.
